(** * Educational AI Tutor (Gemma AI Educational Suite): a shallow embedding

    The development follows [src/main.py].  Each Python class whose behaviour
    is specified gets a module of the same name holding the translation of
    its methods; the theorems come after all the definitions.

    Conventions of the embedding
    - Python [str] is [string]; the whitespace test covers the ASCII range.
    - Python [int] is [Z].  A Python [float] that is the operand of a
      product or of [int(...)] (an audio duration, the rates 6.25 and 1.3)
      is an IEEE-754 double, [Py.float], and the product is rounded as the
      machine rounds it.  A token count, once computed, and the zoom level
      are carried as the number they stand for, in [Q]: totals are summed
      and compared on these numbers, the rounding of a sum of floats is
      not represented.
    - A method that can raise returns a [result]; [try]/[except] is written
      out as a match on it.
    - What a method observes of the outside world (file system, network,
      the ML framework, another thread setting an event) is an explicit
      argument. *)

From Stdlib Require Import ZArith QArith Qround String Ascii List Lia Bool SpecFloat.
From Stdlib Require Import DecimalString Lqa.
From stdpp Require Import base gmap sets list strings sorting.

Import ListNotations.
Local Open Scope string_scope.
Local Open Scope list_scope.
Local Open Scope Z_scope.
Local Set Warnings "-register-all".

(* ===================================================================== *)
(** * Part I.  The embedding                                              *)
(* ===================================================================== *)

(** ** Python built-ins used by the program *)

Module Py.

(** [str.isspace] on the ASCII range: TAB, LF, VT, FF, CR, FS, GS, RS, US
    and SPACE. *)
Definition is_space (c : ascii) : bool :=
  let n := nat_of_ascii c in
  ((9 <=? n)%nat && (n <=? 13)%nat) || ((28 <=? n)%nat && (n <=? 32)%nat).

Fixpoint lstrip (s : string) : string :=
  match s with
  | EmptyString => EmptyString
  | String c r => if is_space c then lstrip r else s
  end.

(** [rstrip] keeps a character when it is not a space or when something
    survives to its right. *)
Fixpoint rstrip (s : string) : string :=
  match s with
  | EmptyString => EmptyString
  | String c r =>
      match rstrip r with
      | EmptyString => if is_space c then EmptyString else String c EmptyString
      | r' => String c r'
      end
  end.

(** [s.strip()] *)
Definition strip (s : string) : string := rstrip (lstrip s).

(** Some character of [s] is not white space *)
Fixpoint has_nonspace (s : string) : bool :=
  match s with
  | EmptyString => false
  | String c r => negb (is_space c) || has_nonspace r
  end.

(** Truthiness of a string: [if s:] *)
Definition truthy_str (s : string) : bool :=
  match s with EmptyString => false | _ => true end.

(** [s.replace(old, new)] for a non-empty [old]: leftmost, non-overlapping
    occurrences.  [skip] counts the characters of a matched occurrence
    that are still to be dropped. *)
Fixpoint replace_from (skip : nat) (old new s : string) : string :=
  match s with
  | EmptyString => EmptyString
  | String c r =>
      match skip with
      | S k => replace_from k old new r
      | O =>
          if String.prefix old s
          then new +:+ replace_from (String.length old - 1) old new r
          else String c (replace_from O old new r)
      end
  end.

Definition replace (old new s : string) : string := replace_from O old new s.

(** [c in s] for a character [c] *)
Fixpoint contains_char (c : ascii) (s : string) : bool :=
  match s with
  | EmptyString => false
  | String x r => Ascii.eqb x c || contains_char c r
  end.

(** [sep.join(parts)] on strings *)
Fixpoint join (sep : string) (parts : list string) : string :=
  match parts with
  | [] => EmptyString
  | [p] => p
  | p :: rest => p +:+ sep +:+ join sep rest
  end.

(** [s.split()] : maximal runs of non-space characters.  [cur] is the run
    being read, in reverse. *)
Fixpoint split_ws_from (cur : list ascii) (s : string) : list string :=
  let flush (k : list string) :=
    match cur with
    | [] => k
    | _ => string_of_list_ascii (List.rev cur) :: k
    end in
  match s with
  | EmptyString => flush []
  | String c r =>
      if is_space c then flush (split_ws_from [] r)
      else split_ws_from (c :: cur) r
  end.

Definition split_ws (s : string) : list string := split_ws_from [] s.

(** [s.split(sep)] for a single-character separator *)
Fixpoint split_on_from (sep : ascii) (cur : list ascii) (s : string) : list string :=
  match s with
  | EmptyString => [string_of_list_ascii (List.rev cur)]
  | String c r =>
      if Ascii.eqb c sep
      then string_of_list_ascii (List.rev cur) :: split_on_from sep [] r
      else split_on_from sep (c :: cur) r
  end.

Definition split_on (sep : ascii) (s : string) : list string :=
  split_on_from sep [] s.

(** [int(s)] on a string: surrounding whitespace, an optional sign, then
    decimal digits in which single underscores may separate digits.
    [None] stands for [ValueError]. *)
Definition digit_of (c : ascii) : option Z :=
  let n := nat_of_ascii c in
  if ((48 <=? n)%nat && (n <=? 57)%nat) then Some (Z.of_nat n - 48) else None.

Fixpoint digits_from (after_digit : bool) (acc : Z) (s : string) : option Z :=
  match s with
  | EmptyString => if after_digit then Some acc else None
  | String c r =>
      match digit_of c with
      | Some d => digits_from true (10 * acc + d) r
      | None =>
          if Ascii.eqb c "_" && after_digit then digits_from false acc r
          else None
      end
  end.

Definition int_of_str (s : string) : option Z :=
  match strip s with
  | String "+" r => digits_from false 0 r
  | String "-" r => Z.opp <$> digits_from false 0 r
  | t => digits_from false 0 t
  end.

(** [str(n)] for a natural number *)
Definition str_of_nat (n : nat) : string :=
  NilEmpty.string_of_uint (Nat.to_uint n).

(** Slices.  [l[i:]] and [l[:j]] with Python's treatment of negative and
    out-of-range bounds. *)
Definition clamp_index (len i : Z) : Z :=
  if Z.ltb i 0 then Z.max (len + i) 0 else Z.min i len.

Definition slice_from {A} (i : Z) (l : list A) : list A :=
  drop (Z.to_nat (clamp_index (Z.of_nat (length l)) i)) l.

Definition slice_to {A} (j : Z) (l : list A) : list A :=
  take (Z.to_nat (clamp_index (Z.of_nat (length l)) j)) l.

(** Exceptions: a class and the text [str(e)].  [except:] catches every
    exception, [except Exception] only those derived from [Exception]
    (all of the classes below but the last two). *)
Inductive exn_class :=
| OSError | JSONDecodeError | UnicodeDecodeError | TypeError | ValueError
| KeyError | AttributeError | Exception
| KeyboardInterrupt | SystemExit.

Record exn := Exn { exn_cls : exn_class; exn_str : string }.

Definition is_Exception (e : exn) : bool :=
  match exn_cls e with
  | KeyboardInterrupt | SystemExit => false
  | _ => true
  end.

Inductive result (A : Type) :=
| Ok (a : A)
| Raise (e : exn).
Arguments Ok {A} a.
Arguments Raise {A} e.

(** Code that reads and writes a state [S] and may raise.  The state
    reached when an exception is raised is kept: nothing is rolled back. *)
Definition M (S A : Type) : Type := S -> result A * S.

Definition ret {S A} (a : A) : M S A := fun s => (Ok a, s).

Definition raise {S A} (e : exn) : M S A := fun s => (Raise e, s).

Definition bind {S A B} (m : M S A) (k : A -> M S B) : M S B :=
  fun s => match m s with
           | (Ok a, s') => k a s'
           | (Raise e, s') => (Raise e, s')
           end.

(** [try: m  except <classes accepted by catch> as e: h e] *)
Definition try_except {S A} (catch : exn -> bool) (m : M S A) (h : exn -> M S A) : M S A :=
  fun s => match m s with
           | (Ok a, s') => (Ok a, s')
           | (Raise e, s') => if catch e then h e s' else (Raise e, s')
           end.

Definition lift {S A} (r : result A) : M S A := fun s => (r, s).

Definition get {S} : M S S := fun s => (Ok s, s).

Definition modify {S} (f : S -> S) : M S unit := fun s => (Ok tt, f s).

Definition catch_all (e : exn) : bool := true.

(** Floats.  A Python float is an IEEE-754 double: the library's
    [spec_float] with a mantissa of 53 bits, products and quotients
    rounded to the nearest double, ties to even. *)
Definition float := spec_float.

Definition float_mul (x y : float) : float := SFmul 53 1024 x y.
Definition float_div (x y : float) : float := SFdiv 53 1024 x y.

(** [float(n)] for an integer, and the integer in [int * float] *)
Definition float_of_int (n : Z) : float := binary_normalize 53 1024 n 0 false.

(** A decimal literal such as [6.25], given as [625 / 100]: the double
    nearest to it *)
Definition float_literal (num den : Z) : float :=
  float_div (float_of_int num) (float_of_int den).


(** The number a finite float stands for *)
Definition float_value (x : float) : Q :=
  match x with
  | S754_finite s m e =>
      let n := if s then Z.neg m else Z.pos m in
      match e with
      | Z.neg p => n # (2 ^ p)
      | _ => inject_Z (n * 2 ^ e)
      end
  | _ => 0%Q
  end.

(** [int(x)] on a float: truncation toward zero; [OverflowError] for an
    infinity (recorded by its base class) and [ValueError] for a NaN *)
Definition int_of_float (x : float) : result Z :=
  match x with
  | S754_zero _ => Ok 0
  | S754_finite s m e =>
      let magnitude := if 0 <=? e then Z.pos m * 2 ^ e else Z.pos m / 2 ^ (- e) in
      Ok (if s then - magnitude else magnitude)
  | S754_infinity _ => Raise (Exn Exception "cannot convert float infinity to integer")
  | S754_nan => Raise (Exn ValueError "cannot convert float NaN to integer")
  end.

(** A computation that only ever adds to the log [tr] of its state *)
Definition grows {S E A} (tr : S -> list E) (m : M S A) : Prop :=
  forall s, exists l, tr (snd (m s)) = tr s ++ l.

(** Values, as far as the program looks into them: the JSON values of the
    configuration file and the chat messages given to the worker thread.
    A dictionary is its list of items (keys are strings here); any other
    object is [VObj]. *)
Inductive value :=
| VNone
| VBool (b : bool)
| VInt (n : Z)
| VStr (s : string)
| VList (items : list value)
| VDict (items : list (string * value))
| VObj (name : string).

Fixpoint assoc (k : string) (d : list (string * value)) : option value :=
  match d with
  | [] => None
  | (k', v) :: r => if String.eqb k k' then Some v else assoc k r
  end.

(** [d.get(k, default)] *)
Definition dict_get (d : list (string * value)) (k : string) (default : value) : value :=
  match assoc k d with Some v => v | None => default end.

(** [v == s] for a string literal [s] *)
Definition eq_str (v : value) (s : string) : bool :=
  match v with VStr t => String.eqb t s | _ => false end.

(** Truthiness, [if v:] *)
Definition truthy (v : value) : bool :=
  match v with
  | VNone => false
  | VBool b => b
  | VInt n => negb (n =? 0)
  | VStr s => truthy_str s
  | VList l => match l with [] => false | _ => true end
  | VDict d => match d with [] => false | _ => true end
  | VObj _ => true
  end.

(** [type(v).__name__] *)
Definition type_name (v : value) : string :=
  match v with
  | VNone => "NoneType"
  | VBool _ => "bool"
  | VInt _ => "int"
  | VStr _ => "str"
  | VList _ => "list"
  | VDict _ => "dict"
  | VObj name => name
  end.

(** [d[k]] and [d[k] = v]: indexing anything but a dictionary, or a
    missing key, raises. *)
Definition getitem (v : value) (k : string) : result value :=
  match v with
  | VDict d => match assoc k d with
               | Some x => Ok x
               | None => Raise (Exn KeyError k)
               end
  | _ => Raise (Exn TypeError "object is not subscriptable")
  end.

Fixpoint dict_update (d : list (string * value)) (k : string) (x : value)
  : list (string * value) :=
  match d with
  | [] => [(k, x)]
  | (k', v) :: r => if String.eqb k k' then (k, x) :: r
                    else (k', v) :: dict_update r k x
  end.

Definition setitem (v : value) (k : string) (x : value) : result value :=
  match v with
  | VDict d => Ok (VDict (dict_update d k x))
  | _ => Raise (Exn TypeError "object does not support item assignment")
  end.

(** [v.get(k, default)] on any value *)
Definition get_method (v : value) (k : string) (default : value) : result value :=
  match v with
  | VDict d => Ok (dict_get d k default)
  | _ => Raise (Exn AttributeError "object has no attribute 'get'")
  end.

(** [os.path.join(a, b)] (POSIX) *)
Fixpoint ends_with_slash (s : string) : bool :=
  match s with
  | EmptyString => false
  | String c EmptyString => Ascii.eqb c "/"
  | String _ r => ends_with_slash r
  end.

Definition path_join (a b : string) : string :=
  if String.prefix "/" b then b
  else if negb (truthy_str a) || ends_with_slash a then a +:+ b
  else a +:+ "/" +:+ b.

(** The directory a POSIX path names, as its list of components below
    the root: empty components and [.] are skipped, [..] goes to the
    parent (symbolic links are not followed). *)
Definition resolve_step (stack : list string) (c : string) : list string :=
  if String.eqb c "" || String.eqb c "." then stack
  else if String.eqb c ".." then removelast stack
  else stack ++ [c].

Definition resolve (p : string) : list string :=
  fold_left resolve_step (split_on "/" p) [].

Fixpoint list_string_eqb (a b : list string) : bool :=
  match a, b with
  | [], [] => true
  | x :: a', y :: b' => String.eqb x y && list_string_eqb a' b'
  | _, _ => false
  end.

(** [p] names an entry directly inside directory [dir] *)
Definition is_child_of (dir p : string) : bool :=
  match List.rev (resolve p) with
  | [] => false
  | _ :: parent_rev => list_string_eqb (List.rev parent_rev) (resolve dir)
  end.

(** [p] names [dir] or something below it *)
Definition is_within (dir p : string) : bool :=
  let d := resolve dir in
  list_string_eqb (take (length d) (resolve p)) d.

(** [a < b] on floats *)
Definition float_lt (a b : Q) : bool := negb (Qle_bool b a).

(** [str(n)] for an integer *)
Definition str_of_int (n : Z) : string :=
  if Z.ltb n 0 then "-" +:+ str_of_nat (Z.to_nat (- n)) else str_of_nat (Z.to_nat n).

(** [s[:n]] for [n >= 0] *)
Definition prefix_of_length (n : nat) (s : string) : string := String.substring 0 n s.

End Py.

Notation "'let*' x ':=' m 'in' k" := (Py.bind m (fun x => k))
  (at level 10, x binder, m at level 200, k at level 200, only parsing).
Notation "m ';;' k" := (Py.bind m (fun _ => k))
  (at level 100, right associativity, only parsing).

(** ** class ModelManager *)

Module ModelManager.

Import Py.

(** What one call observes of the machine it runs on.  The handles
    returned by [FastModel.from_pretrained] are opaque; they are named by
    the string they were loaded from. *)
Record world := {
  home : string;                                (* os.path.expanduser("~") *)
  path_exists : string -> bool;                 (* os.path.exists *)
  path_isdir : string -> bool;                  (* os.path.isdir *)
  read_json : string -> result value;           (* open(p, 'r'); json.load *)
  write_json : string -> value -> result unit;  (* open(p, 'w'); json.dump *)
  urlopen : string -> result unit;              (* urllib.request.urlopen *)
  from_pretrained : string -> result string;    (* FastModel.from_pretrained *)
  save_pretrained : string -> result unit;      (* model/tokenizer.save_pretrained *)
  rmtree : string -> result unit;               (* shutil.rmtree *)
  walk_files : string -> list string;           (* files met by os.walk *)
  getsize : string -> result Z                  (* os.path.getsize *)
}.

(** What a call does to the outside, in order.  [Enter_download_model]
    marks the entry of [download_model]; the other events are the
    calls made to the operating system, the network and the framework. *)
Inductive event :=
| Enter_download_model (model_name : string)
| Progress (message : string)
| Print (message : string)
| Url_open (url : string)
| From_pretrained (name_or_path : string)
| Save_pretrained (path : string)
| Open_read (path : string)
| Open_write (path : string)
| Stat (path : string)
| Rm_tree (path : string).

Record t := {
  config : value;
  log : list event
}.

Definition emit (e : event) : M t unit :=
  modify (fun self => {| config := config self; log := log self ++ [e] |}).

Definition set_config (c : value) : M t unit :=
  modify (fun self => {| config := c; log := log self |}).

Definition get_config : M t value :=
  let* self := get in ret (config self).

(** [if progress_callback: progress_callback(message)] *)
Definition progress (progress_callback : bool) (message : string) : M t unit :=
  if progress_callback then emit (Progress message) else ret tt.

Section Methods.

Variable w : world.

Definition models_dir : string :=
  path_join (path_join (home w) ".educational_ai_tutor") "models".

Definition config_file : string :=
  path_join (path_join (home w) ".educational_ai_tutor") "config.json".

Definition default_config : value :=
  VDict [("downloaded_models", VList []);
         ("last_used_model", VNone);
         ("offline_mode", VBool false)].

Definition load_config : M t value :=
  let* parsed :=
    try_except catch_all
      (emit (Stat config_file);;
       if path_exists w config_file
       then emit (Open_read config_file);;
            let* v := lift (read_json w config_file) in
            ret (Some v)
       else ret None)
      (fun _ => ret None)
  in
  match parsed with
  | Some v => ret v
  | None => ret default_config
  end.

Definition save_config : M t unit :=
  try_except is_Exception
    (let* c := get_config in
     emit (Open_write config_file);;
     lift (write_json w config_file c))
    (fun e => emit (Print ("Error saving config: " +:+ exn_str e))).

Definition is_online : M t bool :=
  try_except catch_all
    (emit (Url_open "https://huggingface.co");;
     lift (urlopen w "https://huggingface.co");;
     ret true)
    (fun _ => ret false).

Definition safe_name (model_name : string) : string :=
  replace "\" "_" (replace "/" "_" model_name).

Definition get_model_path (model_name : string) : string :=
  path_join models_dir (safe_name model_name).

Definition is_model_downloaded (model_name : string) : M t bool :=
  let model_path := get_model_path model_name in
  emit (Stat model_path);;
  ret (path_exists w model_path && path_isdir w model_path).

(** [x in l] and [l.append(x)], [l.remove(x)] for a string [x] *)
Definition contains_str (l : list value) (x : string) : bool :=
  existsb (fun v => eq_str v x) l.

Fixpoint remove_str (l : list value) (x : string) : list value :=
  match l with
  | [] => []
  | v :: r => if eq_str v x then r else v :: remove_str r x
  end.

Definition as_items (v : value) (op : string) : result (list value) :=
  match v with
  | VList l => Ok l
  | _ => Raise (Exn TypeError op)
  end.

Definition download_model (model_name : string) (progress_callback : bool)
  : M t string :=
  emit (Enter_download_model model_name);;
  try_except is_Exception
    (progress progress_callback "Checking internet connection...";;
     let* online := is_online in
     if negb online then raise (Exn Exception "No internet connection available")
     else
       progress progress_callback ("Downloading " +:+ model_name +:+ "...");;
       emit (From_pretrained model_name);;
       let* handles := lift (from_pretrained w model_name) in
       progress progress_callback "Saving model locally...";;
       let model_path := get_model_path model_name in
       emit (Save_pretrained model_path);;
       lift (save_pretrained w model_path);;
       let* c := get_config in
       let* dm := lift (getitem c "downloaded_models") in
       let* l := lift (as_items dm "argument of type is not iterable") in
       (if negb (contains_str l model_name)
        then let* c' := lift (setitem c "downloaded_models"
                                (VList (l ++ [VStr model_name]))) in
             set_config c'
        else ret tt);;
       let* c := get_config in
       let* c' := lift (setitem c "last_used_model" (VStr model_name)) in
       set_config c';;
       save_config;;
       progress progress_callback "Model downloaded and saved successfully!";;
       ret handles)
    (fun e =>
       progress progress_callback ("Download failed: " +:+ exn_str e);;
       raise e).

Definition load_local_model (model_name : string) (progress_callback : bool)
  : M t string :=
  try_except is_Exception
    (let model_path := get_model_path model_name in
     let* downloaded := is_model_downloaded model_name in
     if negb downloaded
     then raise (Exn Exception ("Model " +:+ model_name +:+ " not found locally"))
     else
       progress progress_callback ("Loading local model " +:+ model_name +:+ "...");;
       emit (From_pretrained model_path);;
       let* handles := lift (from_pretrained w model_path) in
       let* c := get_config in
       let* c' := lift (setitem c "last_used_model" (VStr model_name)) in
       set_config c';;
       save_config;;
       progress progress_callback "Local model loaded successfully!";;
       ret handles)
    (fun e =>
       progress progress_callback ("Failed to load local model: " +:+ exn_str e);;
       raise e).

(** "Try local first, then download if needed" *)
Definition load_model (model_name : string) (progress_callback : bool)
  : M t string :=
  let* downloaded := is_model_downloaded model_name in
  let* loaded :=
    if downloaded
    then try_except is_Exception
           (let* handles := load_local_model model_name progress_callback in
            ret (Some handles))
           (fun e =>
              emit (Print ("Failed to load local model, will try to download: "
                           +:+ exn_str e));;
              ret None)
    else ret None
  in
  match loaded with
  | Some handles => ret handles
  | None => download_model model_name progress_callback
  end.

Definition delete_model (model_name : string) : M t bool :=
  try_except is_Exception
    (let model_path := get_model_path model_name in
     emit (Stat model_path);;
     (if path_exists w model_path
      then emit (Rm_tree model_path);; lift (rmtree w model_path)
      else ret tt);;
     let* c := get_config in
     let* dm := lift (getitem c "downloaded_models") in
     let* l := lift (as_items dm "argument of type is not iterable") in
     (if contains_str l model_name
      then let* c' := lift (setitem c "downloaded_models"
                              (VList (remove_str l model_name))) in
           set_config c'
      else ret tt);;
     let* c := get_config in
     let* lu := lift (getitem c "last_used_model") in
     (if eq_str lu model_name
      then let* c' := lift (setitem c "last_used_model" VNone) in set_config c'
      else ret tt);;
     save_config;;
     ret true)
    (fun e => emit (Print ("Error deleting model: " +:+ exn_str e));; ret false).

Fixpoint sum_sizes (files : list string) (total_size : Z) : M t Z :=
  match files with
  | [] => ret total_size
  | file_path :: rest =>
      emit (Stat file_path);;
      let* n := lift (getsize w file_path) in
      sum_sizes rest (total_size + n)
  end.

Definition get_model_size (model_name : string) : M t Z :=
  try_except catch_all
    (let model_path := get_model_path model_name in
     emit (Stat model_path);;
     if negb (path_exists w model_path) then ret 0
     else sum_sizes (walk_files w model_path) 0)
    (fun _ => ret 0).

End Methods.

(** [ModelManager.__init__] leaves the loaded configuration in [config]. *)
Definition init (w : world) : t :=
  let '(r, self) := load_config w {| config := VNone; log := [] |} in
  match r with
  | Ok c => {| config := c; log := log self |}
  | Raise _ => self
  end.

End ModelManager.

(** ** class TokenManager *)

Module TokenManager.

(** [encoder] is the tiktoken encoding when it could be loaded; only the
    token list of [encoder.encode] is observed. *)
Record t := {
  encoder : option (string -> list nat);
  max_context_tokens : Z;
  image_tokens : Z;
  audio_tokens_per_second : Py.float
}.

Definition init (enc : option (string -> list nat)) : t :=
  {| encoder := enc;
     max_context_tokens := 32000;
     image_tokens := 256;
     audio_tokens_per_second := Py.float_literal 625 100 |}.

(** [text] is [None] or a string.  With an encoder the count is an
    integer, without one it is the float [len(text.split()) * 1.3].  A
    count is carried as the exact number it stands for. *)
Definition count_text_tokens (self : t) (text : option string) : Q :=
  match text with
  | None => 0
  | Some s =>
      if negb (Py.truthy_str s) then 0
      else match encoder self with
           | Some encode => inject_Z (Z.of_nat (length (encode s)))
           | None =>
               Py.float_value
                 (Py.float_mul (Py.float_of_int (Z.of_nat (length (Py.split_ws s))))
                               (Py.float_literal 13 10))
           end
  end%Q.

Definition count_image_tokens (self : t) (image_count : Z) : Z :=
  image_count * image_tokens self.

Definition count_audio_tokens (self : t) (duration_seconds : Py.float) : Py.result Z :=
  Py.int_of_float (Py.float_mul duration_seconds (audio_tokens_per_second self)).

Definition get_color_for_usage (self : t) (token_count : Q) : string :=
  let usage_percent := (token_count / inject_Z (max_context_tokens self) * 100)%Q in
  if Py.float_lt usage_percent 50 then "#28a745"
  else if Py.float_lt usage_percent 75 then "#ffc107"
  else if Py.float_lt usage_percent 90 then "#fd7e14"
  else "#dc3545".

End TokenManager.

(** ** class DocumentViewer *)

Module DocumentViewer.

(** The fields the page, zoom and selection commands read and write.
    [page_from] and [page_to] are the two entry boxes of the tool bar.
    Redrawing ([display_pdf_page]) reads these fields and writes none of
    them, so it does not appear. *)
Record t := {
  is_pdf : bool;
  total_pages : Z;
  current_page : Z;
  selected_pages : gset Z;
  zoom_level : Q;
  page_from : string;
  page_to : string
}.

(** [min(a, b)] and [max(a, b)] on floats *)
Definition float_min (a b : Q) : Q := if Qle_bool a b then a else b.
Definition float_max (a b : Q) : Q := if Qle_bool b a then a else b.

(** [__init__]: [pdf_pages] is [len(fitz.open(doc_path))] for a [.pdf]
    file and [None] for any other document. *)
Definition init (pdf_pages : option Z) : t :=
  {| is_pdf := match pdf_pages with Some _ => true | None => false end;
     total_pages := match pdf_pages with Some n => n | None => 1 end;
     current_page := 0;
     selected_pages := ∅;
     zoom_level := 1;
     page_from := "1";
     page_to := match pdf_pages with
                | Some n => Py.str_of_nat (Z.to_nat n)
                | None => ""
                end |}.

Definition set_current_page (self : t) (p : Z) : t :=
  {| is_pdf := is_pdf self; total_pages := total_pages self;
     current_page := p; selected_pages := selected_pages self;
     zoom_level := zoom_level self;
     page_from := page_from self; page_to := page_to self |}.

Definition set_zoom_level (self : t) (z : Q) : t :=
  {| is_pdf := is_pdf self; total_pages := total_pages self;
     current_page := current_page self; selected_pages := selected_pages self;
     zoom_level := z;
     page_from := page_from self; page_to := page_to self |}.

Definition set_selected_pages (self : t) (sel : gset Z) : t :=
  {| is_pdf := is_pdf self; total_pages := total_pages self;
     current_page := current_page self; selected_pages := sel;
     zoom_level := zoom_level self;
     page_from := page_from self; page_to := page_to self |}.

Definition set_entries (self : t) (from to : string) : t :=
  {| is_pdf := is_pdf self; total_pages := total_pages self;
     current_page := current_page self; selected_pages := selected_pages self;
     zoom_level := zoom_level self;
     page_from := from; page_to := to |}.

Definition prev_page (self : t) : t :=
  if 0 <? current_page self
  then set_current_page self (current_page self - 1)
  else self.

Definition next_page (self : t) : t :=
  if current_page self <? total_pages self - 1
  then set_current_page self (current_page self + 1)
  else self.

Definition zoom_in (self : t) : t :=
  set_zoom_level self (float_min 3 (zoom_level self + (2 # 10))).

Definition zoom_out (self : t) : t :=
  set_zoom_level self (float_max (1 # 2) (zoom_level self - (2 # 10))).

Definition toggle_page_selection (self : t) : t :=
  if negb (is_pdf self) then self
  else
    let page_num := current_page self + 1 in
    if decide (page_num ∈ selected_pages self)
    then set_selected_pages self (selected_pages self ∖ {[page_num]})
    else set_selected_pages self ({[page_num]} ∪ selected_pages self).

(** [for page_num in range(start, stop): selected.add(page_num)] *)
Definition add_range (start stop : Z) (selected : gset Z) : gset Z :=
  foldl (fun sel page_num => {[page_num]} ∪ sel) selected
        (seqZ start (stop - start)).

(** A [ValueError] of either [int(...)] leaves the viewer as it is (an
    error box is shown). *)
Definition select_range (self : t) : t :=
  if negb (is_pdf self) then self
  else
    match Py.int_of_str (page_from self), Py.int_of_str (page_to self) with
    | Some start, Some end_ =>
        let start := Z.max 1 (Z.min start (total_pages self)) in
        let end_ := Z.max start (Z.min end_ (total_pages self)) in
        set_selected_pages self (add_range start (end_ + 1) (selected_pages self))
    | _, _ => self
    end.

Definition clear_selection (self : t) : t :=
  if negb (is_pdf self) then self
  else set_selected_pages self ∅.

(** What the user can do in the viewer window: press one of the tool-bar
    buttons, click the page, or type into the two page entry boxes. *)
Inductive command :=
| Prev_page | Next_page | Zoom_in | Zoom_out
| Toggle_page_selection | Select_range | Clear_selection
| Edit_entries (from to : string).

Definition step (self : t) (c : command) : t :=
  match c with
  | Prev_page => prev_page self
  | Next_page => next_page self
  | Zoom_in => zoom_in self
  | Zoom_out => zoom_out self
  | Toggle_page_selection => toggle_page_selection self
  | Select_range => select_range self
  | Clear_selection => clear_selection self
  | Edit_entries from to => set_entries self from to
  end.

Definition run (cs : list command) (self : t) : t := foldl step self cs.

(** The state invariant of the viewer *)
Record invariant (self : t) : Prop := {
  page_in_range : 0 <= current_page self < total_pages self;
  zoom_in_range : (1 # 2 <= zoom_level self)%Q /\ (zoom_level self <= 3)%Q;
  selection_in_range :
    forall p, p ∈ selected_pages self -> 1 <= p <= total_pages self
}.

(** *** The text of a document

    What [extract_text] observes of the opened file: [len(self.doc)],
    what [self.doc[i].get_text()] returns or raises for a PDF, and what
    the branch of any other file type reads or raises. *)
Record document := {
  page_count : Z;
  get_text : Z -> Py.result string;
  other_text : Py.result string
}.

Definition newline : string := String (ascii_of_nat 10) EmptyString.

(** [f"\n--- Page {page_num} ---\n"] *)
Definition page_header (page_num : Z) : string :=
  newline +:+ "--- Page " +:+ Py.str_of_int page_num +:+ " ---" +:+ newline.

(** [sorted(self.selected_pages)] *)
Definition sorted_pages (selected : gset Z) : list Z :=
  merge_sort Z.le (elements selected).

(** The loop over the selected pages *)
Fixpoint selected_text (doc : document) (page_nums : list Z) (text_content : string)
  : Py.result string :=
  match page_nums with
  | [] => Py.Ok text_content
  | page_num :: rest =>
      match get_text doc (page_num - 1) with
      | Py.Ok page_text =>
          selected_text doc rest (text_content +:+ page_header page_num +:+ page_text)
      | Py.Raise e => Py.Raise e
      end
  end.

(** The loop [for page_num in range(len(self.doc))] *)
Fixpoint all_text (doc : document) (indices : list Z) (text_content : string)
  : Py.result string :=
  match indices with
  | [] => Py.Ok text_content
  | page_num :: rest =>
      match get_text doc page_num with
      | Py.Ok page_text =>
          all_text doc rest (text_content +:+ page_header (page_num + 1) +:+ page_text)
      | Py.Raise e => Py.Raise e
      end
  end.

(** [extract_text]; [is_pdf] stands for the test [self.file_ext == '.pdf']
    ([__init__] sets the two together).  The [except Exception] turns an
    ordinary failure into the error text; any other exception goes on. *)
Definition extract_text (doc : document) (self : t) : Py.result string :=
  let extracted :=
    if is_pdf self then
      if bool_decide (selected_pages self = ∅)
      then all_text doc (seqZ 0 (page_count doc)) ""
      else selected_text doc (sorted_pages (selected_pages self)) ""
    else other_text doc in
  match extracted with
  | Py.Ok text_content => Py.Ok text_content
  | Py.Raise e =>
      if Py.is_Exception e then Py.Ok ("Error extracting text: " +:+ Py.exn_str e)
      else Py.Raise e
  end.

(** What [use_selected] and [use_all_text] hand to the callback (the
    text and the page numbers); [None] when [use_selected] only shows
    its warning. *)
Definition use_selected (doc : document) (self : t)
  : Py.result (option (string * list Z)) :=
  if negb (is_pdf self) || bool_decide (selected_pages self = ∅) then Py.Ok None
  else match extract_text doc self with
       | Py.Ok text_content =>
           Py.Ok (Some (text_content, sorted_pages (selected_pages self)))
       | Py.Raise e => Py.Raise e
       end.

Definition use_all_text (doc : document) (self : t) : Py.result (string * list Z) :=
  match extract_text doc self with
  | Py.Ok text_content =>
      Py.Ok (text_content, if is_pdf self then seqZ 1 (total_pages self) else [1])
  | Py.Raise e => Py.Raise e
  end.

(** [__init__] for a PDF document *)
Definition open_pdf (doc : document) : t := init (Some (page_count doc)).

End DocumentViewer.

(** ** class ModelThread *)

Module ModelThread.

Import Py.

(** Messages placed on the response queue *)
Inductive response :=
| Chunk (text : string)
| Complete
| Stopped
| Error (message : string).

(** One call that [model.generate] makes on its streamer: [put], which
    may finalize some text, and the closing [end], which flushes the
    rest. *)
Inductive streamer_call :=
| Streamer_put (finalized : option string)
| Streamer_end (text : string).

(** What one run of the thread meets.  The worker's actions are counted
    by a clock; [stop_at = Some n] says that another thread calls
    [stop()] just before the worker's action number [n], so that every
    interleaving of the two threads is some value of [stop_at]. *)
Record world := {
  stop_at : option nat;
  model : bool;                                (* self.model is truthy *)
  tokenizer : bool;                            (* self.tokenizer is truthy *)
  str_of : value -> string;                    (* str(x) on a non-string *)
  tokenize : string -> result bool;            (* false: input_ids is None *)
  generate : list streamer_call * result unit; (* generate(..., streamer=...) *)
  tokenize_simple : string -> result unit;
  generate_simple : result (option string)     (* decoded new tokens, if any *)
}.

(** What the worker does, in order (console output left out).  A [Put]
    records whether the stop event was already set when the message
    entered the queue. *)
Inductive action :=
| Put (r : response) (stop_was_set : bool)
| Tokenizer_call (text : string)
| Generate_call (streaming : bool).

Record t := {
  clock : nat;
  trace : list action
}.

Definition tick (self : t) : t :=
  {| clock := S (clock self); trace := trace self |}.

Definition record (a : action) (self : t) : t :=
  {| clock := S (clock self); trace := trace self ++ [a] |}.

Section Run.

Variable w : world.

Definition stop_is_set (now : nat) : bool :=
  match stop_at w with
  | Some n => (n <=? now)%nat
  | None => false
  end.

(** [self.stop_generation.is_set()] *)
Definition is_set : M t bool :=
  fun self => (Ok (stop_is_set (clock self)), tick self).

(** [queue.put(r)] *)
Definition queue_put (r : response) : M t unit :=
  fun self => (Ok tt, record (Put r (stop_is_set (clock self))) self).

(** *** StreamCapture *)

Definition on_finalized_text (text : string) : M t unit :=
  let* stopped := is_set in
  if stopped then ret tt
  else
    let cleaned_text :=
      replace "<start_of_turn>" ""
        (replace "<|endoftext|>" ""
           (replace "<|end_of_text|>" ""
              (replace "<end_of_turn>" "" text))) in
    if truthy_str cleaned_text then queue_put (Chunk cleaned_text) else ret tt.

(** [put] defers to [TextStreamer.put], which calls [on_finalized_text]
    when it has text to show. *)
Definition streamer_put (finalized : option string) : M t unit :=
  let* stopped := is_set in
  if stopped then ret tt
  else match finalized with
       | Some text => on_finalized_text text
       | None => ret tt
       end.

Definition streamer_step (c : streamer_call) : M t unit :=
  match c with
  | Streamer_put finalized => streamer_put finalized
  | Streamer_end text => on_finalized_text text
  end.

Fixpoint stream (calls : list streamer_call) : M t unit :=
  match calls with
  | [] => ret tt
  | c :: rest => streamer_step c;; stream rest
  end.

(** *** The prompt *)

(** [' '.join(text_parts)]: a part that is not a string is a [TypeError]. *)
Fixpoint strings_from (i : nat) (parts : list value) : result (list string) :=
  match parts with
  | [] => Ok []
  | VStr s :: rest =>
      match strings_from (S i) rest with
      | Ok l => Ok (s :: l)
      | Raise e => Raise e
      end
  | other :: rest =>
      Raise (Exn TypeError
               ("sequence item " +:+ str_of_nat i +:+ ": expected str instance, "
                +:+ type_name other +:+ " found"))
  end.

Definition strings_of (parts : list value) : result (list string) :=
  strings_from 0 parts.

(** The [text_parts] of a list-valued content *)
Fixpoint text_parts (items : list value) : list value :=
  match items with
  | [] => []
  | VDict d :: rest =>
      if eq_str (dict_get d "type" VNone) "text"
      then dict_get d "text" (VStr "") :: text_parts rest
      else text_parts rest
  | VStr s :: rest => VStr s :: text_parts rest
  | _ :: rest => text_parts rest
  end.

(** The content of a message as a string *)
Definition content_text (content : value) : result string :=
  match content with
  | VList items =>
      match strings_of (text_parts items) with
      | Ok parts => Ok (join " " parts)
      | Raise e => Raise e
      end
  | VStr s => Ok s
  | other => Ok (str_of w other)
  end.

Definition newline : string := String (ascii_of_nat 10) EmptyString.

(** What one iteration of the loop over [self.messages] appends to
    [conversation_text] *)
Definition turn_text (msg : value) : result string :=
  match msg with
  | VDict d =>
      let role := dict_get d "role" (VStr "user") in
      match content_text (dict_get d "content" (VStr "")) with
      | Ok content =>
          if truthy_str (strip content)
          then if eq_str role "user"
               then Ok ("<start_of_turn>user" +:+ newline +:+ content
                        +:+ "<end_of_turn>" +:+ newline)
               else Ok ("<start_of_turn>model" +:+ newline +:+ content
                        +:+ "<end_of_turn>" +:+ newline)
          else Ok ""
      | Raise e => Raise e
      end
  | _ => Ok ""
  end.

(** The loop; [None] is the [return] taken when the event is found set. *)
Fixpoint conversation_loop (messages : list value) (conversation_text : string)
  : M t (option string) :=
  match messages with
  | [] => ret (Some conversation_text)
  | msg :: rest =>
      let* stopped := is_set in
      if stopped then ret None
      else
        let* added := lift (turn_text msg) in
        conversation_loop rest (conversation_text +:+ added)
  end.

(** *** The fall-back prompt *)

Definition upper_char (c : ascii) : ascii :=
  let n := nat_of_ascii c in
  if ((97 <=? n)%nat && (n <=? 122)%nat) then ascii_of_nat (n - 32) else c.

Definition lower_char (c : ascii) : ascii :=
  let n := nat_of_ascii c in
  if ((65 <=? n)%nat && (n <=? 90)%nat) then ascii_of_nat (n + 32) else c.

Fixpoint lower (s : string) : string :=
  match s with
  | EmptyString => EmptyString
  | String c r => String (lower_char c) (lower r)
  end.

Definition capitalize (s : string) : string :=
  match s with
  | EmptyString => EmptyString
  | String c r => String (upper_char c) (lower r)
  end.

Definition str (v : value) : string :=
  match v with VStr s => s | other => str_of w other end.

Fixpoint simple_loop (messages : list value) (simple_text : string) : result string :=
  match messages with
  | [] => Ok simple_text
  | VDict d :: rest =>
      match dict_get d "role" (VStr "user") with
      | VStr role =>
          let content := str (dict_get d "content" (VStr "")) in
          simple_loop rest (simple_text +:+ capitalize role +:+ ": "
                            +:+ content +:+ newline)
      | _ => Raise (Exn AttributeError "object has no attribute 'capitalize'")
      end
  | _ :: rest => Raise (Exn AttributeError "object has no attribute 'get'")
  end.

(** *** run *)

(** The [try] block around the streamed generation.  [false] is a
    [return] out of [run]; [true] falls through to the code after the
    block. *)
Definition manual_generation (conversation_text : string) : M t bool :=
  (modify (record (Tokenizer_call conversation_text));;
   let* has_ids := lift (tokenize w conversation_text) in
   let* stop_now :=
     if negb has_ids then ret true else is_set in
   if stop_now
   then let* stopped := is_set in
        if negb stopped then raise (Exn Exception "Tokenization returned None")
        else ret false
   else
     let* stopped := is_set in
     if stopped then ret false
     else
       modify (record (Generate_call true));;
       stream (fst (generate w));;
       lift (snd (generate w));;
       ret true).

(** The handler of [manual_error] *)
Definition simple_generation (messages : list value) (manual_error : exn)
  : M t bool :=
  let* stopped := is_set in
  if stopped then ret false
  else
    try_except is_Exception
      (let* simple_text0 := lift (simple_loop messages "") in
       let simple_text := simple_text0 +:+ "Assistant:" in
       modify (record (Tokenizer_call simple_text));;
       lift (tokenize_simple w simple_text);;
       modify (record (Generate_call false));;
       let* outputs := lift (generate_simple w) in
       match outputs with
       | Some response_text =>
           if truthy_str (strip response_text)
           then queue_put (Chunk response_text);; ret true
           else ret true
       | None => ret true
       end)
      (fun final_error =>
         raise (Exn Exception
                  ("All tokenization methods failed: " +:+ exn_str manual_error
                   +:+ ", " +:+ exn_str final_error))).

Definition run (messages : list value) : M t unit :=
  try_except is_Exception
    (let* stopped := is_set in
     if stopped then ret tt
     else if negb (model w && tokenizer w)
     then queue_put (Error "Model or tokenizer not loaded")
     else
       let* built := conversation_loop messages "" in
       match built with
       | None => ret tt
       | Some text =>
           let conversation_text := text +:+ "<start_of_turn>model" +:+ newline in
           let* nothing_to_do :=
             if negb (truthy_str (strip conversation_text)) then ret true
             else is_set in
           if nothing_to_do
           then let* stopped := is_set in
                if negb stopped
                then queue_put (Error "No valid messages to process")
                else ret tt
           else
             let* go_on :=
               try_except is_Exception
                 (manual_generation conversation_text)
                 (simple_generation messages) in
             if negb go_on then ret tt
             else
               let* stopped := is_set in
               if negb stopped then queue_put Complete
               else queue_put Stopped
       end)
    (fun e =>
       let* stopped := is_set in
       if negb stopped
       then let error_msg := "Generation failed: " +:+ exn_str e in
            queue_put (Error error_msg)
       else ret tt).

End Run.

(** A fresh thread: nothing done yet *)
Definition start : t := {| clock := 0; trace := [] |}.

(** The messages a run leaves on the queue, in order, each with the
    state of the stop event at the time it was put. *)
Definition puts_of (self : t) : list (response * bool) :=
  omap (fun a => match a with Put r b => Some (r, b) | _ => None end) (trace self).


(** *** The prompt as the specification words it

    The in-order concatenation, over the dictionary entries whose
    stringified content is not blank, of a user turn when the role is
    ['user'] and of a model turn for any other role, closed by the
    opening of a model turn.  A list-valued content stands for its text
    parts joined by spaces. *)

Section Stated.

Variable w : world.

Definition stated_content (content : value) : string :=
  match content with
  | VList items => join " " (map (str w) (text_parts items))
  | other => str w other
  end.

Definition stated_turn (msg : value) : string :=
  match msg with
  | VDict d =>
      let content := stated_content (dict_get d "content" (VStr "")) in
      if truthy_str (strip content)
      then (if eq_str (dict_get d "role" (VStr "user")) "user"
            then "<start_of_turn>user" else "<start_of_turn>model")
           +:+ newline +:+ content +:+ "<end_of_turn>" +:+ newline
      else ""
  | _ => ""
  end.

Definition stated_prompt (messages : list value) : string :=
  foldr String.append "" (map stated_turn messages)
  +:+ "<start_of_turn>model" +:+ newline.

End Stated.

(** The text of every text part of a list-valued content is a string. *)
Definition is_str (v : value) : bool :=
  match v with VStr _ => true | _ => false end.

Definition text_is_str (msg : value) : bool :=
  match msg with
  | VDict d =>
      match dict_get d "content" (VStr "") with
      | VList items => forallb is_str (text_parts items)
      | _ => true
      end
  | _ => true
  end.

(** *** The queue as the user interface reads it *)

(** The messages a run has put, in order *)
Definition responses (self : t) : list response := map fst (puts_of self).

Definition is_chunk (r : response) : bool :=
  match r with Chunk _ => true | _ => false end.

(** Zero or more chunks, then at most one message of another kind *)
Definition chunks_then_at_most_one (l : list response) : Prop :=
  Forall (fun r => is_chunk r = true) (removelast l).

(** Chunks, then one last message that reports the end or an error *)
Definition chunks_then_complete_or_error (l : list response) : Prop :=
  exists chunks r,
    l = chunks ++ [r] /\ Forall (fun r => is_chunk r = true) chunks /\
    (r = Complete \/ exists msg, r = Error msg).

(** The text [on_finalized_text] passes on for a finalized [text] *)
Definition cleaned_text (text : string) : string :=
  replace "<start_of_turn>" ""
    (replace "<|endoftext|>" ""
       (replace "<|end_of_text|>" ""
          (replace "<end_of_turn>" "" text))).

(** The texts finalized by the streamer calls of a generation *)
Fixpoint finalized_texts (calls : list streamer_call) : list string :=
  match calls with
  | [] => []
  | Streamer_put (Some text) :: rest => text :: finalized_texts rest
  | Streamer_put None :: rest => finalized_texts rest
  | Streamer_end text :: rest => text :: finalized_texts rest
  end.

(** The chunks of a stream that nobody stops: the cleaned texts that are
    not empty *)
Definition streamed_chunks (calls : list streamer_call) : list string :=
  List.filter truthy_str (map cleaned_text (finalized_texts calls)).

(** Two ways to describe what a piece of the thread's code puts on the
    queue, whatever the state it starts in.  [chunks_with X V m]: only
    chunks; a value it returns satisfies [V], an exception it raises
    satisfies [X].  [finishing X T m]: when it returns, what it has put
    satisfies [T]; when it raises, it has put only chunks and the
    exception satisfies [X]. *)
Definition chunks_with {A} (X : exn -> Prop) (V : A -> Prop) (m : M t A) : Prop :=
  forall s, exists l,
    responses (snd (m s)) = responses s ++ l /\
    Forall (fun r => is_chunk r = true) l /\
    match fst (m s) with Ok a => V a | Raise e => X e end.

Definition finishing {A} (X : exn -> Prop) (T : list response -> Prop)
  (m : M t A) : Prop :=
  forall s, exists l,
    responses (snd (m s)) = responses s ++ l /\
    match fst (m s) with
    | Ok _ => T l
    | Raise e => Forall (fun r => is_chunk r = true) l /\ X e
    end.

(** Every exception that the tokenizer and the model of a run can raise
    satisfies [X]. *)
Definition failures_satisfy (X : exn -> Prop) (w : world) : Prop :=
  (forall text e, tokenize w text = Raise e -> X e) /\
  (forall e, snd (generate w) = Raise e -> X e) /\
  (forall text e, tokenize_simple w text = Raise e -> X e) /\
  (forall e, generate_simple w = Raise e -> X e).

End ModelThread.

(** ** class ChatbotApp *)

Module ChatbotApp.

Import Py.

(** An element of [self.attachments]: [{"type": "image", "image": path}]
    or [{"type": "audio", "audio": path}] *)
Inductive attachment :=
| Image (image : string)
| Audio (audio : string).

(** An element of [self.chat_history] (its [timestamp] is never read) *)
Record entry := {
  role : string;
  content : string;
  tokens : Q
}.

(** A chat message for the model: [{"role": role, "content": content}] *)
Definition message (role content : string) : value :=
  VDict [("role", VStr role); ("content", VStr content)].

(** What a command does besides changing the fields below: the dialog
    boxes it opens, what it adds to the chat display, and the worker
    thread it starts.  Labels and counters that are only redrawn
    ([update_token_display], [update_history_context],
    [update_attachment_label], the status line) are left out. *)
Inductive effect :=
| Show_warning (title : string)
| Show_error (title : string)
| Chat_context_included
| Chat_message (role content : string)
| System_message (message : string)
| Thread_start (messages : list value) (max_tokens : Z).

Record t := {
  token_manager : TokenManager.t;
  model_loaded : bool;
  is_generating : bool;
  input_text : string;             (* contents of the input box *)
  context_display : string;        (* contents of the context box *)
  history_messages_var : string;   (* contents of the history spin box *)
  chat_history : list entry;
  attachments : list attachment;
  max_output_tokens : Z;
  current_generation_thread : option (list value * Z)
}.

(** [widget.get("1.0", tk.END)]: Tk ends the text with a newline. *)
Definition widget_get (contents : string) : string :=
  contents +:+ String (ascii_of_nat 10) EmptyString.

(** [int(self.history_messages_var.get())], 10 when that raises *)
Definition max_messages (self : t) : Z :=
  match int_of_str (history_messages_var self) with
  | Some n => n
  | None => 10
  end.

Definition sum_tokens (l : list entry) : Q :=
  foldl (fun acc e => acc + tokens e)%Q 0%Q l.

Definition is_image (a : attachment) : bool :=
  match a with Image _ => true | Audio _ => false end.

(** The state with another list of queued attachments *)
Definition set_attachments (self : t) (l : list attachment) : t :=
  {| token_manager := token_manager self;
     model_loaded := model_loaded self;
     is_generating := is_generating self;
     input_text := input_text self;
     context_display := context_display self;
     history_messages_var := history_messages_var self;
     chat_history := chat_history self;
     attachments := l;
     max_output_tokens := max_output_tokens self;
     current_generation_thread := current_generation_thread self |}.

(** The state with another history *)
Definition set_chat_history (self : t) (h : list entry) : t :=
  {| token_manager := token_manager self;
     model_loaded := model_loaded self;
     is_generating := is_generating self;
     input_text := input_text self;
     context_display := context_display self;
     history_messages_var := history_messages_var self;
     chat_history := h;
     attachments := attachments self;
     max_output_tokens := max_output_tokens self;
     current_generation_thread := current_generation_thread self |}.

Section Commands.

(** [sf.info(path).duration], a float, or the exception it raises *)
Variable audio_duration : string -> result float.

(** What the loop of [calculate_total_input_tokens] adds for one audio
    attachment: the count of its duration, or 100 when reading the
    duration or counting raises (the [except] is bare). *)
Definition audio_file_tokens (self : t) (path : string) : Z :=
  match audio_duration path with
  | Ok duration =>
      match TokenManager.count_audio_tokens (token_manager self) duration with
      | Ok n => n
      | Raise _ => 100
      end
  | Raise _ => 100
  end.

Fixpoint audio_tokens_from (self : t) (l : list attachment) (audio_tokens : Z) : Z :=
  match l with
  | [] => audio_tokens
  | Audio path :: rest =>
      audio_tokens_from self rest (audio_tokens + audio_file_tokens self path)
  | Image _ :: rest => audio_tokens_from self rest audio_tokens
  end.

Definition calculate_total_input_tokens (self : t) : Q :=
  let tm := token_manager self in
  let text_tokens :=
    TokenManager.count_text_tokens tm (Some (strip (widget_get (input_text self)))) in
  let context_tokens :=
    TokenManager.count_text_tokens tm (Some (strip (widget_get (context_display self)))) in
  let max_messages := max_messages self in
  let recent_history :=
    if max_messages <? Z.of_nat (length (chat_history self))
    then slice_from (- max_messages) (chat_history self)
    else chat_history self in
  let history_tokens := sum_tokens recent_history in
  let image_count := Z.of_nat (length (filter (fun a => is_image a = true) (attachments self))) in
  let image_tokens := TokenManager.count_image_tokens tm image_count in
  let audio_tokens := audio_tokens_from self (attachments self) 0 in
  (text_tokens + context_tokens + history_tokens
   + inject_Z image_tokens + inject_Z audio_tokens)%Q.

(** The audio share of the total as a sum: [int(duration * 6.25)] for
    each audio attachment whose duration can be read and counted, 100
    for each other one. *)
Fixpoint audio_tokens_stated (self : t) (l : list attachment) : Z :=
  match l with
  | [] => 0
  | Audio path :: rest => audio_file_tokens self path + audio_tokens_stated self rest
  | Image _ :: rest => audio_tokens_stated self rest
  end.

(** [add_message(role, content, tokens)]: the entry appended to the
    history counts [tokens] when that is given and not zero, and the
    tokens of [content] otherwise. *)
Definition entry_tokens (self : t) (content : string) (tokens : option Q) : Q :=
  match tokens with
  | Some n =>
      if negb (Qeq_bool n 0) then n
      else TokenManager.count_text_tokens (token_manager self) (Some content)
  | None => TokenManager.count_text_tokens (token_manager self) (Some content)
  end.

Definition add_message (self : t) (role content : string) (tokens : option Q)
  : list effect * t :=
  ([Chat_message role content],
   set_chat_history self
     (chat_history self
      ++ [{| role := role; content := content;
             tokens := entry_tokens self content tokens |}])).

(** The loop of [send_message] over [recent_history] *)
Fixpoint history_messages (recent_history : list entry) : list value :=
  match recent_history with
  | [] => []
  | e :: rest =>
      if truthy_str (strip (content e))
      then message (role e) (content e) :: history_messages rest
      else history_messages rest
  end.

(** The [messages] list that [send_message] builds once the new user
    entry is in [chat_history] *)
Definition build_messages (self : t) (text full_message : string) : list value :=
  let max_messages := max_messages self in
  let recent_history := slice_to (-1) (chat_history self) in
  let recent_history :=
    if max_messages <? Z.of_nat (length recent_history)
    then slice_from (- max_messages) recent_history
    else recent_history in
  let messages := history_messages recent_history in
  let messages :=
    if truthy_str full_message
    then messages ++ [message "user" full_message]
    else messages in
  match messages with
  | [] => [message "user" (if truthy_str text then text else "Hello")]
  | _ => messages
  end.

Definition newline : string := String (ascii_of_nat 10) EmptyString.

(** The note shown when attachments are queued *)
Definition attachments_note (n : nat) : string :=
  "Note: " +:+ str_of_nat n
  +:+ " attachment(s) stored but not sent to model (format compatibility)".

Definition send_message (self : t) : list effect * t :=
  if negb (model_loaded self) then ([Show_warning "Model Loading"], self)
  else if is_generating self then ([Show_warning "Generation Active"], self)
  else
    let total_input_tokens := calculate_total_input_tokens self in
    if negb (Qle_bool total_input_tokens
               (inject_Z (TokenManager.max_context_tokens (token_manager self))))
    then ([Show_error "Token Limit Exceeded"], self)
    else
      let text := strip (widget_get (input_text self)) in
      let context_text := strip (widget_get (context_display self)) in
      if negb (truthy_str text) && negb (truthy_str context_text)
      then ([Show_warning "Empty Message"], self)
      else
        let full_message :=
          if truthy_str context_text
          then "Based on the context below, please answer: " +:+ text
               +:+ newline +:+ newline +:+ "Context:" +:+ newline +:+ context_text
          else text in
        let fx1 := if truthy_str context_text then [Chat_context_included] else [] in
        let input_tokens :=
          TokenManager.count_text_tokens (token_manager self) (Some full_message) in
        let '(fx2, self1) := add_message self "user" text (Some input_tokens) in
        let messages := build_messages self1 text full_message in
        let fx3 :=
          match attachments self1 with
          | [] => []
          | _ => [System_message (attachments_note (length (attachments self1)))]
          end in
        let self2 :=
          {| token_manager := token_manager self1;
             model_loaded := model_loaded self1;
             is_generating := true;
             input_text := "";
             context_display := context_display self1;
             history_messages_var := history_messages_var self1;
             chat_history := chat_history self1;
             attachments := [];
             max_output_tokens := max_output_tokens self1;
             current_generation_thread := Some (messages, max_output_tokens self1) |} in
        let '(fx4, self3) := add_message self2 "assistant" "" (Some 0%Q) in
        (fx1 ++ fx2 ++ fx3 ++ [Thread_start messages (max_output_tokens self1)] ++ fx4,
         self3).

(** The text of the new turn: what the user typed, wrapped with the
    context when there is one *)
Definition typed_text (self : t) : string := strip (widget_get (input_text self)).

Definition full_message_of (self : t) : string :=
  let text := typed_text self in
  let context_text := strip (widget_get (context_display self)) in
  if truthy_str context_text
  then "Based on the context below, please answer: " +:+ text
       +:+ newline +:+ newline +:+ "Context:" +:+ newline +:+ context_text
  else text.

(** The messages of the new turn, as [send_message] builds them *)
Definition turn_messages (self : t) : list value :=
  let input_tokens :=
    TokenManager.count_text_tokens (token_manager self) (Some (full_message_of self)) in
  build_messages (snd (add_message self "user" (typed_text self) (Some input_tokens)))
    (typed_text self) (full_message_of self).

(** The threads started by a list of effects *)
Definition threads_started (fx : list effect) : list (list value * Z) :=
  omap (fun e => match e with
                 | Thread_start messages max_tokens => Some (messages, max_tokens)
                 | _ => None
                 end) fx.

End Commands.

(** Whether a chat message refers to a file: its path occurs in a string
    of the message. *)
Fixpoint is_substring (p s : string) : bool :=
  String.prefix p s
  || match s with
     | EmptyString => false
     | String _ r => is_substring p r
     end.

Fixpoint value_mentions (path : string) (v : value) : bool :=
  match v with
  | VStr s => is_substring path s
  | VList l => existsb (value_mentions path) l
  | VDict d => existsb (fun '(_, x) => value_mentions path x) d
  | _ => false
  end.

Definition attachment_path (a : attachment) : string :=
  match a with Image p => p | Audio p => p end.

Definition attachment_sent (a : attachment) (messages : list value) : bool :=
  existsb (value_mentions (attachment_path a)) messages.

(** The last [n] elements of a list *)
Definition last_n {A} (n : nat) (l : list A) : list A :=
  drop (length l - n) l.

(** *** Start-up loading of the model *)

Inductive startup :=
| Offline_without_models      (* "Offline mode enabled but no models downloaded" *)
| No_internet_without_models  (* "No internet connection and no local models" *)
| Load_complete (model_name handles : string)
| Load_error (error_msg : string).

Definition as_model_name (v : value) : result string :=
  match v with
  | VStr s => Ok s
  | _ => Raise (Exn AttributeError "object has no attribute 'replace'")
  end.

(** [not self.model_manager.is_model_downloaded(last_used_model)] *)
Definition not_downloaded (w : ModelManager.world) (last_used_model : value)
  : M ModelManager.t bool :=
  let* name := lift (as_model_name last_used_model) in
  let* downloaded := ModelManager.is_model_downloaded w name in
  ret (negb downloaded).

(** The body of the thread started by [init_model_async] *)
Definition init_model_async (w : ModelManager.world) : M ModelManager.t startup :=
  try_except is_Exception
    (let* c := ModelManager.get_config in
     let* stored := lift (get_method c "last_used_model" VNone) in
     let last_used_model :=
       if negb (truthy stored) then VStr "unsloth/gemma-3n-E4B-it" else stored in
     let* offline_mode := lift (get_method c "offline_mode" (VBool false)) in
     let* is_online := ModelManager.is_online w in
     let* offline_stop :=
       if truthy offline_mode then not_downloaded w last_used_model else ret false in
     if offline_stop then ret Offline_without_models
     else
       let* no_internet_stop :=
         if negb is_online then not_downloaded w last_used_model else ret false in
       if no_internet_stop then ret No_internet_without_models
       else
         let* name := lift (as_model_name last_used_model) in
         let* handles := ModelManager.load_model w name true in
         ret (Load_complete name handles))
    (fun e => ret (Load_error (exn_str e))).

(** *** Attachments and their tokens *)

(** [select_image], once the file dialog has returned [file_paths];
    [on_screen_captured] and [check_clipboard] append one image in the same way. *)
Definition select_image (self : t) (file_paths : list string) : t :=
  set_attachments self (attachments self ++ map Image file_paths).

(** How many of the attachments are images *)
Definition image_count (l : list attachment) : Z :=
  Z.of_nat (length (filter (fun a => is_image a = true) l)).

Section Display.

Variable audio_duration : string -> result float.

(** What the loop of [update_attachment_label] adds for one audio
    attachment; its [except] is bare too. *)
Definition audio_label_tokens (self : t) (path : string) : Z :=
  match audio_duration path with
  | Ok duration =>
      match int_of_float
              (float_mul duration
                 (TokenManager.audio_tokens_per_second (token_manager self))) with
      | Ok n => n
      | Raise _ => 100
      end
  | Raise _ => 100
  end.

(** The [total_tokens] that [update_attachment_label] shows *)
Fixpoint label_tokens (self : t) (l : list attachment) (total_tokens : Z) : Z :=
  match l with
  | [] => total_tokens
  | Image _ :: rest => label_tokens self rest (total_tokens + 256)
  | Audio path :: rest =>
      label_tokens self rest (total_tokens + audio_label_tokens self path)
  end.

(** The [types] dictionary of [update_attachment_label]: how many
    attachments of each type, in the order the types are first met *)
Definition type_of (a : attachment) : string :=
  match a with Image _ => "image" | Audio _ => "audio" end.

Fixpoint bump (atype : string) (types : list (string * nat)) : list (string * nat) :=
  match types with
  | [] => [(atype, 1%nat)]
  | (t0, c) :: rest =>
      if String.eqb t0 atype then (t0, S c) :: rest else (t0, c) :: bump atype rest
  end.

Definition count_types (l : list attachment) : list (string * nat) :=
  foldl (fun types a => bump (type_of a) types) [] l.

Definition update_attachment_label (self : t) : string :=
  match attachments self with
  | [] => ""
  | l =>
      let parts :=
        map (fun '(t0, c) =>
               if (1 <? c)%nat then str_of_nat c +:+ " " +:+ t0 +:+ "s"
               else "1 " +:+ t0)
            (count_types l) in
      "Attachments: " +:+ join ", " parts
      +:+ " (" +:+ str_of_int (label_tokens self l 0) +:+ " tokens)"
  end.

(** The colour of [update_token_display] and which of its two extra
    lines it adds *)
Inductive token_notice := Approaching_limit | High_usage.

Definition token_display_color (self : t) : string :=
  TokenManager.get_color_for_usage (token_manager self)
    (calculate_total_input_tokens audio_duration self).

Definition token_display_notice (self : t) : option token_notice :=
  let total_tokens := calculate_total_input_tokens audio_duration self in
  let limit := inject_Z (TokenManager.max_context_tokens (token_manager self)) in
  if float_lt (limit * (9 # 10)) total_tokens then Some Approaching_limit
  else if float_lt (limit * (75 # 100)) total_tokens then Some High_usage
  else None.

End Display.

(** *** check_response_queue *)

Definition last_is_assistant (h : list entry) : bool :=
  match last h with
  | Some e => String.eqb (role e) "assistant"
  | None => false
  end.

(** [self.chat_history[-1]] replaced by [f] of it *)
Fixpoint map_last (f : entry -> entry) (h : list entry) : list entry :=
  match h with
  | [] => []
  | [e] => [f e]
  | e :: rest => e :: map_last f rest
  end.

Definition add_content (chunk : string) (e : entry) : entry :=
  {| role := role e; content := content e +:+ chunk; tokens := tokens e |}.

Definition recount (self : t) (e : entry) : entry :=
  {| role := role e; content := content e;
     tokens := TokenManager.count_text_tokens (token_manager self) (Some (content e)) |}.

(** [self.current_generation_thread = None] and
    [self.update_ui_for_generation(False)] *)
Definition generation_over (self : t) : t :=
  {| token_manager := token_manager self;
     model_loaded := model_loaded self;
     is_generating := false;
     input_text := input_text self;
     context_display := context_display self;
     history_messages_var := history_messages_var self;
     chat_history := chat_history self;
     attachments := attachments self;
     max_output_tokens := max_output_tokens self;
     current_generation_thread := None |}.

(** What [check_response_queue] does with one message of the queue
    (what it writes to the chat display is left out) *)
Definition process_response (self : t) (r : ModelThread.response) : t :=
  let h := chat_history self in
  match r with
  | ModelThread.Chunk chunk =>
      if last_is_assistant h
      then set_chat_history self (map_last (add_content chunk) h)
      else self
  | ModelThread.Complete =>
      generation_over
        (if last_is_assistant h
         then set_chat_history self (map_last (recount self) h)
         else self)
  | ModelThread.Stopped =>
      generation_over
        (if last_is_assistant h
         then match last h with
              | Some e =>
                  if truthy_str (strip (content e))
                  then set_chat_history self (map_last (recount self) h)
                  else set_chat_history self (removelast h)
              | None => self
              end
         else self)
  | ModelThread.Error _ => generation_over self
  end.

(** One call of [check_response_queue] on a queue holding [queue] *)
Definition check_response_queue (queue : list ModelThread.response) (self : t) : t :=
  foldl process_response self queue.

(** A message with a non-blank string content *)
Definition nonblank_message (m : value) : Prop :=
  exists role content,
    m = message role content /\ truthy_str (strip content) = true.

End ChatbotApp.

(** ** class ChatHistoryViewer *)

Module ChatHistoryViewer.

Import Py.

Definition newline : string := String (ascii_of_nat 10) EmptyString.

(** The content preview of a row of [update_display] *)
Definition preview (content : string) : string :=
  replace newline " "
    (if (60 <? String.length content)%nat
     then prefix_of_length 60 content +:+ "..."
     else content).

End ChatHistoryViewer.

(** ** Sample machines and states, used to run the definitions *)

Module Samples.

Import Py.

(** A machine on which every model directory exists, loading from a
    local directory fails (say, the files are damaged), the network is
    up and the hub serves every model; the configuration file cannot be
    written. *)
Definition damaged_cache : ModelManager.world :=
  {| ModelManager.home := "/home/u";
     ModelManager.path_exists := fun _ => true;
     ModelManager.path_isdir := fun _ => true;
     ModelManager.read_json := fun _ => Raise (Exn JSONDecodeError "Expecting value");
     ModelManager.write_json := fun _ _ => Raise (Exn OSError "Read-only file system");
     ModelManager.urlopen := fun _ => Ok tt;
     ModelManager.from_pretrained :=
       fun name_or_path =>
         if String.prefix "/" name_or_path
         then Raise (Exn OSError "safetensors file is damaged")
         else Ok name_or_path;
     ModelManager.save_pretrained := fun _ => Ok tt;
     ModelManager.rmtree := fun _ => Ok tt;
     ModelManager.walk_files := fun _ => [];
     ModelManager.getsize := fun _ => Ok 0 |}.

(** A machine with nothing in the models directory and the network up *)
Definition empty_cache : ModelManager.world :=
  {| ModelManager.home := "/home/u";
     ModelManager.path_exists :=
       fun p => negb (String.prefix "/home/u/.educational_ai_tutor/models/" p)
                || String.eqb p "/home/u/.educational_ai_tutor/models/..";
     ModelManager.path_isdir :=
       fun p => negb (String.prefix "/home/u/.educational_ai_tutor/models/" p)
                || String.eqb p "/home/u/.educational_ai_tutor/models/..";
     ModelManager.read_json := fun _ => Raise (Exn OSError "No such file");
     ModelManager.write_json := fun _ _ => Ok tt;
     ModelManager.urlopen := fun _ => Ok tt;
     ModelManager.from_pretrained := fun name_or_path => Ok name_or_path;
     ModelManager.save_pretrained := fun _ => Ok tt;
     ModelManager.rmtree := fun _ => Ok tt;
     ModelManager.walk_files := fun _ => [];
     ModelManager.getsize := fun _ => Ok 0 |}.

(** The configuration after the user ticked "Offline Mode" *)
Definition offline_config (last_used_model : value) : value :=
  VDict [("downloaded_models", VList [VStr "unsloth/gemma-3n-E4B-it"]);
         ("last_used_model", last_used_model);
         ("offline_mode", VBool true)].

Definition offline_manager (last_used_model : value) : ModelManager.t :=
  {| ModelManager.config := offline_config last_used_model;
     ModelManager.log := [] |}.

(** The application with a model loaded, an earlier exchange in the
    history, and the given input, history setting and attachments *)
Definition earlier_exchange : list ChatbotApp.entry :=
  [ {| ChatbotApp.role := "user"; ChatbotApp.content := "What is a prime?";
       ChatbotApp.tokens := 5 |};
    {| ChatbotApp.role := "assistant";
       ChatbotApp.content := "A number with exactly two divisors.";
       ChatbotApp.tokens := 8 |} ].

Definition app (input history_setting : string)
  (queued : list ChatbotApp.attachment) : ChatbotApp.t :=
  {| ChatbotApp.token_manager := TokenManager.init None;
     ChatbotApp.model_loaded := true;
     ChatbotApp.is_generating := false;
     ChatbotApp.input_text := input;
     ChatbotApp.context_display := "";
     ChatbotApp.history_messages_var := history_setting;
     ChatbotApp.chat_history := earlier_exchange;
     ChatbotApp.attachments := queued;
     ChatbotApp.max_output_tokens := 512;
     ChatbotApp.current_generation_thread := None |}.

(** Every audio file lasts ten seconds. *)
Definition ten_seconds (path : string) : result float := Ok (float_of_int 10).

(** [str] of the values that are not strings, as far as the samples
    need it *)
Definition str_of (v : value) : string :=
  match v with
  | VNone => "None"
  | VBool true => "True"
  | VBool false => "False"
  | VObj name => name
  | _ => "..."
  end.

(** A run in which the tokenizer call of the streamed generation fails,
    the fall-back generation answers, and [stop()] is called at [stop]. *)
Definition fallback_run (stop : option nat) : ModelThread.world :=
  {| ModelThread.stop_at := stop;
     ModelThread.model := true;
     ModelThread.tokenizer := true;
     ModelThread.str_of := str_of;
     ModelThread.tokenize := fun _ => Raise (Exn TypeError "unexpected keyword argument");
     ModelThread.generate := ([], Ok tt);
     ModelThread.tokenize_simple := fun _ => Ok tt;
     ModelThread.generate_simple := Ok (Some "Seven is prime.") |}.

(** A run in which the streamed generation works and finalizes two
    pieces of text *)
Definition streamed_run (stop : option nat) : ModelThread.world :=
  {| ModelThread.stop_at := stop;
     ModelThread.model := true;
     ModelThread.tokenizer := true;
     ModelThread.str_of := str_of;
     ModelThread.tokenize := fun _ => Ok true;
     ModelThread.generate :=
       ([ModelThread.Streamer_put None;
         ModelThread.Streamer_put (Some "Seven ");
         ModelThread.Streamer_put (Some "is prime.<end_of_turn>");
         ModelThread.Streamer_end ""], Ok tt);
     ModelThread.tokenize_simple := fun _ => Ok tt;
     ModelThread.generate_simple := Ok None |}.

Definition question : list value := [ChatbotApp.message "user" "And 7?"].

(** A machine without network that holds a local copy of every model
    and lets nothing be removed from its disk *)
Definition local_copies : ModelManager.world :=
  {| ModelManager.home := "/home/u";
     ModelManager.path_exists := fun _ => true;
     ModelManager.path_isdir := fun _ => true;
     ModelManager.read_json := fun _ => Raise (Exn OSError "No such file");
     ModelManager.write_json := fun _ _ => Ok tt;
     ModelManager.urlopen := fun _ => Raise (Exn OSError "Network is unreachable");
     ModelManager.from_pretrained := fun name_or_path => Ok name_or_path;
     ModelManager.save_pretrained := fun _ => Ok tt;
     ModelManager.rmtree := fun _ => Raise (Exn OSError "Permission denied");
     ModelManager.walk_files := fun _ => [];
     ModelManager.getsize := fun _ => Ok 0 |}.

(** The text of the page of index [i] of the sample PDF *)
Definition page_text (i : Z) : string := "Text of page " +:+ str_of_int (i + 1) +:+ ".".

(** A PDF of three pages; the page of index [damaged] cannot be read. *)
Definition pdf (damaged : option Z) : DocumentViewer.document :=
  {| DocumentViewer.page_count := 3;
     DocumentViewer.get_text :=
       fun i =>
         if (0 <=? i) && (i <? 3)
         then if bool_decide (damaged = Some i)
              then Raise (Exn Exception "cannot read the page")
              else Ok (page_text i)
         else Raise (Exn Exception "page not in document");
     DocumentViewer.other_text := Raise (Exn OSError "not a text file") |}.

(** The application while it waits for an answer to "And 7?" *)
Definition waiting : ChatbotApp.t :=
  snd (ChatbotApp.send_message ten_seconds (app "And 7?" "10" [])).


End Samples.

(* ===================================================================== *)
(** * Part II.  Properties                                                *)
(* ===================================================================== *)

Section FloatFacts.

Local Abbreviation prec := 53.
Local Abbreviation emax := 1024.







End FloatFacts.

(** ** TokenManager: the accounting formulas *)

Section TokenAccounting.

Import Py TokenManager.

Variable enc : option (string -> list nat).





End TokenAccounting.




(** ** DocumentViewer: the state invariant *)

Section ViewerInvariant.

Import DocumentViewer.

Lemma float_min_bounds (z : Q) :
  (1 # 2 <= z)%Q -> (z <= 3)%Q ->
  (1 # 2 <= float_min 3 (z + (2 # 10)))%Q /\ (float_min 3 (z + (2 # 10)) <= 3)%Q.
Proof.
  intros Hlo Hhi. unfold float_min.
  destruct (Qle_bool 3 (z + (2 # 10))) eqn:E.
  - split; lra.
  - assert (~ (3 <= z + (2 # 10))%Q) as Hn
      by (intros H; apply Qle_bool_iff in H; congruence).
    split; lra.
Qed.

Lemma float_max_bounds (z : Q) :
  (1 # 2 <= z)%Q -> (z <= 3)%Q ->
  (1 # 2 <= float_max (1 # 2) (z - (2 # 10)))%Q
  /\ (float_max (1 # 2) (z - (2 # 10)) <= 3)%Q.
Proof.
  intros Hlo Hhi. unfold float_max.
  destruct (Qle_bool (z - (2 # 10)) (1 # 2)) eqn:E.
  - split; lra.
  - assert (~ (z - (2 # 10) <= 1 # 2)%Q) as Hn
      by (intros H; apply Qle_bool_iff in H; congruence).
    split; lra.
Qed.

Lemma elem_of_add_pages (l : list Z) (sel : gset Z) (p : Z) :
  p ∈ foldl (fun s page_num => {[page_num]} ∪ s) sel l <-> p ∈ sel \/ p ∈ l.
Proof.
  revert sel. induction l as [|x l IH]; intros sel; simpl.
  - rewrite elem_of_nil. tauto.
  - rewrite IH, elem_of_union, elem_of_singleton, elem_of_cons. tauto.
Qed.

Lemma elem_of_add_range (start stop : Z) (sel : gset Z) (p : Z) :
  p ∈ add_range start stop sel <-> p ∈ sel \/ start <= p < stop.
Proof.
  unfold add_range. rewrite elem_of_add_pages, elem_of_seqZ.
  split; (intros [H|H]; [left; exact H | right; lia]).
Qed.

Lemma step_total_pages (self : t) (c : command) :
  total_pages (step self c) = total_pages self.
Proof.
  destruct c; simpl;
    unfold prev_page, next_page, zoom_in, zoom_out, toggle_page_selection,
      select_range, clear_selection;
    repeat match goal with
           | |- context [if ?b then _ else _] => destruct b
           | |- context [match ?o with Some _ => _ | None => _ end] => destruct o
           end; reflexivity.
Qed.

Lemma step_invariant (self : t) (c : command) :
  1 <= total_pages self -> invariant self -> invariant (step self c).
Proof.
  intros Hn [Hp [Hz1 Hz2] Hs]. destruct c; simpl.
  - unfold prev_page. destruct (0 <? current_page self) eqn:E.
    + apply Z.ltb_lt in E. split; simpl; [lia | auto | auto].
    + split; auto.
  - unfold next_page.
    destruct (current_page self <? total_pages self - 1) eqn:E.
    + apply Z.ltb_lt in E. split; simpl; [lia | auto | auto].
    + split; auto.
  - unfold zoom_in. split; simpl; [lia | | auto].
    apply float_min_bounds; assumption.
  - unfold zoom_out. split; simpl; [lia | | auto].
    apply float_max_bounds; assumption.
  - unfold toggle_page_selection. destruct (is_pdf self); simpl; [| split; auto].
    destruct (decide (current_page self + 1 ∈ selected_pages self)).
    + split; simpl; [lia | auto |].
      intros p Hin. apply elem_of_difference in Hin. apply Hs, Hin.
    + split; simpl; [lia | auto |].
      intros p Hin. apply elem_of_union in Hin as [Hin|Hin]; [| auto].
      apply elem_of_singleton in Hin. lia.
  - unfold select_range. destruct (is_pdf self); simpl; [| split; auto].
    destruct (Py.int_of_str (page_from self)) as [a|]; [| split; auto].
    destruct (Py.int_of_str (page_to self)) as [b|]; [| split; auto].
    split; simpl; [lia | auto |].
    intros p Hin. apply elem_of_add_range in Hin as [Hin|Hin]; [auto | lia].
  - unfold clear_selection. destruct (is_pdf self); simpl; [| split; auto].
    split; simpl; [lia | auto |].
    intros p Hin. apply not_elem_of_empty in Hin. contradiction.
  - split; simpl; auto.
Qed.

Lemma init_invariant (n : Z) : 1 <= n -> invariant (init (Some n)).
Proof.
  intros Hn. split; simpl.
  - lia.
  - split; lra.
  - intros p Hin. apply not_elem_of_empty in Hin. contradiction.
Qed.

Lemma run_invariant (cs : list command) (self : t) :
  1 <= total_pages self -> invariant self ->
  invariant (run cs self) /\ total_pages (run cs self) = total_pages self.
Proof.
  revert self. induction cs as [|c cs IH]; intros self Hn Hinv; simpl.
  - split; [exact Hinv | reflexivity].
  - destruct (IH (step self c)) as [H1 H2].
    + rewrite step_total_pages. exact Hn.
    + apply step_invariant; assumption.
    + split; [exact H1 |]. rewrite H2. apply step_total_pages.
Qed.

(** C9.  For a PDF with at least one page, whatever the user does in the
    viewer (previous and next page, zoom in and out, toggling the current
    page, selecting a range typed into the entry boxes, clearing the
    selection), the viewer started at page 0, zoom 1.0 and an empty
    selection keeps [0 <= current_page < total_pages],
    [0.5 <= zoom_level <= 3.0] and all selected pages within
    [1 .. total_pages]. *)
Theorem viewer_invariant (n : Z) (cs : list command) :
  1 <= n ->
  let self := run cs (init (Some n)) in
  total_pages self = n /\
  0 <= current_page self < n /\
  ((1 # 2 <= zoom_level self)%Q /\ (zoom_level self <= 3)%Q) /\
  (forall p, p ∈ selected_pages self -> 1 <= p <= n).
Proof.
  intros Hn self.
  destruct (run_invariant cs (init (Some n))) as [[Hp Hz Hs] Ht];
    [exact Hn | apply init_invariant; exact Hn |].
  fold self in Hp, Hz, Hs, Ht. simpl in Ht. rewrite Ht in Hp, Hs.
  repeat split; try tauto. all: apply Hs; assumption.
Qed.

End ViewerInvariant.

Lemma viewer_invariant_witness :
  1 <= 3 /\
  forall p,
    p ∈ DocumentViewer.selected_pages
          (DocumentViewer.run
             [DocumentViewer.Next_page; DocumentViewer.Zoom_in;
              DocumentViewer.Toggle_page_selection;
              DocumentViewer.Edit_entries "2" "40";
              DocumentViewer.Select_range; DocumentViewer.Next_page;
              DocumentViewer.Next_page; DocumentViewer.Zoom_out]
             (DocumentViewer.init (Some 3))) ->
    1 <= p <= 3.
Proof.
  split; [lia |].
  apply (viewer_invariant 3
           [DocumentViewer.Next_page; DocumentViewer.Zoom_in;
            DocumentViewer.Toggle_page_selection;
            DocumentViewer.Edit_entries "2" "40";
            DocumentViewer.Select_range; DocumentViewer.Next_page;
            DocumentViewer.Next_page; DocumentViewer.Zoom_out]).
  lia.
Defined.

(** ** ModelManager: the configuration file *)

Section ConfigPersistence.

Import Py ModelManager.

Variable w : world.

Lemma load_config_value (self : t) :
  fst (load_config w self) =
  Ok (if path_exists w (config_file w)
      then match read_json w (config_file w) with
           | Ok v => v
           | Raise _ => default_config
           end
      else default_config).
Proof.
  unfold load_config, bind, try_except, emit, modify, lift, ret, catch_all.
  simpl. destruct (path_exists w (config_file w)); simpl; [| reflexivity].
  destruct (read_json w (config_file w)); reflexivity.
Qed.

Lemma save_config_returns (self : t) :
  (forall e, write_json w (config_file w) (config self) = Raise e ->
             is_Exception e = true) ->
  fst (save_config w self) = Ok tt.
Proof.
  intros Hw.
  unfold save_config, bind, try_except, get_config, get, emit, modify, lift, ret.
  simpl. destruct (write_json w (config_file w) (config self)) as [[]|e] eqn:E;
    simpl; [reflexivity |].
  rewrite (Hw e eq_refl). reflexivity.
Qed.

(** C6.  [load_config] always returns: the parsed JSON value when the
    configuration file exists and can be read and parsed, and otherwise
    (no file, or any error while opening, reading or parsing it) exactly
    [{"downloaded_models": [], "last_used_model": None,
    "offline_mode": False}].  [save_config] returns normally whatever
    error the write meets. *)
Theorem config_persistence (self : t) :
  (forall e, write_json w (config_file w) (config self) = Raise e ->
             is_Exception e = true) ->
  fst (load_config w self) =
    Ok (if path_exists w (config_file w)
        then match read_json w (config_file w) with
             | Ok parsed => parsed
             | Raise _ =>
                 VDict [("downloaded_models", VList []);
                        ("last_used_model", VNone);
                        ("offline_mode", VBool false)]
             end
        else VDict [("downloaded_models", VList []);
                    ("last_used_model", VNone);
                    ("offline_mode", VBool false)])
  /\ fst (save_config w self) = Ok tt.
Proof.
  intros Hw. split.
  - apply load_config_value.
  - apply save_config_returns, Hw.
Qed.

End ConfigPersistence.

Lemma config_persistence_witness :
  fst (ModelManager.load_config Samples.damaged_cache
         (Samples.offline_manager Py.VNone))
  = Py.Ok ModelManager.default_config
  /\ fst (ModelManager.save_config Samples.damaged_cache
            (Samples.offline_manager Py.VNone)) = Py.Ok tt.
Proof.
  apply (config_persistence Samples.damaged_cache (Samples.offline_manager Py.VNone)).
  intros e H. vm_compute in H. injection H as <-. reflexivity.
Defined.


(** ** Logs only grow *)

Section Grows.

Import Py.

Context {S E : Type} (tr : S -> list E).

Lemma grows_ret {A} (a : A) : grows tr (ret a).
Proof. intros s. exists []. simpl. by rewrite app_nil_r. Qed.

Lemma grows_raise {A} (e : exn) : grows tr (@raise S A e).
Proof. intros s. exists []. simpl. by rewrite app_nil_r. Qed.

Lemma grows_lift {A} (r : result A) : grows tr (@lift S A r).
Proof. intros s. exists []. simpl. by rewrite app_nil_r. Qed.

Lemma grows_get : grows tr (@get S).
Proof. intros s. exists []. simpl. by rewrite app_nil_r. Qed.

Lemma grows_bind {A B} (m : M S A) (k : A -> M S B) :
  grows tr m -> (forall a, grows tr (k a)) -> grows tr (bind m k).
Proof.
  intros Hm Hk s. unfold bind. destruct (Hm s) as [l1 H1].
  destruct (m s) as [[a|e] s1]; simpl in *.
  - destruct (Hk a s1) as [l2 H2]. exists (l1 ++ l2).
    by rewrite H2, H1, app_assoc.
  - by exists l1.
Qed.

Lemma grows_try_except {A} (c : exn -> bool) (m : M S A) (h : exn -> M S A) :
  grows tr m -> (forall e, grows tr (h e)) -> grows tr (try_except c m h).
Proof.
  intros Hm Hh s. unfold try_except. destruct (Hm s) as [l1 H1].
  destruct (m s) as [[a|e] s1]; simpl in *.
  - by exists l1.
  - destruct (c e); simpl; [| by exists l1].
    destruct (Hh e s1) as [l2 H2]. exists (l1 ++ l2).
    by rewrite H2, H1, app_assoc.
Qed.

End Grows.

Ltac grows_step :=
  match goal with
  | |- Py.grows _ (Py.bind _ _) => apply grows_bind; [| intros ?]
  | |- Py.grows _ (Py.try_except _ _ _) => apply grows_try_except; [| intros ?]
  | |- Py.grows _ (Py.ret _) => apply grows_ret
  | |- Py.grows _ (Py.raise _) => apply grows_raise
  | |- Py.grows _ (Py.lift _) => apply grows_lift
  | |- Py.grows _ Py.get => apply grows_get
  | |- Py.grows _ (if ?b then _ else _) => destruct b
  | |- Py.grows _ (match ?x with _ => _ end) => destruct x
  end.

Section ManagerLog.

Import Py ModelManager.

Lemma grows_emit (e : event) : grows log (emit e).
Proof. intros s. by exists [e]. Qed.

Lemma grows_set_config (c : value) : grows log (set_config c).
Proof. intros s. exists []. simpl. by rewrite app_nil_r. Qed.

Lemma grows_get_config : grows log get_config.
Proof. unfold get_config. repeat grows_step. Qed.

Lemma grows_progress (cb : bool) (msg : string) : grows log (progress cb msg).
Proof. unfold progress. destruct cb; [apply grows_emit | apply grows_ret]. Qed.

Variable w : world.

Ltac log_step :=
  first [ apply grows_emit | apply grows_set_config | apply grows_get_config
        | apply grows_progress | grows_step ].

Lemma grows_save_config : grows log (save_config w).
Proof. unfold save_config. repeat log_step. Qed.

Lemma grows_is_online : grows log (is_online w).
Proof. unfold is_online. repeat log_step. Qed.

Lemma grows_is_model_downloaded n : grows log (is_model_downloaded w n).
Proof. unfold is_model_downloaded. repeat log_step. Qed.

Lemma grows_download_model n cb : grows log (download_model w n cb).
Proof.
  unfold download_model.
  repeat first [ apply grows_save_config | apply grows_is_online | log_step ].
Qed.

Lemma grows_load_local_model n cb : grows log (load_local_model w n cb).
Proof.
  unfold load_local_model.
  repeat first [ apply grows_save_config | apply grows_is_model_downloaded
               | log_step ].
Qed.

Lemma grows_load_model n cb : grows log (load_model w n cb).
Proof.
  unfold load_model.
  repeat first [ apply grows_download_model | apply grows_load_local_model
               | apply grows_is_model_downloaded | log_step ].
Qed.

End ManagerLog.

Ltac log_grows :=
  repeat first
    [ apply grows_load_model | apply grows_download_model
    | apply grows_load_local_model
    | apply grows_save_config | apply grows_is_online
    | apply grows_is_model_downloaded
    | apply grows_emit | apply grows_set_config | apply grows_get_config
    | apply grows_progress | grows_step ].

(** ** ModelManager: offline mode *)

Section OfflineMode.

Import Py ModelManager.

(** [load_model] never looks at the configuration before it enters
    [download_model]: when the model directory is not there it goes
    straight to the download. *)
Lemma load_model_missing_enters_download
  (w : world) (self : t) (model_name : string) (cb : bool) :
  path_exists w (get_model_path w model_name) = false ->
  exists rest,
    log (snd (load_model w model_name cb self))
    = log self ++ [Stat (get_model_path w model_name);
                   Enter_download_model model_name] ++ rest.
Proof.
  intros Hmissing.
  unfold load_model, is_model_downloaded.
  unfold bind at 1 2. cbn [emit modify ret].
  rewrite Hmissing. cbn [andb].
  unfold bind at 1. cbn [ret].
  unfold download_model. unfold bind at 1. cbn [emit modify].
  match goal with
  | |- context [snd (try_except ?c ?m ?h ?st)] =>
      assert (grows log (try_except c m h)) as G by log_grows;
      destruct (G st) as [rest Hrest]
  end.
  exists rest. rewrite Hrest. cbn [log]. by rewrite <- !app_assoc.
Qed.

Lemma bind_ok {S A B} (m : M S A) (k : A -> M S B) s a s' :
  m s = (Ok a, s') -> bind m k s = k a s'.
Proof. intros H. unfold bind. by rewrite H. Qed.

Lemma is_online_state (w : world) (self : t) :
  exists b, is_online w self
            = (Ok b, {| config := config self;
                        log := log self ++ [Url_open "https://huggingface.co"] |}).
Proof.
  unfold is_online, try_except, bind, emit, modify, lift, ret. cbn.
  destruct (urlopen w "https://huggingface.co") as [[]|e]; cbn; eauto.
Qed.

(** The start-up loader does stop in offline mode when the model it wants
    is not on disk: it reports the situation and loads nothing. *)
Lemma init_model_async_offline_stops
  (w : world) (self : t) (d : list (string * value)) (model_name : string) :
  config self = VDict d ->
  truthy (dict_get d "offline_mode" (VBool false)) = true ->
  (if negb (truthy (dict_get d "last_used_model" VNone))
   then VStr "unsloth/gemma-3n-E4B-it"
   else dict_get d "last_used_model" VNone) = VStr model_name ->
  path_exists w (get_model_path w model_name)
  && path_isdir w (get_model_path w model_name) = false ->
  ChatbotApp.init_model_async w self
  = (Ok ChatbotApp.Offline_without_models,
     {| config := config self;
        log := log self ++ [Url_open "https://huggingface.co";
                            Stat (get_model_path w model_name)] |}).
Proof.
  intros Hc Hoff Hname Hmissing.
  destruct self as [c l]. cbn [config log] in *. subst c.
  destruct (is_online_state w {| config := VDict d; log := l |}) as [b Hb].
  cbn [config log] in Hb.
  unfold ChatbotApp.init_model_async, try_except.
  erewrite bind_ok; [| reflexivity].
  cbn [get_method].
  erewrite bind_ok; [| reflexivity].
  rewrite Hname.
  erewrite bind_ok; [| reflexivity].
  erewrite bind_ok; [| exact Hb].
  rewrite Hoff.
  unfold ChatbotApp.not_downloaded.
  unfold bind, lift, ChatbotApp.as_model_name, is_model_downloaded, emit, modify, ret.
  cbn. rewrite Hmissing. cbn. rewrite <- app_assoc. reflexivity.
Qed.

(** C2 (fails on the code).  With [offline_mode] set to true the program
    still enters [download_model] and fetches weights from the hub: at
    start-up when the cached copy exists but cannot be loaded, and in
    [load_model] itself when the model directory is missing. *)
Theorem offline_mode_reaches_download_model :
  let name := "unsloth/gemma-3n-E4B-it" in
  let at_startup :=
    ChatbotApp.init_model_async Samples.damaged_cache (Samples.offline_manager VNone) in
  let direct :=
    load_model Samples.empty_cache name true (Samples.offline_manager (VStr name)) in
  get_method (config (Samples.offline_manager VNone)) "offline_mode" (VBool false)
  = Ok (VBool true) /\
  get_method (config (Samples.offline_manager (VStr name))) "offline_mode" (VBool false)
  = Ok (VBool true) /\
  fst at_startup = Ok (ChatbotApp.Load_complete name name) /\
  In (Enter_download_model name) (log (snd at_startup)) /\
  In (From_pretrained name) (log (snd at_startup)) /\
  fst direct = Ok name /\
  In (Enter_download_model name) (log (snd direct)) /\
  In (From_pretrained name) (log (snd direct)).
Proof. vm_compute. tauto. Qed.

End OfflineMode.

(** ** ModelManager: where the model paths point *)

Section ModelPaths.

Import Py ModelManager.

Lemma append_cons (c : ascii) (s t : string) :
  String c s +:+ t = String c (s +:+ t).
Proof. reflexivity. Qed.

Lemma append_empty (t : string) : "" +:+ t = t.
Proof. reflexivity. Qed.

Lemma prefix_char (c x : ascii) (r : string) :
  String.prefix (String c EmptyString) (String x r) = Ascii.eqb x c.
Proof.
  simpl. destruct (ascii_dec c x) as [->|Hne].
  - rewrite Ascii.eqb_refl. by destruct r.
  - symmetry. apply Ascii.eqb_neq. congruence.
Qed.

Lemma replace_char_removes (c d : ascii) (s : string) :
  c <> d ->
  contains_char c (replace (String c EmptyString) (String d EmptyString) s) = false.
Proof.
  intros Hcd. unfold replace. induction s as [|x r IH].
  - reflexivity.
  - cbn [replace_from]. rewrite prefix_char.
    destruct (Ascii.eqb x c) eqn:E; rewrite ?append_cons, ?append_empty; cbn.
    + rewrite IH. replace (Ascii.eqb d c) with false; [reflexivity |].
      symmetry. apply Ascii.eqb_neq. congruence.
    + rewrite E, IH. reflexivity.
Qed.

Lemma replace_char_keeps_absent (c d x : ascii) (s : string) :
  x <> d -> contains_char x s = false ->
  contains_char x (replace (String c EmptyString) (String d EmptyString) s) = false.
Proof.
  intros Hxd. unfold replace. induction s as [|y r IH]; [reflexivity |].
  cbn [contains_char replace_from]. intros H.
  apply orb_false_iff in H as [Hy Hr]. rewrite prefix_char.
  destruct (Ascii.eqb y c); rewrite ?append_cons, ?append_empty; cbn.
  - rewrite (IH Hr). replace (Ascii.eqb d x) with false; [reflexivity |].
    symmetry. apply Ascii.eqb_neq. congruence.
  - rewrite Hy, (IH Hr). reflexivity.
Qed.

Lemma split_on_from_app (sep : ascii) (a b : string) (cur : list ascii) :
  split_on_from sep cur (a +:+ String sep b)
  = split_on_from sep cur a ++ split_on_from sep [] b.
Proof.
  revert cur. induction a as [|x a IH]; intros cur;
    rewrite ?append_cons, ?append_empty; cbn.
  - rewrite Ascii.eqb_refl. reflexivity.
  - destruct (Ascii.eqb x sep); cbn; by rewrite IH.
Qed.

Lemma split_on_from_absent (sep : ascii) (b : string) (cur : list ascii) :
  contains_char sep b = false ->
  split_on_from sep cur b
  = [string_of_list_ascii (List.rev cur ++ list_ascii_of_string b)].
Proof.
  revert cur. induction b as [|x b IH]; intros cur; cbn.
  - by rewrite app_nil_r.
  - intros H. apply orb_false_iff in H as [Hx Hb]. rewrite Hx.
    rewrite (IH _ Hb). cbn. by rewrite <- app_assoc.
Qed.

Lemma split_on_absent (sep : ascii) (b : string) :
  contains_char sep b = false -> split_on sep b = [b].
Proof.
  intros H. unfold split_on. rewrite split_on_from_absent by done.
  cbn. by rewrite string_of_list_ascii_of_string.
Qed.

Lemma resolve_child (dir name : string) :
  contains_char "/" name = false ->
  resolve (dir +:+ String "/" name) = resolve_step (resolve dir) name.
Proof.
  intros H. unfold resolve, split_on.
  rewrite split_on_from_app, fold_left_app.
  fold (split_on "/" name). rewrite split_on_absent by done. reflexivity.
Qed.

Lemma list_string_eqb_refl (l : list string) : list_string_eqb l l = true.
Proof. induction l; cbn; [done |]. by rewrite String.eqb_refl. Qed.

Lemma ends_with_models (y : string) :
  ends_with_slash (y +:+ "models") = false /\ truthy_str (y +:+ "models") = true.
Proof.
  induction y as [|c y [IH1 IH2]]; [done |]. rewrite append_cons.
  split; [| done].
  cbn. destruct (y +:+ "models") eqn:E; [done | exact IH1].
Qed.

Lemma models_dir_shape (w : world) :
  exists y, models_dir w = y +:+ "models".
Proof.
  unfold models_dir.
  set (a := path_join (home w) ".educational_ai_tutor").
  unfold path_join at 1. cbn [String.prefix].
  change (if ascii_dec "/" "m" then _ else false) with false. cbn iota.
  destruct (negb (truthy_str a) || ends_with_slash a).
  - by exists a.
  - exists (a +:+ "/"). clear. induction a; rewrite ?append_cons, ?append_empty;
      [done | by f_equal].
Qed.

Lemma prefix_slash_absent (s : string) :
  contains_char "/" s = false -> String.prefix "/" s = false.
Proof.
  destruct s as [|x r]; [done |]. rewrite prefix_char. cbn.
  intros H. by apply orb_false_iff in H as [-> _].
Qed.

(** The sanitised name holds no path separator. *)
Lemma safe_name_no_separator (model_name : string) :
  contains_char "/" (safe_name model_name) = false /\
  contains_char "\" (safe_name model_name) = false.
Proof.
  unfold safe_name. split.
  - apply replace_char_keeps_absent; [done |].
    apply replace_char_removes. done.
  - apply replace_char_removes. done.
Qed.

Lemma get_model_path_join (w : world) (model_name : string) :
  get_model_path w model_name
  = models_dir w +:+ String "/" (safe_name model_name).
Proof.
  unfold get_model_path.
  destruct (safe_name_no_separator model_name) as [Hs _].
  unfold path_join at 1. rewrite (prefix_slash_absent _ Hs).
  destruct (models_dir_shape w) as [y ->].
  destruct (ends_with_models y) as [-> ->]. reflexivity.
Qed.

(** Every model name whose sanitised form is not empty, [.] or [..]
    is stored in a directory entry of [models_dir]. *)
Lemma get_model_path_child (w : world) (model_name : string) :
  safe_name model_name <> "" ->
  safe_name model_name <> "." ->
  safe_name model_name <> ".." ->
  is_child_of (models_dir w) (get_model_path w model_name) = true.
Proof.
  intros H0 H1 H2. rewrite get_model_path_join.
  destruct (safe_name_no_separator model_name) as [Hs _].
  unfold is_child_of. rewrite resolve_child by exact Hs.
  unfold resolve_step.
  apply String.eqb_neq in H0, H1, H2. rewrite H0, H1, H2. cbn [orb].
  rewrite rev_app_distr. cbn. rewrite rev_involutive.
  apply list_string_eqb_refl.
Qed.

(** C10 (fails on the code).  For the model name [..] the sanitised name
    is [..] itself, the model path is [models_dir/..], that is the parent
    of the models directory; [is_model_downloaded] looks at that
    directory and [delete_model] removes that tree. *)
Theorem model_path_escapes_models_dir :
  let w := Samples.empty_cache in
  safe_name ".." = ".." /\
  get_model_path w ".." = "/home/u/.educational_ai_tutor/models/.." /\
  resolve (models_dir w) = ["home"; "u"; ".educational_ai_tutor"; "models"] /\
  resolve (get_model_path w "..") = ["home"; "u"; ".educational_ai_tutor"] /\
  is_within (models_dir w) (get_model_path w "..") = false /\
  is_child_of (models_dir w) (get_model_path w "..") = false /\
  is_model_downloaded w ".." (Samples.offline_manager VNone)
  = (Ok true,
     {| config := config (Samples.offline_manager VNone);
        log := [Stat "/home/u/.educational_ai_tutor/models/.."] |}) /\
  delete_model w ".." (Samples.offline_manager VNone)
  = (Ok true,
     {| config := config (Samples.offline_manager VNone);
        log := [Stat "/home/u/.educational_ai_tutor/models/..";
                Rm_tree "/home/u/.educational_ai_tutor/models/..";
                Open_write "/home/u/.educational_ai_tutor/config.json"] |}).
Proof. vm_compute. repeat split. Qed.

End ModelPaths.

(** ** ChatbotApp: the token limit of send_message *)

Section SendMessage.

Import Py ChatbotApp.

Variable audio_duration : string -> result float.

Local Abbreviation send := (send_message audio_duration).
Local Abbreviation total := (calculate_total_input_tokens audio_duration).

Lemma over_limit_test (self : t) :
  TokenManager.max_context_tokens (token_manager self) = 32000 ->
  negb (Qle_bool (total self)
          (inject_Z (TokenManager.max_context_tokens (token_manager self)))) = true
  <-> (32000 < total self)%Q.
Proof.
  intros ->. rewrite negb_true_iff. split.
  - intros H. apply Qnot_le_lt. intros Hle.
    apply Qle_bool_iff in Hle. unfold inject_Z in H. congruence.
  - intros H. destruct (Qle_bool _ _) eqn:E; [| reflexivity].
    apply Qle_bool_iff in E. apply Qlt_not_le in H. contradiction.
Qed.

Lemma audio_tokens_from_stated (self : t) (l : list attachment) (acc : Z) :
  audio_tokens_from audio_duration self l acc
  = acc + audio_tokens_stated audio_duration self l.
Proof.
  revert acc. induction l as [|[p|p] l IH]; intros acc;
    cbn [audio_tokens_from audio_tokens_stated].
  - lia.
  - apply IH.
  - rewrite IH. lia.
Qed.

(** The total is the sum of the five shares: typed text, context, recent
    history, 256 per image, and the audio share. *)
Lemma total_input_tokens_formula (enc : option (string -> list nat)) (self : t) :
  token_manager self = TokenManager.init enc ->
  total self
  = (TokenManager.count_text_tokens (token_manager self) (Some (typed_text self))
     + TokenManager.count_text_tokens (token_manager self)
         (Some (strip (widget_get (context_display self))))
     + sum_tokens (if max_messages self <? Z.of_nat (length (chat_history self))
                   then slice_from (- max_messages self) (chat_history self)
                   else chat_history self)
     + inject_Z (Z.of_nat (length (filter (fun a => is_image a = true)
                                     (attachments self))) * 256)
     + inject_Z (audio_tokens_stated audio_duration self (attachments self)))%Q.
Proof.
  intros Htm. unfold calculate_total_input_tokens.
  rewrite (audio_tokens_from_stated self _ 0).
  rewrite Z.add_0_l. unfold TokenManager.count_image_tokens.
  rewrite Htm. reflexivity.
Qed.

(** C1.  When the computed total of input tokens exceeds 32,000,
    [send_message] opens a dialog box and returns with the application
    state untouched: nothing is appended to [chat_history], the input and
    the attachments are not cleared and no thread is started; with a model
    loaded and no generation running the box is the
    "Token Limit Exceeded" error.  A thread is started only when the
    total is at most 32,000. *)
Theorem send_message_token_limit (self : t) :
  TokenManager.max_context_tokens (token_manager self) = 32000 ->
  ((32000 < total self)%Q ->
     snd (send self) = self /\
     chat_history (snd (send self)) = chat_history self /\
     input_text (snd (send self)) = input_text self /\
     attachments (snd (send self)) = attachments self /\
     threads_started (fst (send self)) = [] /\
     (exists title, fst (send self) = [Show_warning title]
                    \/ fst (send self) = [Show_error title]) /\
     (model_loaded self = true -> is_generating self = false ->
      fst (send self) = [Show_error "Token Limit Exceeded"]))
  /\ (threads_started (fst (send self)) <> [] -> (total self <= 32000)%Q).
Proof.
  intros Hmax.
  assert ((32000 < total self)%Q ->
          (model_loaded self = false /\
           send self = ([Show_warning "Model Loading"], self))
          \/ (is_generating self = true /\
              send self = ([Show_warning "Generation Active"], self))
          \/ send self = ([Show_error "Token Limit Exceeded"], self)) as Hcases.
  { intros Hover. apply (over_limit_test self Hmax) in Hover.
    unfold send_message.
    destruct (model_loaded self); [| by left].
    destruct (is_generating self); [by right; left |].
    cbn [negb]. rewrite Hover. right; right. done. }
  split.
  - intros Hover.
    destruct (Hcases Hover) as [[Hl H]|[[Hg H]|H]]; rewrite H; cbn;
      repeat split; eauto; congruence.
  - intros Hstarted. apply Qnot_lt_le. intros Hover.
    destruct (Hcases Hover) as [[_ H]|[[_ H]|H]]; rewrite H in Hstarted;
      by apply Hstarted.
Qed.

End SendMessage.

Lemma send_message_token_limit_witness :
  let self := Samples.app "And 7?" "10" (repeat (ChatbotApp.Image "/tmp/shot.png") 126) in
  (32000 < ChatbotApp.calculate_total_input_tokens Samples.ten_seconds self)%Q /\
  fst (ChatbotApp.send_message Samples.ten_seconds self)
  = [ChatbotApp.Show_error "Token Limit Exceeded"] /\
  ChatbotApp.attachments (snd (ChatbotApp.send_message Samples.ten_seconds self))
  = repeat (ChatbotApp.Image "/tmp/shot.png") 126.
Proof.
  intros self.
  assert (32000 < ChatbotApp.calculate_total_input_tokens Samples.ten_seconds self)%Q
    as Hover by (vm_compute; reflexivity).
  split; [exact Hover |].
  destruct (send_message_token_limit Samples.ten_seconds self eq_refl) as [H _].
  destruct (H Hover) as (_ & _ & _ & Ha & _ & _ & He).
  split; [apply He; reflexivity | exact Ha].
Defined.

(** ** ChatbotApp: the history window of send_message *)

Section Window.

Import Py ChatbotApp.

Lemma slice_to_all_but_last {A} (l : list A) (x : A) :
  slice_to (-1) (l ++ [x]) = l.
Proof.
  unfold slice_to, clamp_index. rewrite length_app. cbn [length Z.ltb Z.compare].
  replace (Z.to_nat _) with (length l) by lia.
  by rewrite take_app_length.
Qed.

Lemma window_last_n {A} (n : Z) (l : list A) :
  1 <= n ->
  (if n <? Z.of_nat (length l) then slice_from (- n) l else l)
  = last_n (Z.to_nat n) l.
Proof.
  intros Hn. unfold last_n, slice_from, clamp_index.
  destruct (n <? Z.of_nat (length l)) eqn:E.
  - apply Z.ltb_lt in E.
    replace (- n <? 0) with true by (symmetry; apply Z.ltb_lt; lia).
    f_equal. lia.
  - apply Z.ltb_ge in E.
    replace (length l - Z.to_nat n)%nat with 0%nat by lia. reflexivity.
Qed.

Lemma length_last_n {A} (n : nat) (l : list A) : (length (last_n n l) <= n)%nat.
Proof. unfold last_n. rewrite length_drop. lia. Qed.

Lemma last_n_suffix {A} (n : nat) (l : list A) :
  exists earlier, l = earlier ++ last_n n l.
Proof. exists (take (length l - n) l). unfold last_n. by rewrite take_drop. Qed.

Lemma length_history_messages (l : list entry) :
  (length (history_messages l) <= length l)%nat.
Proof.
  induction l as [|e l IH]; cbn; [lia |].
  destruct (truthy_str (strip (content e))); cbn; lia.
Qed.

(** The messages are the entries of non-blank content, in order. *)
Lemma history_messages_filter (l : list entry) :
  history_messages l
  = map (fun e => message (role e) (content e))
        (List.filter (fun e => truthy_str (strip (content e))) l).
Proof.
  induction l as [|e l IH]; cbn; [done |].
  destruct (truthy_str (strip (content e))); cbn; by rewrite IH.
Qed.

Variable audio_duration : string -> result float.

Lemma full_message_nonempty (self : t) :
  negb (truthy_str (typed_text self))
  && negb (truthy_str (strip (widget_get (context_display self)))) = false ->
  truthy_str (full_message_of self) = true.
Proof.
  unfold full_message_of.
  destruct (truthy_str (strip (widget_get (context_display self)))) eqn:Ec.
  - intros _. reflexivity.
  - rewrite andb_true_r, negb_false_iff. done.
Qed.

Lemma send_message_started (self : t) :
  model_loaded self = true -> is_generating self = false ->
  (calculate_total_input_tokens audio_duration self
   <= inject_Z (TokenManager.max_context_tokens (token_manager self)))%Q ->
  truthy_str (typed_text self)
  || truthy_str (strip (widget_get (context_display self))) = true ->
  1 <= max_messages self ->
  threads_started (fst (send_message audio_duration self))
  = [(history_messages (last_n (Z.to_nat (max_messages self)) (chat_history self))
      ++ [message "user" (full_message_of self)],
      max_output_tokens self)].
Proof.
  intros Hl Hg Hle Hin Hn. unfold send_message. rewrite Hl, Hg. cbn [negb].
  apply Qle_bool_iff in Hle. rewrite Hle. cbn [negb].
  fold (typed_text self).
  assert (negb (truthy_str (typed_text self))
          && negb (truthy_str (strip (widget_get (context_display self)))) = false)
    as Hin' by (rewrite <- negb_orb, Hin; reflexivity).
  rewrite Hin'.
  pose proof (full_message_nonempty self Hin') as Hfull.
  unfold full_message_of in Hfull. fold (typed_text self).
  unfold add_message. cbv beta iota zeta.
  cbn [fst]. unfold threads_started. rewrite !omap_app.
  unfold build_messages, max_messages.
  cbn [chat_history history_messages_var attachments set_chat_history].
  rewrite slice_to_all_but_last.
  fold (max_messages self).
  rewrite (window_last_n _ _ Hn).
  unfold full_message_of.
  set (fm := if truthy_str (strip (widget_get (context_display self))) then _ else _) in *.
  rewrite Hfull.
  destruct (truthy_str (strip (widget_get (context_display self))));
  destruct (attachments self); cbn;
  destruct (history_messages _); reflexivity.
Qed.

(** For a history setting of at least 1 the thread receives a bounded
    window: the entries of non-blank content among the last
    [max_messages] entries of the history, in their order, then the new
    user message; nothing older is sent. *)
Lemma send_message_sends_window (self : t) :
  model_loaded self = true -> is_generating self = false ->
  (calculate_total_input_tokens audio_duration self
   <= inject_Z (TokenManager.max_context_tokens (token_manager self)))%Q ->
  truthy_str (typed_text self)
  || truthy_str (strip (widget_get (context_display self))) = true ->
  1 <= max_messages self ->
  exists earlier window,
    chat_history self = earlier ++ window /\
    (length window <= Z.to_nat (max_messages self))%nat /\
    threads_started (fst (send_message audio_duration self))
    = [(map (fun e => message (role e) (content e))
            (List.filter (fun e => truthy_str (strip (content e))) window)
        ++ [message "user" (full_message_of self)],
        max_output_tokens self)].
Proof.
  intros Hl Hg Hle Hin Hn.
  destruct (last_n_suffix (Z.to_nat (max_messages self)) (chat_history self))
    as [earlier He].
  exists earlier, (last_n (Z.to_nat (max_messages self)) (chat_history self)).
  split; [exact He |]. split; [apply length_last_n |].
  rewrite <- history_messages_filter.
  by apply send_message_started.
Qed.

(** A setting that is not an integer counts as 10. *)
Lemma max_messages_default (self : t) :
  int_of_str (history_messages_var self) = None -> max_messages self = 10.
Proof. unfold max_messages. by intros ->. Qed.

End Window.

(** ** ChatbotApp: attachments *)

Section Attachments.

Import Py ChatbotApp.

Variable audio_duration : string -> result float.

Lemma turn_messages_set_attachments (self : t) (l : list attachment) :
  turn_messages (set_attachments self l) = turn_messages self.
Proof. reflexivity. Qed.

(** C5 (amended).  No queued attachment is handed to the model: the
    messages of the thread that [send_message] starts are those built
    from the history and the typed text alone, the same as with no
    attachment queued; [send_message] empties [self.attachments] and,
    when something was queued, tells the user that the attachments were
    stored but not sent. *)
Theorem attachments_never_reach_the_model
  (self : t) (queued : list attachment) (th : list value * Z) :
  In th (threads_started
           (fst (send_message audio_duration (set_attachments self queued)))) ->
  th = (turn_messages (set_attachments self []), max_output_tokens self) /\
  attachments (snd (send_message audio_duration (set_attachments self queued))) = [] /\
  (queued <> [] ->
   In (System_message (attachments_note (length queued)))
      (fst (send_message audio_duration (set_attachments self queued)))).
Proof.
  rewrite turn_messages_set_attachments.
  rewrite <- (turn_messages_set_attachments self queued).
  unfold send_message.
  set (st := set_attachments self queued).
  destruct (model_loaded st); [| intros []].
  destruct (is_generating st); [intros [] |]. cbn [negb].
  destruct (Qle_bool _ _); [| intros []]. cbn [negb].
  fold (typed_text st).
  destruct (negb (truthy_str (typed_text st)) && _); [intros [] |].
  unfold add_message. cbv beta iota zeta. cbn [fst snd].
  change (if truthy_str (strip (widget_get (context_display st))) then _ +:+ _ else typed_text st)
    with (full_message_of st).
  unfold threads_started. rewrite !omap_app.
  cbn [attachments set_chat_history max_output_tokens].
  intros Hin. repeat split.
  - destruct (truthy_str (strip (widget_get (context_display st))));
      destruct (attachments st); cbn in Hin; destruct Hin as [<-|[]]; reflexivity.
  - intros Hq. subst st. cbn [attachments set_attachments].
    destruct queued as [|a q]; [done |].
    apply in_or_app. right. cbn. tauto.
Qed.

End Attachments.

Lemma attachments_never_reach_the_model_witness :
  let self := Samples.app "And 7?" "10" [] in
  let queued := [ChatbotApp.Image "/tmp/shot.png"] in
  ChatbotApp.attachments
    (snd (ChatbotApp.send_message Samples.ten_seconds
            (ChatbotApp.set_attachments self queued))) = [].
Proof.
  intros self queued.
  destruct (attachments_never_reach_the_model Samples.ten_seconds self queued
              (ChatbotApp.turn_messages self, 512)) as (_ & H & _).
  - vm_compute. left. reflexivity.
  - exact H.
Defined.

Section SentMessages.

Import Py ChatbotApp.

(** C5 as stated fails: with one image queued, the thread gets the
    history and the typed text, and no message refers to the image. *)
Lemma queued_attachment_is_not_sent :
  let self := Samples.app "And 7?" "10" [Image "/tmp/shot.png"] in
  threads_started (fst (send_message Samples.ten_seconds self))
  = [([message "user" "What is a prime?";
       message "assistant" "A number with exactly two divisors.";
       message "user" "And 7?"], 512)]
  /\ ~ (forall a, In a (attachments self) ->
        forall th, In th (threads_started (fst (send_message Samples.ten_seconds self))) ->
                   attachment_sent a (fst th) = true).
Proof.
  split; [reflexivity |].
  intros H.
  specialize (H (Image "/tmp/shot.png") (or_introl eq_refl) _ (or_introl eq_refl)).
  vm_compute in H. discriminate.
Qed.

(** C8 (fails on the code).  With the history setting 0 the slice
    [recent_history[-0:]] is the whole history: both earlier entries are
    sent although at most 0 should be. *)
Theorem history_window_of_zero_sends_all :
  let self := Samples.app "And 7?" "0" [] in
  max_messages self = 0 /\
  threads_started (fst (send_message Samples.ten_seconds self))
  = [([message "user" "What is a prime?";
       message "assistant" "A number with exactly two divisors.";
       message "user" "And 7?"], 512)].
Proof. split; reflexivity. Qed.

End SentMessages.

(** ** ModelThread: the prompt *)

Section WorkerTrace.

Import Py ModelThread.

Variable w : world.









End WorkerTrace.


Section Prompt.

Import Py ModelThread.

Variable w : world.

Lemma try_except_bind_first {S A B} (c : exn -> bool)
  (m : M S A) (k : A -> M S B) (h : exn -> M S B) (s s1 : S) (a : A) :
  m s = (Ok a, s1) ->
  try_except c (bind m k) h s = try_except c (k a) h s1.
Proof. intros H. unfold try_except, bind. by rewrite H. Qed.

Lemma rstrip_nonempty (s : string) :
  has_nonspace s = true -> truthy_str (rstrip s) = true.
Proof.
  induction s as [|c r IH]; cbn; [done |].
  destruct (rstrip r) eqn:E; [| done].
  destruct (is_space c); cbn; [| done].
  intros H. specialize (IH H). done.
Qed.

Lemma lstrip_has_nonspace (s : string) :
  has_nonspace (lstrip s) = has_nonspace s.
Proof.
  induction s as [|c r IH]; cbn; [done |].
  destruct (is_space c) eqn:E; cbn; [done |]. by rewrite E.
Qed.

Lemma strip_nonblank (s : string) :
  has_nonspace s = true -> truthy_str (strip s) = true.
Proof.
  intros H. unfold strip. apply rstrip_nonempty. by rewrite lstrip_has_nonspace.
Qed.

Lemma has_nonspace_app (a b : string) :
  has_nonspace b = true -> has_nonspace (a +:+ b) = true.
Proof.
  intros H. induction a as [|c a IH]; [done |].
  change (String c a +:+ b) with (String c (a +:+ b)). cbn.
  rewrite IH. apply orb_true_r.
Qed.

Lemma strings_from_text_parts (i : nat) (parts : list value) :
  forallb is_str parts = true ->
  strings_from i parts = Ok (map (str w) parts).
Proof.
  revert i. induction parts as [|p parts IH]; intros i; cbn; [done |].
  destruct p; cbn; try discriminate. intros H. by rewrite (IH _ H).
Qed.

Lemma strings_of_text_parts (parts : list value) :
  forallb is_str parts = true ->
  strings_of parts = Ok (map (str w) parts).
Proof. apply strings_from_text_parts. Qed.

Lemma turn_text_stated (msg : value) :
  text_is_str msg = true -> turn_text w msg = Ok (stated_turn w msg).
Proof.
  destruct msg as [| | | | |d|]; try done. cbn [text_is_str turn_text stated_turn].
  destruct (dict_get d "content" (VStr "")) as [| | |s|items| |] eqn:Ec;
    cbn [content_text stated_content str]; intros H;
    try (destruct (truthy_str (strip _)); [destruct (eq_str _ _) |]; reflexivity).
  rewrite (strings_of_text_parts _ H).
  destruct (truthy_str (strip _)); [destruct (eq_str _ _) |]; reflexivity.
Qed.

Hypothesis never_stopped : stop_at w = None.

Lemma is_set_never (s : t) : is_set w s = (Ok false, tick s).
Proof. unfold is_set, stop_is_set. by rewrite never_stopped. Qed.

Lemma append_assoc (a b c : string) : (a +:+ b) +:+ c = a +:+ (b +:+ c).
Proof.
  induction a as [|x a IH]; [done |].
  change (String x a +:+ b) with (String x (a +:+ b)).
  change (String x (a +:+ b) +:+ c) with (String x ((a +:+ b) +:+ c)).
  by rewrite IH.
Qed.

Lemma conversation_loop_stated (messages : list value) (acc : string) (s : t) :
  forallb text_is_str messages = true ->
  exists s',
    conversation_loop w messages acc s
    = (Ok (Some (acc +:+ foldr String.append "" (map (stated_turn w) messages))), s')
    /\ trace s' = trace s.
Proof.
  revert acc s. induction messages as [|msg rest IH]; intros acc s H.
  - exists s. cbn. split; [| done]. unfold ret. do 3 f_equal.
    clear. induction acc as [|x acc IH]; [done |].
    change (String x acc +:+ "") with (String x (acc +:+ "")). by rewrite <- IH.
  - cbn in H. apply andb_true_iff in H as [Hm Hr].
    cbn [conversation_loop].
    rewrite (bind_ok _ _ _ _ _ (is_set_never s)). cbn iota.
    rewrite (turn_text_stated _ Hm).
    unfold lift at 1. unfold bind at 1.
    destruct (IH (acc +:+ stated_turn w msg) (tick s) Hr) as (s' & Hs' & Ht).
    exists s'. split; [| exact Ht].
    rewrite Hs'. cbn [map foldr]. by rewrite append_assoc.
Qed.

Hypothesis has_model : model w = true.
Hypothesis has_tokenizer : tokenizer w = true.


End Prompt.


Section PromptFailure.

Import Py ModelThread.


End PromptFailure.

(** ** ModelThread: cancellation *)

Section Cancellation.

Import Py ModelThread.

Variable w : world.

Lemma stop_is_set_mono (n m : nat) :
  (n <= m)%nat -> stop_is_set w n = true -> stop_is_set w m = true.
Proof.
  unfold stop_is_set. destruct (stop_at w) as [k|]; [| done].
  intros Hnm H. apply Nat.leb_le in H. apply Nat.leb_le. lia.
Qed.

(** Once the event is set, [StreamCapture.on_finalized_text] and
    [StreamCapture.put] do nothing. *)
Lemma on_finalized_text_after_stop (text : string) (s : t) :
  stop_is_set w (clock s) = true ->
  on_finalized_text w text s = (Ok tt, tick s).
Proof.
  intros H. unfold on_finalized_text, bind, is_set. rewrite H. reflexivity.
Qed.

Lemma streamer_put_after_stop (finalized : option string) (s : t) :
  stop_is_set w (clock s) = true ->
  streamer_put w finalized s = (Ok tt, tick s).
Proof.
  intros H. unfold streamer_put, bind, is_set. rewrite H. reflexivity.
Qed.

Lemma stream_after_stop (calls : list streamer_call) (s : t) :
  stop_is_set w (clock s) = true ->
  exists s', stream w calls s = (Ok tt, s')
             /\ trace s' = trace s /\ (clock s <= clock s')%nat.
Proof.
  revert s. induction calls as [|c calls IH]; intros s H.
  - exists s. cbn. auto.
  - cbn [stream]. unfold bind at 1.
    assert (streamer_step w c s = (Ok tt, tick s)) as ->.
    { destruct c; cbn [streamer_step];
        [apply streamer_put_after_stop | apply on_finalized_text_after_stop];
        exact H. }
    destruct (IH (tick s)) as (s' & Hs' & Ht & Hc).
    + apply (stop_is_set_mono (clock s)); [cbn; lia | exact H].
    + exists s'. rewrite Hs'. cbn in *. repeat split; [done | lia].
Qed.

End Cancellation.

Section CancellationFailure.

Import Py ModelThread.

(** C3 (fails on the code).  When the streamed generation fails and the
    fall-back generation runs, a [stop()] that arrives while the
    fall-back tokenizes or generates does not keep the answer off the
    queue: the chunk is put after the event is set, then [Stopped]. *)
Theorem fallback_chunk_put_after_stop :
  map (fun n => puts_of (snd (run (Samples.fallback_run (Some n))
                                Samples.question start)))
      [5; 6; 7]%nat
  = [ [(Chunk "Seven is prime.", true); (Stopped, true)];
      [(Chunk "Seven is prime.", true); (Stopped, true)];
      [(Chunk "Seven is prime.", true); (Stopped, true)] ].
Proof. reflexivity. Qed.

End CancellationFailure.

(* ===================================================================== *)
(** * Part III.  Further properties of the code                           *)
(* ===================================================================== *)

(** ** The queue of a generation thread

    A small logic for what a piece of [ModelThread] puts on the response
    queue, and three results about [run] obtained with it. *)

Section QueueLogic.

Import Py ModelThread.

Variable w : world.

Lemma responses_tick (s : t) : responses (tick s) = responses s.
Proof. reflexivity. Qed.

Lemma responses_record_put (r : response) (b : bool) (s : t) :
  responses (record (Put r b) s) = responses s ++ [r].
Proof.
  unfold responses, puts_of. cbn [trace record].
  rewrite omap_app, map_app. reflexivity.
Qed.

Lemma responses_record_other (a : action) (s : t) :
  (forall r b, a <> Put r b) -> responses (record a s) = responses s.
Proof.
  intros H. unfold responses, puts_of. cbn [trace record].
  rewrite omap_app, map_app. destruct a; cbn; rewrite ?app_nil_r; try done.
  by destruct (H r stop_was_set).
Qed.

Variable X : exn -> Prop.

Lemma chunks_with_ret {A} (V : A -> Prop) (a : A) : V a -> chunks_with X V (ret a).
Proof. intros H s. exists []. cbn. rewrite app_nil_r. auto. Qed.

Lemma chunks_with_raise {A} (V : A -> Prop) (e : exn) :
  X e -> chunks_with X V (@raise t A e).
Proof. intros H s. exists []. cbn. rewrite app_nil_r. auto. Qed.

Lemma chunks_with_lift {A} (V : A -> Prop) (r : result A) :
  match r with Ok a => V a | Raise e => X e end -> chunks_with X V (lift r).
Proof. intros H s. exists []. cbn. rewrite app_nil_r. auto. Qed.

Lemma chunks_with_weaken {A} (V V' : A -> Prop) (m : M t A) :
  (forall a, V a -> V' a) -> chunks_with X V m -> chunks_with X V' m.
Proof.
  intros HV Hm s. destruct (Hm s) as (l & H1 & H2 & H3). exists l.
  repeat split; auto. destruct (fst (m s)); auto.
Qed.

Lemma chunks_with_bind {A B} (V : A -> Prop) (W : B -> Prop)
  (m : M t A) (k : A -> M t B) :
  chunks_with X V m -> (forall a, V a -> chunks_with X W (k a)) ->
  chunks_with X W (bind m k).
Proof.
  intros Hm Hk s. unfold bind. destruct (Hm s) as (l1 & H1 & Hc1 & Hv).
  destruct (m s) as [[a|e] s1]; cbn in *.
  - destruct (Hk a Hv s1) as (l2 & H2 & Hc2 & Hw). exists (l1 ++ l2).
    rewrite H2, H1, app_assoc. repeat split; [| done]. by apply Forall_app.
  - exists l1. auto.
Qed.

Lemma chunks_with_try_except {A} (V : A -> Prop) (c : exn -> bool)
  (m : M t A) (h : exn -> M t A) :
  chunks_with X V m -> (forall e, chunks_with X V (h e)) ->
  chunks_with X V (try_except c m h).
Proof.
  intros Hm Hh s. unfold try_except. destruct (Hm s) as (l1 & H1 & Hc1 & Hv).
  destruct (m s) as [[a|e] s1]; cbn in *.
  - exists l1. auto.
  - destruct (c e); cbn; [| exists l1; auto].
    destruct (Hh e s1) as (l2 & H2 & Hc2 & Hw). exists (l1 ++ l2).
    rewrite H2, H1, app_assoc. repeat split; [| done]. by apply Forall_app.
Qed.

Lemma chunks_with_record (a : action) :
  (forall r b, a <> Put r b) ->
  chunks_with X (fun _ => True) (modify (record a)).
Proof.
  intros H s. exists []. unfold modify. cbn [fst snd].
  rewrite app_nil_r, responses_record_other; auto.
Qed.

Lemma chunks_with_put_chunk (text : string) :
  chunks_with X (fun _ => True) (queue_put w (Chunk text)).
Proof.
  intros s. exists [Chunk text]. unfold queue_put. cbn [fst snd].
  rewrite responses_record_put. repeat split. by constructor.
Qed.

(** What is known of the answer of [is_set] *)
Variable S : bool -> Prop.
Hypothesis is_set_answer : forall n, S (stop_is_set w n).

Lemma chunks_with_is_set : chunks_with X S (is_set w).
Proof.
  intros s. exists []. unfold is_set. cbn [fst snd].
  rewrite app_nil_r, responses_tick. repeat split; auto.
Qed.

Variable T : list response -> Prop.
Hypothesis T_after_chunks :
  forall l1 l, Forall (fun r => is_chunk r = true) l1 -> T l -> T (l1 ++ l).

Lemma finishing_bind {A B} (V : A -> Prop) (m : M t A) (k : A -> M t B) :
  chunks_with X V m -> (forall a, V a -> finishing X T (k a)) ->
  finishing X T (bind m k).
Proof.
  intros Hm Hk s. unfold bind. destruct (Hm s) as (l1 & H1 & Hc1 & Hv).
  destruct (m s) as [[a|e] s1]; cbn in *.
  - destruct (Hk a Hv s1) as (l2 & H2 & Ht). exists (l1 ++ l2).
    rewrite H2, H1, app_assoc. split; [done |].
    destruct (fst (k a s1)).
    + by apply T_after_chunks.
    + destruct Ht. split; [by apply Forall_app | done].
  - exists l1. auto.
Qed.

Lemma finishing_try_except {A} (c : exn -> bool) (m : M t A) (h : exn -> M t A) :
  finishing X T m -> (forall e, finishing X T (h e)) ->
  finishing X T (try_except c m h).
Proof.
  intros Hm Hh s. unfold try_except. destruct (Hm s) as (l1 & H1 & Ht).
  destruct (m s) as [[a|e] s1]; cbn in *.
  - exists l1. auto.
  - destruct Ht as [Hc1 Hx]. destruct (c e); cbn; [| exists l1; auto].
    destruct (Hh e s1) as (l2 & H2 & Ht2). exists (l1 ++ l2).
    rewrite H2, H1, app_assoc. split; [done |].
    destruct (fst (h e s1)).
    + by apply T_after_chunks.
    + destruct Ht2. split; [by apply Forall_app | done].
Qed.

Lemma finishing_put (r : response) : T [r] -> finishing X T (queue_put w r).
Proof.
  intros H s. exists [r]. unfold queue_put. cbn [fst snd].
  by rewrite responses_record_put.
Qed.

Lemma finishing_quiet {A} (V : A -> Prop) (m : M t A) :
  (forall l, Forall (fun r => is_chunk r = true) l -> T l) ->
  chunks_with X V m -> finishing X T m.
Proof.
  intros HT Hm s. destruct (Hm s) as (l & H1 & Hc & Hv). exists l.
  split; [done |]. destruct (fst (m s)); auto.
Qed.

(** The pieces of [run] *)

Lemma chunks_with_on_finalized_text (text : string) :
  chunks_with X (fun _ => True) (on_finalized_text w text).
Proof.
  unfold on_finalized_text.
  apply (chunks_with_bind S); [apply chunks_with_is_set | intros b _].
  destruct b; [by apply chunks_with_ret |].
  destruct (truthy_str _); [apply chunks_with_put_chunk | by apply chunks_with_ret].
Qed.

Lemma chunks_with_streamer_step (c : streamer_call) :
  chunks_with X (fun _ => True) (streamer_step w c).
Proof.
  destruct c as [finalized|text]; cbn [streamer_step];
    [| apply chunks_with_on_finalized_text].
  unfold streamer_put.
  apply (chunks_with_bind S); [apply chunks_with_is_set | intros b _].
  destruct b; [by apply chunks_with_ret |].
  destruct finalized; [apply chunks_with_on_finalized_text | by apply chunks_with_ret].
Qed.

Lemma chunks_with_stream (calls : list streamer_call) :
  chunks_with X (fun _ => True) (stream w calls).
Proof.
  induction calls as [|c calls IH]; cbn [stream]; [by apply chunks_with_ret |].
  eapply chunks_with_bind; [apply chunks_with_streamer_step | intros _ _; exact IH].
Qed.

Hypothesis ordinary_escape : forall e, is_Exception e = true -> X e.

Lemma turn_text_ordinary (msg : value) :
  match turn_text w msg with Ok _ => True | Raise e => X e end.
Proof.
  destruct (turn_text w msg) as [a|e] eqn:E; [done |].
  apply ordinary_escape.
  destruct msg; try discriminate. cbn in E.
  destruct (content_text w _) as [c|e'] eqn:Ec.
  - destruct (truthy_str _); [destruct (eq_str _ _) |]; discriminate.
  - injection E as <-. unfold content_text in Ec.
    destruct (dict_get items "content" (VStr "")); try discriminate.
    unfold strings_of in Ec. destruct (strings_from 0 _) as [?|e''] eqn:Es; [discriminate |].
    injection Ec as <-. clear -Es.
    revert Es. generalize 0%nat. induction (text_parts items0) as [|p l IH]; intros n; cbn.
    + discriminate.
    + destruct p; try (intros [= <-]; reflexivity).
      destruct (strings_from (Datatypes.S n) l) eqn:E'; [discriminate |].
      intros [= <-]. eapply IH, E'.
Qed.

Lemma chunks_with_conversation_loop (messages : list value) (acc : string) :
  chunks_with X (fun built => built = None -> S true)
    (conversation_loop w messages acc).
Proof.
  revert acc. induction messages as [|msg rest IH]; intros acc; cbn [conversation_loop].
  - by apply chunks_with_ret.
  - apply (chunks_with_bind (fun b => b = true -> S true)).
    + eapply chunks_with_weaken; [| apply chunks_with_is_set].
      by intros a Ha ->.
    + intros b Hb. destruct b; [apply chunks_with_ret; auto |].
      apply (chunks_with_bind (fun _ => True)).
      * apply chunks_with_lift. apply turn_text_ordinary.
      * intros added _. apply IH.
Qed.

Hypothesis world_failures : failures_satisfy X w.

Lemma simple_loop_ordinary (messages : list value) (acc : string) :
  match simple_loop w messages acc with Ok _ => True | Raise e => X e end.
Proof.
  revert acc. induction messages as [|msg rest IH]; intros acc; cbn; [done |].
  destruct msg; try (by apply ordinary_escape).
  destruct (dict_get items "role" (VStr "user")); try (by apply ordinary_escape).
  apply IH.
Qed.

Lemma chunks_with_manual_generation (conversation_text : string) :
  chunks_with X (fun go_on => go_on = false -> S true)
    (manual_generation w conversation_text).
Proof.
  destruct world_failures as (Htok & Hgen & _ & _).
  unfold manual_generation.
  eapply chunks_with_bind; [by apply chunks_with_record | intros _ _].
  apply (chunks_with_bind (fun _ => True)).
  { apply chunks_with_lift. destruct (tokenize w conversation_text) eqn:E; eauto. }
  intros has_ids _.
  apply (chunks_with_bind (fun _ => True)).
  { destruct has_ids; cbn [negb];
      [eapply chunks_with_weaken; [| apply chunks_with_is_set]; done
      | by apply chunks_with_ret]. }
  intros stop_now _.
  destruct stop_now.
  - apply (chunks_with_bind S); [apply chunks_with_is_set | intros stopped Hs].
    destruct stopped; cbn [negb].
    + apply chunks_with_ret. by intros _.
    + apply chunks_with_raise. by apply ordinary_escape.
  - apply (chunks_with_bind S); [apply chunks_with_is_set | intros stopped Hs].
    destruct stopped.
    + apply chunks_with_ret. by intros _.
    + eapply chunks_with_bind; [by apply chunks_with_record | intros _ _].
      eapply chunks_with_bind; [apply chunks_with_stream; assumption | intros _ _].
      apply (chunks_with_bind (fun _ => True)).
      { apply chunks_with_lift. destruct (snd (generate w)) eqn:E; eauto. }
      intros _ _. apply chunks_with_ret. discriminate.
Qed.

Lemma chunks_with_simple_generation (messages : list value) (manual_error : exn) :
  chunks_with X (fun go_on => go_on = false -> S true)
    (simple_generation w messages manual_error).
Proof.
  destruct world_failures as (_ & _ & Htok & Hgen).
  unfold simple_generation.
  apply (chunks_with_bind S); [apply chunks_with_is_set | intros stopped Hs].
  destruct stopped; [apply chunks_with_ret; by intros _ |].
  apply chunks_with_try_except.
  - apply (chunks_with_bind (fun _ => True)).
    { apply chunks_with_lift. apply simple_loop_ordinary. }
    intros simple_text0 _.
    eapply chunks_with_bind; [by apply chunks_with_record | intros _ _].
    apply (chunks_with_bind (fun _ => True)).
    { apply chunks_with_lift.
      destruct (tokenize_simple w _) eqn:E; eauto. }
    intros _ _.
    eapply chunks_with_bind; [by apply chunks_with_record | intros _ _].
    apply (chunks_with_bind (fun _ => True)).
    { apply chunks_with_lift. destruct (generate_simple w) eqn:E; eauto. }
    intros outputs _.
    destruct outputs as [response_text|]; [| apply chunks_with_ret; discriminate].
    destruct (truthy_str _); [| apply chunks_with_ret; discriminate].
    eapply chunks_with_bind; [apply chunks_with_put_chunk | intros _ _].
    apply chunks_with_ret. discriminate.
  - intros final_error. apply chunks_with_raise. by apply ordinary_escape.
Qed.

Lemma stop_is_set_later (n : nat) :
  stop_is_set w n = true -> stop_is_set w (Datatypes.S n) = true.
Proof.
  unfold stop_is_set. destruct (stop_at w) as [k|]; [| done].
  intros H. apply Nat.leb_le in H. apply Nat.leb_le. lia.
Qed.

Hypothesis T_stopped_quiet : S true -> T [].

(** A second look at the event after it was found set finds it set: the
    message guarded by that second look is not put. *)
Lemma finishing_stop_guard (r : response) (k : M t unit) :
  finishing X T k ->
  finishing X T
    (bind (is_set w)
       (fun nothing_to_do =>
          if nothing_to_do
          then bind (is_set w)
                 (fun stopped => if negb stopped then queue_put w r else ret tt)
          else k)).
Proof.
  intros Hk s. set (m := bind (is_set w) _).
  assert (m s = if stop_is_set w (clock s)
                then (Ok tt, tick (tick s)) else k (tick s)) as ->.
  { subst m. unfold bind, is_set. cbv beta iota.
    destruct (stop_is_set w (clock s)) eqn:E; [| reflexivity].
    cbn [clock tick]. rewrite (stop_is_set_later _ E). reflexivity. }
  destruct (stop_is_set w (clock s)) eqn:E.
  - exists []. cbn [fst snd]. rewrite app_nil_r. split; [reflexivity |].
    apply T_stopped_quiet. rewrite <- E. apply is_set_answer.
  - destruct (Hk (tick s)) as (l & H1 & H2). exists l. by rewrite H1.
Qed.

Hypothesis T_no_model : T [Error "Model or tokenizer not loaded"].
Hypothesis T_complete : T [Complete].
Hypothesis T_stopped : S true -> T [Stopped].

Lemma append_nonblank (text : string) :
  truthy_str (strip (text +:+ "<start_of_turn>model" +:+ newline)) = true.
Proof. apply strip_nonblank. by apply has_nonspace_app. Qed.

(** The body of the [try] of [run] *)
Lemma finishing_run_body (messages : list value) :
  exists body,
    run w messages = try_except is_Exception body
                       (fun e =>
                          bind (is_set w)
                            (fun stopped =>
                               if negb stopped
                               then queue_put w (Error ("Generation failed: " +:+ exn_str e))
                               else ret tt))
    /\ finishing X T body.
Proof.
  eexists. split; [reflexivity |].
  apply (finishing_bind S); [apply chunks_with_is_set | intros stopped Hs].
  destruct stopped.
  { eapply finishing_quiet; [| by apply (chunks_with_ret (fun _ => True))].
    intros l Hl. rewrite <- (app_nil_r l). apply T_after_chunks; auto. }
  destruct (negb (model w && tokenizer w)); [by apply finishing_put |].
  eapply finishing_bind; [apply chunks_with_conversation_loop | intros built Hb].
  destruct built as [text|].
  2: { eapply finishing_quiet; [| by apply (chunks_with_ret (fun _ => True))].
       intros l Hl. rewrite <- (app_nil_r l). apply T_after_chunks; auto. }
  cbv zeta. rewrite append_nonblank. cbn [negb].
  apply finishing_stop_guard.
  apply (finishing_bind (fun go_on => go_on = false -> S true)).
  { apply chunks_with_try_except;
      [apply chunks_with_manual_generation
      | intros e; apply chunks_with_simple_generation]. }
  intros go_on Hgo. destruct go_on; cbn [negb].
  - apply (finishing_bind S); [apply chunks_with_is_set | intros stopped Hs'].
    destruct stopped; cbn [negb]; apply finishing_put; auto.
  - eapply finishing_quiet; [| by apply (chunks_with_ret (fun _ => True))].
    intros l Hl. rewrite <- (app_nil_r l). apply T_after_chunks; auto.
Qed.

End QueueLogic.

Section QueueShape.

Import Py ModelThread.

Lemma chunks_then_at_most_one_after (l1 l : list response) :
  Forall (fun r => is_chunk r = true) l1 ->
  chunks_then_at_most_one l -> chunks_then_at_most_one (l1 ++ l).
Proof.
  unfold chunks_then_at_most_one. intros H1 H.
  destruct l as [|r l].
  - rewrite app_nil_r. clear H. induction H1 as [|x l1 Hx H1 IH]; [constructor |].
    destruct l1; [constructor |]. cbn. constructor; [exact Hx | exact IH].
  - rewrite removelast_app by discriminate. by apply Forall_app.
Qed.

Lemma chunks_then_at_most_one_chunks (l : list response) :
  Forall (fun r => is_chunk r = true) l -> chunks_then_at_most_one l.
Proof.
  intros H. rewrite <- (app_nil_r l).
  apply chunks_then_at_most_one_after; [exact H | constructor].
Qed.

(** The handler of the outer [try] of [run] *)
Lemma finishing_handler (w : world) (X : exn -> Prop) (S : bool -> Prop)
  (T : list response -> Prop) (msg : string) :
  (forall n, S (stop_is_set w n)) ->
  (forall l1 l, Forall (fun r => is_chunk r = true) l1 -> T l -> T (l1 ++ l)) ->
  (S true -> T []) -> T [Error msg] ->
  finishing X T
    (bind (is_set w)
       (fun stopped => if negb stopped then queue_put w (Error msg) else ret tt)).
Proof.
  intros HS HT Hq He.
  eapply (finishing_bind X T HT); [apply (chunks_with_is_set w X S HS) |].
  intros stopped Hs.
  destruct stopped; cbn [negb]; [| by apply finishing_put].
  intros s. exists []. cbn. rewrite app_nil_r. auto.
Qed.

Lemma no_failures_to_satisfy (w : world) : failures_satisfy (fun _ => True) w.
Proof. repeat split. Qed.

(** X1.  Whatever the messages, the model, the tokenizer and the moment
    of a [stop()], a run of the thread puts on the queue zero or more
    chunks and then at most one message of another kind ([complete],
    [stopped] or [error]): nothing follows the closing message and no
    run closes twice. *)
Theorem run_queue_shape (w : world) (messages : list value) :
  chunks_then_at_most_one (responses (snd (run w messages start))).
Proof.
  set (T := chunks_then_at_most_one).
  assert (forall l, length l <= 1 -> T l)%nat as Hshort.
  { intros [|r [|r' l]] Hl; try (by constructor). cbn in Hl. lia. }
  destruct (finishing_run_body w (fun _ => True) (fun _ => True)
              (fun _ => I) T chunks_then_at_most_one_after (fun _ _ => I)
              (no_failures_to_satisfy w)
              (fun _ => Hshort [] ltac:(cbn; lia))
              (Hshort [_] ltac:(cbn; lia)) (Hshort [_] ltac:(cbn; lia))
              (fun _ => Hshort [_] ltac:(cbn; lia)) messages)
    as (body & Hrun & Hbody).
  rewrite Hrun.
  match goal with
  | |- context [try_except ?c body ?h] =>
      assert (finishing (fun _ => True) T (try_except c body h)) as Hfin
  end.
  { apply (finishing_try_except _ _ chunks_then_at_most_one_after);
      [exact Hbody | intros e].
    apply (finishing_handler w _ (fun _ => True)); auto using chunks_then_at_most_one_after.
    - intros _. apply Hshort. cbn; lia.
    - apply Hshort. cbn; lia. }
  destruct (Hfin start) as (l & Hl & Ht).
  rewrite Hl. change (responses start) with (@nil response). cbn [app].
  destruct (fst _); [exact Ht |].
  apply chunks_then_at_most_one_chunks, Ht.
Qed.

(** X4.  The message "No valid messages to process" is never put on the
    queue: the prompt always ends with the opening of the model's turn,
    so the test for a blank prompt cannot succeed. *)
Theorem run_never_reports_no_valid_messages (w : world) (messages : list value) :
  Forall (fun r => r <> Error "No valid messages to process")
         (responses (snd (run w messages start))).
Proof.
  set (T := Forall (fun r : response => r <> Error "No valid messages to process")).
  assert (forall l, Forall (fun r => is_chunk r = true) l -> T l) as Hchunks.
  { intros l Hl. eapply Forall_impl; [exact Hl |]. by intros [] Hr. }
  assert (forall l1 l, Forall (fun r => is_chunk r = true) l1 -> T l -> T (l1 ++ l))
    as HT.
  { intros l1 l H1 Hl. apply Forall_app. split; [by apply Hchunks | exact Hl]. }
  assert (T []) as Hnil by constructor.
  assert (T [Error "Model or tokenizer not loaded"]) as Hmodel
    by (constructor; [discriminate | constructor]).
  assert (T [Complete]) as Hcomplete by (constructor; [discriminate | constructor]).
  assert (T [Stopped]) as Hstopped by (constructor; [discriminate | constructor]).
  destruct (finishing_run_body w (fun _ => True) (fun _ => True)
              (fun _ => I) T HT (fun _ _ => I) (no_failures_to_satisfy w)
              (fun _ => Hnil) Hmodel Hcomplete (fun _ => Hstopped) messages)
    as (body & Hrun & Hbody).
  rewrite Hrun.
  match goal with
  | |- context [try_except ?c body ?h] =>
      assert (finishing (fun _ => True) T (try_except c body h)) as Hfin
  end.
  { apply (finishing_try_except _ _ HT); [exact Hbody | intros e].
    apply (finishing_handler w _ (fun _ => True)); auto.
    constructor; [discriminate | constructor]. }
  destruct (Hfin start) as (l & Hl & Ht).
  rewrite Hl. change (responses start) with (@nil response). cbn [app].
  destruct (fst _); [exact Ht |].
  apply Hchunks, Ht.
Qed.

(** X2.  A run that nobody stops, in a world whose tokenizer and model
    fail with ordinary exceptions only, returns normally and closes the
    queue exactly once, with [complete] or with an [error] message,
    after the chunks. *)
Theorem unstopped_run_ends_once (w : world) (messages : list value) :
  stop_at w = None ->
  failures_satisfy (fun e => is_Exception e = true) w ->
  fst (run w messages start) = Ok tt /\
  chunks_then_complete_or_error (responses (snd (run w messages start))).
Proof.
  intros Hnever Hfail.
  set (T := chunks_then_complete_or_error).
  assert (forall n, stop_is_set w n = false) as HS
    by (intros n; unfold stop_is_set; by rewrite Hnever).
  assert (forall l1 l, Forall (fun r => is_chunk r = true) l1 -> T l -> T (l1 ++ l))
    as HT.
  { intros l1 l H1 (chunks & r & -> & Hc & Hr).
    exists (l1 ++ chunks), r. rewrite app_assoc.
    repeat split; [by apply Forall_app | exact Hr]. }
  assert (forall r, r = Complete \/ (exists msg, r = Error msg) -> T [r]) as Hone.
  { intros r Hr. exists [], r. repeat split; [constructor | exact Hr]. }
  destruct (finishing_run_body w (fun e => is_Exception e = true)
              (fun b => b = false) HS T HT (fun _ H => H) Hfail
              (fun H => ltac:(discriminate H))
              (Hone _ (or_intror (ex_intro _ _ eq_refl)))
              (Hone _ (or_introl eq_refl))
              (fun H => ltac:(discriminate H)) messages)
    as (body & Hrun & Hbody).
  rewrite Hrun. unfold try_except.
  destruct (Hbody start) as (l & Hl & Ht).
  change (responses start) with (@nil response) in Hl. cbn [app] in Hl.
  destruct (body start) as [[[]|e] s']; cbn [fst snd] in *.
  - split; [reflexivity |]. by rewrite Hl.
  - destruct Ht as [Hc He]. rewrite He.
    unfold bind, is_set. cbv beta iota. rewrite HS. cbn [negb].
    unfold queue_put. cbn [fst snd]. split; [reflexivity |].
    rewrite responses_record_put, responses_tick, Hl.
    exists l, (Error ("Generation failed: " +:+ exn_str e)).
    repeat split; [exact Hc |]. right. eauto.
Qed.

Lemma unstopped_run_ends_once_witness :
  fst (run (Samples.fallback_run None) Samples.question start) = Ok tt /\
  chunks_then_complete_or_error
    (responses (snd (run (Samples.fallback_run None) Samples.question start))).
Proof.
  apply (unstopped_run_ends_once (Samples.fallback_run None) Samples.question).
  - reflexivity.
  - repeat split; intros; try discriminate.
    cbn in H. by inversion H.
Defined.

End QueueShape.

Section Streamed.

Import Py ModelThread.

Variable w : world.
Hypothesis never_stopped : stop_at w = None.

Lemma on_finalized_text_never (text : string) (s : t) :
  exists s',
    on_finalized_text w text s = (Ok tt, s') /\
    responses s' = responses s
                   ++ (if truthy_str (cleaned_text text)
                       then [Chunk (cleaned_text text)] else []).
Proof.
  unfold on_finalized_text.
  rewrite (bind_ok _ _ _ _ _ (is_set_never w never_stopped s)). cbv beta iota zeta.
  fold (cleaned_text text).
  destruct (truthy_str (cleaned_text text)).
  - eexists. split; [reflexivity |]. by rewrite responses_record_put.
  - eexists. split; [reflexivity |]. by rewrite app_nil_r.
Qed.

Lemma stream_never (calls : list streamer_call) (s : t) :
  exists s',
    stream w calls s = (Ok tt, s') /\
    responses s' = responses s ++ map Chunk (streamed_chunks calls).
Proof.
  revert s. induction calls as [|c calls IH]; intros s.
  - exists s. cbn. by rewrite app_nil_r.
  - cbn [stream].
    assert (exists s1, streamer_step w c s = (Ok tt, s1) /\
              responses s1 = responses s
                ++ map Chunk (streamed_chunks [c])) as (s1 & Hs1 & Hr1).
    { destruct c as [[text|]|text]; cbn [streamer_step].
      - unfold streamer_put.
        rewrite (bind_ok _ _ _ _ _ (is_set_never w never_stopped s)). cbv beta iota.
        destruct (on_finalized_text_never text (tick s)) as (s1 & H1 & H2).
        exists s1. split; [exact H1 |]. rewrite H2. unfold streamed_chunks. cbn.
        by destruct (truthy_str (cleaned_text text)).
      - unfold streamer_put.
        rewrite (bind_ok _ _ _ _ _ (is_set_never w never_stopped s)). cbv beta iota.
        eexists. split; [reflexivity |]. by rewrite app_nil_r.
      - destruct (on_finalized_text_never text s) as (s1 & H1 & H2).
        exists s1. split; [exact H1 |]. rewrite H2. unfold streamed_chunks. cbn.
        by destruct (truthy_str (cleaned_text text)). }
    rewrite (bind_ok _ _ _ _ _ Hs1).
    destruct (IH s1) as (s' & Hs' & Hr'). exists s'. split; [exact Hs' |].
    rewrite Hr', Hr1, <- app_assoc, <- map_app. do 2 f_equal.
    unfold streamed_chunks.
    destruct c as [[text|]|text]; cbn; try reflexivity;
      by destruct (truthy_str (cleaned_text text)).
Qed.

Hypothesis has_model : model w = true.
Hypothesis has_tokenizer : tokenizer w = true.

(** The streamed generation of a run that nobody stops: the tokenizer
    and the model are called once, and the stream puts its chunks. *)
Lemma manual_generation_streams (conversation_text : string) (s : t) :
  tokenize w conversation_text = Ok true ->
  snd (generate w) = Ok tt ->
  exists s',
    manual_generation w conversation_text s = (Ok true, s') /\
    responses s' = responses s ++ map Chunk (streamed_chunks (fst (generate w))).
Proof.
  intros Htok Hgen.
  destruct (stream_never (fst (generate w))
              (record (Generate_call true)
                 (tick (tick (record (Tokenizer_call conversation_text) s)))))
    as (s2 & Hs2 & Hr2).
  exists s2. split.
  - unfold manual_generation, bind, modify, lift, ret, is_set, stop_is_set.
    rewrite never_stopped. cbv beta iota. rewrite Htok. cbn [negb]. cbv beta iota.
    rewrite Hs2, Hgen. reflexivity.
  - rewrite Hr2.
    rewrite !responses_record_other, !responses_tick, ?responses_record_other
      by discriminate.
    reflexivity.
Qed.

(** The state a streamed run ends in *)
Lemma streamed_run_state (messages : list value) :
  forallb text_is_str messages = true ->
  tokenize w (stated_prompt w messages) = Ok true ->
  snd (generate w) = Ok tt ->
  exists s',
    run w messages start = (Ok tt, s') /\
    responses s' = map Chunk (streamed_chunks (fst (generate w))) ++ [Complete].
Proof.
  intros Hm Htok Hgen. unfold run.
  rewrite (try_except_bind_first _ _ _ _ _ _ _ (is_set_never w never_stopped start)).
  cbn iota. rewrite has_model, has_tokenizer. cbn [andb negb].
  destruct (conversation_loop_stated w never_stopped messages "" (tick start) Hm)
    as (s1 & Hs1 & Ht1).
  rewrite (try_except_bind_first _ _ _ _ _ _ _ Hs1). cbn iota.
  change ("" +:+ ?x) with x.
  fold (stated_prompt w messages).
  assert (truthy_str (strip (stated_prompt w messages)) = true) as ->
    by (unfold stated_prompt; apply append_nonblank).
  cbn [negb].
  rewrite (try_except_bind_first _ _ _ _ _ _ _ (is_set_never w never_stopped s1)).
  cbn iota.
  assert (responses s1 = []) as Hr1.
  { unfold responses, puts_of. rewrite Ht1. reflexivity. }
  destruct (manual_generation_streams (stated_prompt w messages) (tick s1) Htok Hgen)
    as (s2 & Hman & Hr2).
  unfold try_except, bind. rewrite Hman. cbn [negb]. cbv beta iota.
  rewrite (is_set_never w never_stopped s2).
  cbn [negb]. unfold queue_put. cbn [fst snd]. eexists. split; [reflexivity |].
  rewrite responses_record_put, responses_tick, Hr2, responses_tick, Hr1.
  reflexivity.
Qed.

(** X3.  When nobody stops the run, the message texts are strings, and
    the streamed generation works, the queue receives exactly the
    finalized texts of the streamer, each with the four turn markers
    removed and the empty ones dropped, in order, followed by one
    [complete]. *)
Theorem streamed_run_puts_cleaned_chunks (messages : list value) :
  forallb text_is_str messages = true ->
  tokenize w (stated_prompt w messages) = Ok true ->
  snd (generate w) = Ok tt ->
  fst (run w messages start) = Ok tt /\
  responses (snd (run w messages start))
  = map Chunk (streamed_chunks (fst (generate w))) ++ [Complete].
Proof.
  intros Hm Htok Hgen.
  destruct (streamed_run_state messages Hm Htok Hgen) as (s' & Hrun & Hqueue).
  rewrite Hrun. split; [reflexivity | exact Hqueue].
Qed.

End Streamed.

Lemma streamed_run_puts_cleaned_chunks_witness :
  fst (ModelThread.run (Samples.streamed_run None) Samples.question ModelThread.start)
  = Py.Ok tt /\
  ModelThread.responses
    (snd (ModelThread.run (Samples.streamed_run None) Samples.question
            ModelThread.start))
  = [ModelThread.Chunk "Seven "; ModelThread.Chunk "is prime."; ModelThread.Complete].
Proof.
  apply (streamed_run_puts_cleaned_chunks (Samples.streamed_run None)
           eq_refl eq_refl eq_refl Samples.question);
    reflexivity.
Defined.

(** ** ModelManager: the edges of downloading, loading and deleting *)

Section ManagerEdges.

Import Py ModelManager.

Variable w : world.

(** X5.  Without network [download_model] neither touches the framework
    nor the configuration: when the connection test fails, whatever the
    exception, it raises "No internet connection available", leaves
    [config] as it was, and has done nothing but the connection test
    (and the progress reports, when a callback is given). *)
Theorem download_model_offline (self : t) (model_name : string) (cb : bool) (e : exn) :
  urlopen w "https://huggingface.co" = Raise e ->
  download_model w model_name cb self
  = (Raise (Exn Exception "No internet connection available"),
     {| config := config self;
        log := log self
               ++ [Enter_download_model model_name]
               ++ (if cb then [Progress "Checking internet connection..."] else [])
               ++ [Url_open "https://huggingface.co"]
               ++ (if cb
                   then [Progress "Download failed: No internet connection available"]
                   else []) |}).
Proof.
  intros Hnet.
  unfold download_model, is_online, try_except, bind, progress, emit, modify, lift,
    raise, ret.
  destruct cb; cbn; rewrite Hnet; cbn; rewrite <- ?app_assoc; reflexivity.
Qed.

Lemma save_config_state (self : t) :
  (forall e, write_json w (config_file w) (config self) = Raise e ->
             is_Exception e = true) ->
  exists l,
    save_config w self = (Ok tt, {| config := config self; log := log self ++ l |}) /\
    l = Open_write (config_file w)
        :: match write_json w (config_file w) (config self) with
           | Ok _ => []
           | Raise e => [Print ("Error saving config: " +:+ exn_str e)]
           end.
Proof.
  intros Hw. unfold save_config, get_config, try_except, bind, get, emit, modify, lift, ret.
  cbv beta iota zeta. cbn [fst snd config log].
  destruct (write_json w (config_file w) (config self)) as [[]|e] eqn:E.
  - eexists. split; reflexivity.
  - rewrite (Hw e eq_refl). cbv beta iota zeta. cbn [fst snd config log]. rewrite <- app_assoc.
    eexists. split; reflexivity.
Qed.

Lemma try_except_ok {S A} (c : exn -> bool) (m : M S A) (h : exn -> M S A) s a s' :
  m s = (Ok a, s') -> try_except c m h s = (Ok a, s').
Proof. intros H. unfold try_except. by rewrite H. Qed.

Lemma is_model_downloaded_state (model_name : string) (self : t) :
  is_model_downloaded w model_name self
  = (Ok (path_exists w (get_model_path w model_name)
         && path_isdir w (get_model_path w model_name)),
     {| config := config self;
        log := log self ++ [Stat (get_model_path w model_name)] |}).
Proof. reflexivity. Qed.

Lemma load_local_model_ok
  (self : t) (d : list (string * value)) (model_name handles : string) (cb : bool) :
  config self = VDict d ->
  path_exists w (get_model_path w model_name) = true ->
  path_isdir w (get_model_path w model_name) = true ->
  from_pretrained w (get_model_path w model_name) = Ok handles ->
  (forall c e, write_json w (config_file w) c = Raise e -> is_Exception e = true) ->
  load_local_model w model_name cb self
  = (Ok handles,
     {| config := VDict (dict_update d "last_used_model" (VStr model_name));
        log := log self
          ++ [Stat (get_model_path w model_name)]
          ++ (if cb then [Progress ("Loading local model " +:+ model_name +:+ "...")]
              else [])
          ++ [From_pretrained (get_model_path w model_name); Open_write (config_file w)]
          ++ match write_json w (config_file w)
                     (VDict (dict_update d "last_used_model" (VStr model_name))) with
             | Ok _ => []
             | Raise e => [Print ("Error saving config: " +:+ exn_str e)]
             end
          ++ (if cb then [Progress "Local model loaded successfully!"] else []) |}).
Proof.
  intros Hc Hex Hdir Hload Hw.
  destruct self as [c l]. cbn in Hc. subst c.
  unfold load_local_model.
  set (path := get_model_path w model_name) in *.
  unfold try_except.
  rewrite (bind_ok _ _ _ _ _ (is_model_downloaded_state _ _)).
  fold path. rewrite Hex, Hdir. cbn [andb negb]. cbv iota.
  unfold progress, get_config, set_config, bind, emit, modify, lift, get, ret.
  destruct cb; cbv beta iota zeta; cbn [fst snd config log]; rewrite Hload;
    cbv beta iota zeta; cbn [setitem fst snd config log];
    match goal with
    | |- context [save_config w ?s] =>
        destruct (save_config_state s (Hw _)) as (l' & E & ->); rewrite E
    end;
    cbv beta iota zeta; cbn [fst snd config log];
    rewrite <- ?app_assoc, ?app_nil_r; cbn [app]; reflexivity.
Qed.

(** X6.  [load_model] tries the local copy first: when the model
    directory exists and loads, the handles come from that directory,
    [last_used_model] is set to the model, the configuration is written,
    and neither the connection test nor the hub is reached. *)
Theorem load_model_prefers_local_copy
  (self : t) (d : list (string * value)) (model_name handles : string) (cb : bool) :
  config self = VDict d ->
  path_exists w (get_model_path w model_name) = true ->
  path_isdir w (get_model_path w model_name) = true ->
  from_pretrained w (get_model_path w model_name) = Ok handles ->
  (forall c e, write_json w (config_file w) c = Raise e -> is_Exception e = true) ->
  let after := load_model w model_name cb self in
  fst after = Ok handles /\
  config (snd after) = VDict (dict_update d "last_used_model" (VStr model_name)) /\
  log (snd after)
  = log self
    ++ [Stat (get_model_path w model_name); Stat (get_model_path w model_name)]
    ++ (if cb then [Progress ("Loading local model " +:+ model_name +:+ "...")] else [])
    ++ [From_pretrained (get_model_path w model_name); Open_write (config_file w)]
    ++ match write_json w (config_file w)
               (VDict (dict_update d "last_used_model" (VStr model_name))) with
       | Ok _ => []
       | Raise e => [Print ("Error saving config: " +:+ exn_str e)]
       end
    ++ (if cb then [Progress "Local model loaded successfully!"] else []).
Proof.
  intros Hc Hex Hdir Hload Hw after. subst after.
  unfold load_model.
  rewrite (bind_ok _ _ _ _ _ (is_model_downloaded_state _ _)).
  rewrite Hex, Hdir. cbn [andb]. cbv iota.
  set (s1 := {| config := config self; log := _ |}).
  assert (load_local_model w model_name cb s1 = _) as E
    by (apply (load_local_model_ok s1 d model_name handles cb); auto).
  rewrite (bind_ok _ _ _ _ _
             (try_except_ok _ _ _ _ _ _ (bind_ok _ _ _ _ _ E))).
  unfold ret. cbn [fst snd config log s1].
  repeat split. rewrite <- ?app_assoc. reflexivity.
Qed.

(** X7.  When removing the model directory fails, [delete_model]
    returns [False], prints the error, and leaves the configuration
    untouched and unwritten: the model stays listed. *)
Theorem delete_model_failure_keeps_config (self : t) (model_name : string) (e : exn) :
  path_exists w (get_model_path w model_name) = true ->
  rmtree w (get_model_path w model_name) = Raise e ->
  is_Exception e = true ->
  delete_model w model_name self
  = (Ok false,
     {| config := config self;
        log := log self
               ++ [Stat (get_model_path w model_name);
                   Rm_tree (get_model_path w model_name);
                   Print ("Error deleting model: " +:+ exn_str e)] |}).
Proof.
  intros Hex Hrm He. unfold delete_model.
  set (path := get_model_path w model_name) in *.
  unfold try_except, bind, emit, modify, lift, ret.
  cbv beta iota zeta. cbn [fst snd config log]. rewrite Hex.
  cbv beta iota zeta. cbn [fst snd config log]. rewrite Hrm, He.
  cbn [fst snd config log]. by rewrite <- !app_assoc.
Qed.

Lemma assoc_dict_update_eq (d : list (string * value)) (k : string) (x : value) :
  assoc k (dict_update d k x) = Some x.
Proof.
  induction d as [|[k' v] d IH]; cbn [dict_update assoc].
  - by rewrite String.eqb_refl.
  - destruct (String.eqb k k') eqn:E; cbn [assoc].
    + by rewrite String.eqb_refl.
    + by rewrite E.
Qed.

Lemma assoc_dict_update_ne (d : list (string * value)) (k k' : string) (x : value) :
  k <> k' -> assoc k' (dict_update d k x) = assoc k' d.
Proof.
  intros Hk. induction d as [|[k0 v] d IH]; cbn [dict_update assoc].
  - destruct (String.eqb k' k) eqn:E; [| done].
    apply String.eqb_eq in E. congruence.
  - destruct (String.eqb k k0) eqn:E; cbn [assoc].
    + apply String.eqb_eq in E. subst k0.
      destruct (String.eqb k' k) eqn:E'; [| done].
      apply String.eqb_eq in E'. congruence.
    + by rewrite IH.
Qed.

Lemma contains_str_app (l l' : list value) (x : string) :
  contains_str (l ++ l') x = contains_str l x || contains_str l' x.
Proof. unfold contains_str. apply existsb_app. Qed.

Lemma remove_str_app_last (l : list value) (x : string) :
  contains_str l x = false -> remove_str (l ++ [VStr x]) x = l.
Proof.
  induction l as [|v l IH]; cbn [contains_str existsb remove_str app].
  - intros _. cbn. by rewrite String.eqb_refl.
  - intros H. apply orb_false_iff in H as [Hv Hl]. rewrite Hv.
    fold (contains_str l x) in Hl. by rewrite IH.
Qed.

Lemma download_model_ok
  (self : t) (d : list (string * value)) (l : list value)
  (model_name handles : string) (cb : bool) :
  config self = VDict d ->
  assoc "downloaded_models" d = Some (VList l) ->
  urlopen w "https://huggingface.co" = Ok tt ->
  from_pretrained w model_name = Ok handles ->
  save_pretrained w (get_model_path w model_name) = Ok tt ->
  (forall c e, write_json w (config_file w) c = Raise e -> is_Exception e = true) ->
  fst (download_model w model_name cb self) = Ok handles /\
  config (snd (download_model w model_name cb self))
  = VDict (dict_update
             (if contains_str l model_name then d
              else dict_update d "downloaded_models" (VList (l ++ [VStr model_name])))
             "last_used_model" (VStr model_name)).
Proof.
  intros Hc Hdm Hnet Hload Hsave Hw.
  destruct self as [c lg]. cbn in Hc. subst c.
  unfold download_model.
  set (path := get_model_path w model_name) in *.
  unfold is_online, try_except, progress, get_config, set_config, bind, emit, modify,
    lift, get, ret.
  destruct cb; cbv beta iota zeta; cbn [fst snd config log]; rewrite Hnet;
    cbv beta iota zeta; cbn [negb fst snd config log]; rewrite Hload;
    cbv beta iota zeta; cbn [fst snd config log]; rewrite Hsave;
    cbv beta iota zeta; cbn [fst snd config log getitem]; rewrite Hdm;
    cbv beta iota zeta; cbn [fst snd config log as_items];
    destruct (contains_str l model_name);
    cbv beta iota zeta; cbn [negb fst snd config log setitem];
    match goal with
    | |- context [save_config w ?s] =>
        destruct (save_config_state s (Hw _)) as (l' & E & ->); rewrite E
    end;
    cbv beta iota zeta; cbn [fst snd config log]; split; reflexivity.
Qed.

Lemma delete_model_ok
  (self : t) (d : list (string * value)) (l : list value) (lu : value)
  (model_name : string) :
  config self = VDict d ->
  assoc "downloaded_models" d = Some (VList l) ->
  assoc "last_used_model" d = Some lu ->
  (path_exists w (get_model_path w model_name) = true ->
   rmtree w (get_model_path w model_name) = Ok tt) ->
  (forall c e, write_json w (config_file w) c = Raise e -> is_Exception e = true) ->
  fst (delete_model w model_name self) = Ok true /\
  config (snd (delete_model w model_name self))
  = VDict (let d1 := if contains_str l model_name
                     then dict_update d "downloaded_models"
                            (VList (remove_str l model_name))
                     else d in
           if eq_str lu model_name then dict_update d1 "last_used_model" VNone else d1).
Proof.
  intros Hc Hdm Hlu Hrm Hw.
  destruct self as [c lg]. cbn in Hc. subst c.
  unfold delete_model.
  set (path := get_model_path w model_name) in *.
  unfold try_except, get_config, set_config, bind, emit, modify, lift, get, ret.
  cbv beta iota zeta; cbn [fst snd config log].
  destruct (path_exists w path) eqn:Hex; [rewrite Hrm by done |];
  cbv beta iota zeta; cbn [fst snd config log getitem]; rewrite Hdm;
  cbv beta iota zeta; cbn [fst snd config log as_items];
  destruct (contains_str l model_name);
    cbv beta iota zeta; cbn [fst snd config log setitem getitem];
    rewrite ?assoc_dict_update_ne by done; rewrite Hlu;
    cbv beta iota zeta; cbn [fst snd config log];
    destruct (eq_str lu model_name);
    cbv beta iota zeta; cbn [fst snd config log setitem];
    match goal with
    | |- context [save_config w ?s] =>
        destruct (save_config_state s (Hw _)) as (l' & E & ->); rewrite E
    end;
    cbv beta iota zeta; cbn [fst snd config log]; split; reflexivity.
Qed.

(** X8.  Downloading a model that was not listed and deleting it again
    leaves [downloaded_models] as it was before and every other key
    unchanged, except that [last_used_model] ends as [None], whatever it
    was before. *)
Theorem download_then_delete_restores_list
  (self : t) (d : list (string * value)) (l : list value)
  (model_name handles : string) (cb : bool) :
  config self = VDict d ->
  assoc "downloaded_models" d = Some (VList l) ->
  contains_str l model_name = false ->
  urlopen w "https://huggingface.co" = Ok tt ->
  from_pretrained w model_name = Ok handles ->
  save_pretrained w (get_model_path w model_name) = Ok tt ->
  (path_exists w (get_model_path w model_name) = true ->
   rmtree w (get_model_path w model_name) = Ok tt) ->
  (forall c e, write_json w (config_file w) c = Raise e -> is_Exception e = true) ->
  let downloaded := snd (download_model w model_name cb self) in
  let deleted := delete_model w model_name downloaded in
  fst deleted = Ok true /\
  exists d',
    config (snd deleted) = VDict d' /\
    assoc "downloaded_models" d' = Some (VList l) /\
    assoc "last_used_model" d' = Some VNone /\
    forall k, k <> "downloaded_models" -> k <> "last_used_model" ->
              assoc k d' = assoc k d.
Proof.
  intros Hc Hdm Hnew Hnet Hload Hsave Hrm Hw downloaded deleted.
  destruct (download_model_ok self d l model_name handles cb Hc Hdm Hnet Hload Hsave Hw)
    as [_ Hc1]. fold downloaded in Hc1. rewrite Hnew in Hc1.
  destruct (delete_model_ok downloaded _ (l ++ [VStr model_name]) (VStr model_name)
              model_name Hc1) as [Hr Hc2]; auto.
  { rewrite assoc_dict_update_ne by done. apply assoc_dict_update_eq. }
  { apply assoc_dict_update_eq. }
  fold deleted in Hr, Hc2. split; [exact Hr |].
  eexists. split; [exact Hc2 |].
  rewrite contains_str_app, Hnew. cbn [contains_str existsb eq_str orb].
  rewrite String.eqb_refl. cbn [orb]. cbv zeta.
  rewrite remove_str_app_last by done.
  split; [| split].
  - rewrite assoc_dict_update_ne by done. apply assoc_dict_update_eq.
  - apply assoc_dict_update_eq.
  - intros k H1 H2. rewrite !assoc_dict_update_ne by done. reflexivity.
Qed.

Lemma sum_sizes_state (files : list string) (acc : Z) (self : t) :
  config (snd (sum_sizes w files acc self)) = config self /\
  ((exists sizes,
      Forall2 (fun f k => getsize w f = Ok k) files sizes /\
      fst (sum_sizes w files acc self) = Ok (acc + foldr Z.add 0 sizes))
   \/ (exists f e, In f files /\ getsize w f = Raise e /\
                   exists e', fst (sum_sizes w files acc self) = Raise e')).
Proof.
  revert acc self. induction files as [|f files IH]; intros acc self.
  - split; [reflexivity |]. left. exists []. split; [constructor |].
    cbn. f_equal. lia.
  - cbn [sum_sizes]. unfold bind, emit, modify, lift.
    cbv beta iota zeta. cbn [fst snd].
    destruct (getsize w f) as [k|e] eqn:E; cbv beta iota zeta; cbn [fst snd config log].
    + destruct (IH (acc + k) {| config := config self; log := log self ++ [Stat f] |})
        as [Hc [(sizes & Hs & Hr)|(f' & e & Hin & He & e' & Hr)]].
      * split; [exact Hc |]. left. exists (k :: sizes).
        split; [by constructor |]. rewrite Hr. cbn. f_equal. lia.
      * split; [exact Hc |]. right. exists f', e.
        split; [by right |]. split; [exact He |]. by exists e'.
    + split; [reflexivity |]. right. exists f, e.
      split; [by left |]. split; [exact E |]. by exists e.
Qed.

(** X9.  [get_model_size] always returns a number and never changes the
    configuration: 0 when the model directory does not exist, 0 when the
    size of any file cannot be read (the partial sum is dropped), and
    the sum of the file sizes otherwise. *)
Theorem get_model_size_always_returns (self : t) (model_name : string) :
  let path := get_model_path w model_name in
  exists n,
    fst (get_model_size w model_name self) = Ok n /\
    config (snd (get_model_size w model_name self)) = config self /\
    (path_exists w path = false -> n = 0) /\
    (forall f e, In f (walk_files w path) -> getsize w f = Raise e -> n = 0) /\
    (forall sizes,
        path_exists w path = true ->
        Forall2 (fun f k => getsize w f = Ok k) (walk_files w path) sizes ->
        n = foldr Z.add 0 sizes).
Proof.
  intros path. unfold get_model_size. fold path.
  unfold try_except, bind, emit, modify, catch_all, ret.
  cbv beta iota zeta. cbn [fst snd config log].
  destruct (path_exists w path) eqn:Hex; cbn [negb]; cbv iota.
  2:{ exists 0. split; [done |]. split; [done |]. split; [done |].
      split; [intros; reflexivity | intros; discriminate]. }
  set (s1 := {| config := config self; log := log self ++ [Stat path] |}).
  assert (forall files sizes f e,
             Forall2 (fun f k => getsize w f = Ok k) files sizes ->
             In f files -> getsize w f = Raise e -> False) as Hno.
  { intros files sizes f e Hs Hin He.
    induction Hs as [|f0 k fs ks H0 Hs IH]; [done |].
    destruct Hin as [->|Hin]; [congruence | auto]. }
  assert (forall files sizes sizes',
             Forall2 (fun f k => getsize w f = Ok k) files sizes ->
             Forall2 (fun f k => getsize w f = Ok k) files sizes' ->
             sizes = sizes') as Hsame.
  { intros files sizes sizes' Hs. revert sizes'.
    induction Hs as [|f0 k fs ks H0 Hs IH]; intros sizes' Hs';
      inversion Hs'; subst; [done |].
    f_equal; [congruence | auto]. }
  destruct (sum_sizes_state (walk_files w path) 0 s1)
    as [Hc [(sizes & Hs & Hr)|(f & e & Hin & He & e' & Hr)]];
    destruct (sum_sizes w (walk_files w path) 0 s1) as [r s2];
    cbn [fst snd] in *; subst r.
  - exists (0 + foldr Z.add 0 sizes).
    split; [done |]. split; [exact Hc |]. split; [done |]. split.
    + intros f e Hin He. destruct (Hno _ _ _ _ Hs Hin He).
    + intros sizes' _ Hs'. by rewrite (Hsame _ _ _ Hs Hs').
  - exists 0.
    split; [done |]. split; [exact Hc |]. split; [done |]. split.
    + reflexivity.
    + intros sizes _ Hs. destruct (Hno _ _ _ _ Hs Hin He).
Qed.

Lemma replace_char_absent (c d : ascii) (s : string) :
  contains_char c s = false ->
  replace (String c EmptyString) (String d EmptyString) s = s.
Proof.
  unfold replace. induction s as [|x r IH]; [done |].
  cbn [contains_char replace_from]. intros H.
  apply orb_false_iff in H as [Hx Hr]. rewrite prefix_char, Hx. by rewrite IH.
Qed.

(** X10.  Sanitising is idempotent, so a model name and its sanitised
    form name the same directory: [get_model_path] and
    [is_model_downloaded] cannot tell [org/model] from [org_model]. *)
Theorem sanitised_name_shares_the_directory (model_name : string) :
  safe_name (safe_name model_name) = safe_name model_name /\
  get_model_path w (safe_name model_name) = get_model_path w model_name /\
  forall self,
    is_model_downloaded w (safe_name model_name) self
    = is_model_downloaded w model_name self.
Proof.
  assert (safe_name (safe_name model_name) = safe_name model_name) as H.
  { destruct (safe_name_no_separator model_name) as [H1 H2].
    unfold safe_name at 1.
    rewrite (replace_char_absent "/" "_" _ H1).
    apply (replace_char_absent "\" "_" _ H2). }
  split; [exact H |].
  assert (get_model_path w (safe_name model_name) = get_model_path w model_name) as Hp
    by (unfold get_model_path; by rewrite H).
  split; [exact Hp |].
  intros self. unfold is_model_downloaded. by rewrite Hp.
Qed.

End ManagerEdges.

Lemma download_model_offline_witness :
  ModelManager.download_model Samples.local_copies "unsloth/gemma-3n-E4B-it" false
    (Samples.offline_manager Py.VNone)
  = (Py.Raise (Py.Exn Py.Exception "No internet connection available"),
     {| ModelManager.config := Samples.offline_config Py.VNone;
        ModelManager.log :=
          [ModelManager.Enter_download_model "unsloth/gemma-3n-E4B-it";
           ModelManager.Url_open "https://huggingface.co"] |}).
Proof.
  exact (download_model_offline Samples.local_copies (Samples.offline_manager Py.VNone)
           "unsloth/gemma-3n-E4B-it" false (Py.Exn Py.OSError "Network is unreachable")
           eq_refl).
Defined.

Lemma load_model_prefers_local_copy_witness :
  fst (ModelManager.load_model Samples.local_copies "unsloth/gemma-3n-E4B-it" false
         (Samples.offline_manager Py.VNone))
  = Py.Ok "/home/u/.educational_ai_tutor/models/unsloth_gemma-3n-E4B-it".
Proof.
  destruct (load_model_prefers_local_copy Samples.local_copies
              (Samples.offline_manager Py.VNone) _ "unsloth/gemma-3n-E4B-it"
              "/home/u/.educational_ai_tutor/models/unsloth_gemma-3n-E4B-it" false
              eq_refl eq_refl eq_refl eq_refl) as [H _].
  - intros c e H. discriminate H.
  - exact H.
Defined.

Lemma delete_model_failure_keeps_config_witness :
  let self := Samples.offline_manager Py.VNone in
  let after :=
    ModelManager.delete_model Samples.local_copies "unsloth/gemma-3n-E4B-it" self in
  fst after = Py.Ok false /\
  ModelManager.config (snd after) = ModelManager.config self.
Proof.
  intros self after. subst after.
  pose proof (delete_model_failure_keeps_config Samples.local_copies self
                "unsloth/gemma-3n-E4B-it" (Py.Exn Py.OSError "Permission denied")
                eq_refl eq_refl eq_refl) as H.
  rewrite H. split; reflexivity.
Defined.

Lemma download_then_delete_restores_list_witness :
  let self := Samples.offline_manager (Py.VStr "unsloth/gemma-3n-E4B-it") in
  let downloaded :=
    snd (ModelManager.download_model Samples.damaged_cache "unsloth/gemma-3n-E2B-it"
           true self) in
  fst (ModelManager.delete_model Samples.damaged_cache "unsloth/gemma-3n-E2B-it"
         downloaded) = Py.Ok true.
Proof.
  intros self downloaded.
  destruct (download_then_delete_restores_list Samples.damaged_cache self _ _
              "unsloth/gemma-3n-E2B-it" "unsloth/gemma-3n-E2B-it" true
              eq_refl eq_refl eq_refl eq_refl eq_refl eq_refl (fun _ => eq_refl))
    as [H _].
  - intros c e H. vm_compute in H. injection H as <-. reflexivity.
  - exact H.
Defined.

(** ** Token usage: colours and notices *)

Section UsageColours.

Import Py TokenManager.

Lemma float_lt_iff (a b : Q) : float_lt a b = true <-> (a < b)%Q.
Proof.
  unfold float_lt. rewrite negb_true_iff, <- not_true_iff_false, Qle_bool_iff.
  split; [apply Qnot_le_lt | apply Qlt_not_le].
Qed.

Lemma float_lt_false_iff (a b : Q) : float_lt a b = false <-> (b <= a)%Q.
Proof.
  unfold float_lt. rewrite negb_false_iff. apply Qle_bool_iff.
Qed.

Lemma usage_percent_lt (n m c : Q) :
  (0 < m)%Q -> ((n / m * 100 < c)%Q <-> (100 * n < c * m)%Q).
Proof.
  intros Hm.
  assert (n == (n / m) * m)%Q as Hn by (field; lra).
  split; intros H.
  - rewrite Hn at 1. nra.
  - rewrite Hn in H. nra.
Qed.

Lemma usage_percent_ge (n m c : Q) :
  (0 < m)%Q -> ((c <= n / m * 100)%Q <-> (c * m <= 100 * n)%Q).
Proof.
  intros Hm. pose proof (usage_percent_lt n m c Hm) as H.
  split; intros H1.
  - apply Qnot_lt_le. intros H2. apply H in H2. lra.
  - apply Qnot_lt_le. intros H2. apply H in H2. lra.
Qed.

Lemma usage_test_true (n m c : Q) :
  (0 < m)%Q -> float_lt (n / m * 100) c = true -> (100 * n < c * m)%Q.
Proof. intros Hm H. by apply usage_percent_lt, float_lt_iff. Qed.

Lemma usage_test_false (n m c : Q) :
  (0 < m)%Q -> float_lt (n / m * 100) c = false -> (c * m <= 100 * n)%Q.
Proof. intros Hm H. by apply usage_percent_ge, float_lt_false_iff. Qed.

Variable self : t.
Hypothesis positive_limit : 0 < max_context_tokens self.

Local Abbreviation limit := (inject_Z (max_context_tokens self)).

Lemma limit_positive : (0 < limit)%Q.
Proof. change 0%Q with (inject_Z 0). by rewrite <- Zlt_Qlt. Qed.

(** X11.  [get_color_for_usage] splits the usage at 50, 75 and 90 per
    cent of the context limit: green strictly below half of it, yellow
    from there to strictly below three quarters, orange from there to
    strictly below nine tenths, red from nine tenths on. *)
Theorem usage_colour_bands (token_count : Q) :
  let colour := get_color_for_usage self token_count in
  (colour = "#28a745" <-> (token_count < limit * (1 # 2))%Q) /\
  (colour = "#ffc107"
   <-> (limit * (1 # 2) <= token_count)%Q /\ (token_count < limit * (3 # 4))%Q) /\
  (colour = "#fd7e14"
   <-> (limit * (3 # 4) <= token_count)%Q /\ (token_count < limit * (9 # 10))%Q) /\
  (colour = "#dc3545" <-> (limit * (9 # 10) <= token_count)%Q).
Proof.
  intros colour. subst colour. unfold get_color_for_usage.
  pose proof limit_positive as Hl.
  destruct (float_lt _ 50) eqn:E1;
    [apply (usage_test_true _ _ _ Hl) in E1
    | apply (usage_test_false _ _ _ Hl) in E1;
      destruct (float_lt _ 75) eqn:E2;
      [apply (usage_test_true _ _ _ Hl) in E2
      | apply (usage_test_false _ _ _ Hl) in E2;
        destruct (float_lt _ 90) eqn:E3;
        [apply (usage_test_true _ _ _ Hl) in E3
        | apply (usage_test_false _ _ _ Hl) in E3]]];
    repeat split; intros; try discriminate; try reflexivity;
      repeat match goal with H : _ /\ _ |- _ => destruct H end; try lra.
Qed.

End UsageColours.

Section TokenNotice.

Import Py ChatbotApp.

Variable audio_duration : string -> result float.
Variable self : t.
Hypothesis positive_limit : 0 < TokenManager.max_context_tokens (token_manager self).

Local Abbreviation limit :=
  (inject_Z (TokenManager.max_context_tokens (token_manager self))).
Local Abbreviation total := (calculate_total_input_tokens audio_duration self).

(** X12.  The extra line of [update_token_display] never contradicts
    its colour: the warning appears only on red, the notice only on
    orange or, at exactly 90 per cent, on red; with no extra line the
    colour is green, yellow or, at exactly 75 per cent, orange. *)
Theorem token_notice_agrees_with_colour :
  let colour := token_display_color audio_duration self in
  match token_display_notice audio_duration self with
  | Some Approaching_limit => colour = "#dc3545"
  | Some High_usage =>
      colour = "#fd7e14" \/ (colour = "#dc3545" /\ (total == limit * (9 # 10))%Q)
  | None =>
      colour = "#28a745" \/ colour = "#ffc107"
      \/ (colour = "#fd7e14" /\ (total == limit * (3 # 4))%Q)
  end.
Proof.
  intros colour. subst colour. unfold token_display_color, token_display_notice.
  cbv zeta.
  pose proof (limit_positive _ positive_limit) as Hl.
  unfold TokenManager.get_color_for_usage.
  destruct (float_lt (limit * (9 # 10)) total) eqn:N1;
    [apply float_lt_iff in N1
    | apply float_lt_false_iff in N1;
      destruct (float_lt (limit * (75 # 100)) total) eqn:N2;
      [apply float_lt_iff in N2 | apply float_lt_false_iff in N2]];
    (destruct (float_lt _ 50) eqn:E1;
     [apply (usage_test_true _ _ _ Hl) in E1
     | apply (usage_test_false _ _ _ Hl) in E1;
       destruct (float_lt _ 75) eqn:E2;
       [apply (usage_test_true _ _ _ Hl) in E2
       | apply (usage_test_false _ _ _ Hl) in E2;
         destruct (float_lt _ 90) eqn:E3;
         [apply (usage_test_true _ _ _ Hl) in E3
         | apply (usage_test_false _ _ _ Hl) in E3]]]);
    try lra; auto.
  - right. split; [reflexivity | lra].
  - right. right. split; [reflexivity | lra].
Qed.

End TokenNotice.

Lemma usage_colour_bands_witness :
  TokenManager.get_color_for_usage (TokenManager.init None) 16000 = "#ffc107".
Proof.
  destruct (usage_colour_bands (TokenManager.init None) eq_refl 16000) as (_ & H & _).
  apply H. split; vm_compute; [discriminate | reflexivity].
Defined.

Lemma token_notice_agrees_with_colour_witness :
  let self := Samples.app "And 7?" "10" [] in
  ChatbotApp.token_display_notice Samples.ten_seconds self = None /\
  (ChatbotApp.token_display_color Samples.ten_seconds self = "#28a745"
   \/ ChatbotApp.token_display_color Samples.ten_seconds self = "#ffc107"
   \/ (ChatbotApp.token_display_color Samples.ten_seconds self = "#fd7e14"
       /\ (ChatbotApp.calculate_total_input_tokens Samples.ten_seconds self
           == inject_Z 32000 * (3 # 4))%Q)).
Proof.
  intros self.
  pose proof (token_notice_agrees_with_colour Samples.ten_seconds self eq_refl) as H.
  assert (ChatbotApp.token_display_notice Samples.ten_seconds self = None) as E
    by (vm_compute; reflexivity).
  rewrite E in H. split; [exact E | exact H].
Defined.

(** ** The tokens of the queued attachments *)

Section AttachmentTokens.

Import Py ChatbotApp.

Variable audio_duration : string -> result float.

Local Abbreviation audio_from := (audio_tokens_from audio_duration).
Local Abbreviation on_label := (label_tokens audio_duration).

Lemma audio_tokens_from_acc (self : t) (l : list attachment) (acc : Z) :
  audio_from self l acc = acc + audio_from self l 0.
Proof.
  revert acc. induction l as [|[p|p] l IH]; intros acc; cbn [audio_tokens_from].
  - lia.
  - apply IH.
  - rewrite IH, (IH (0 + _)). lia.
Qed.

Lemma audio_tokens_from_app (self : t) (l l' : list attachment) (acc : Z) :
  audio_from self (l ++ l') acc = audio_from self l' (audio_from self l acc).
Proof.
  revert acc. induction l as [|[p|p] l IH]; intros acc; cbn [audio_tokens_from app].
  - reflexivity.
  - apply IH.
  - apply IH.
Qed.

Lemma audio_file_tokens_manager (self self' : t) (p : string) :
  token_manager self = token_manager self' ->
  audio_file_tokens audio_duration self p = audio_file_tokens audio_duration self' p.
Proof. intros E. unfold audio_file_tokens. by rewrite E. Qed.

Lemma audio_tokens_from_manager (self self' : t) (l : list attachment) (acc : Z) :
  token_manager self = token_manager self' ->
  audio_from self l acc = audio_from self' l acc.
Proof.
  intros E. revert acc.
  induction l as [|[p|p] l IH]; intros acc; cbn [audio_tokens_from]; auto.
  rewrite (audio_file_tokens_manager self self' p E). apply IH.
Qed.

Lemma audio_tokens_from_images (self : t) (paths : list string) (acc : Z) :
  audio_from self (map Image paths) acc = acc.
Proof. induction paths; cbn; auto. Qed.

(** The label and the total count one audio file by the same
    expression, [int(duration * audio_tokens_per_second)], and both add
    100 when it raises. *)
Lemma audio_label_tokens_file (self : t) (p : string) :
  audio_label_tokens audio_duration self p = audio_file_tokens audio_duration self p.
Proof. reflexivity. Qed.

Lemma image_count_cons_image (p : string) (l : list attachment) :
  image_count (Image p :: l) = image_count l + 1.
Proof. unfold image_count. rewrite filter_cons_True by done. cbn [length]. lia. Qed.

Lemma image_count_cons_audio (p : string) (l : list attachment) :
  image_count (Audio p :: l) = image_count l.
Proof. unfold image_count. by rewrite filter_cons_False by done. Qed.

Lemma image_count_app (l l' : list attachment) :
  image_count (l ++ l') = image_count l + image_count l'.
Proof. unfold image_count. rewrite filter_app, length_app. lia. Qed.

Lemma image_count_images (paths : list string) :
  image_count (map Image paths) = Z.of_nat (length paths).
Proof.
  induction paths as [|p paths IH]; [reflexivity |].
  cbn [map]. rewrite image_count_cons_image, IH. cbn [length]. lia.
Qed.

Lemma label_tokens_shares (self : t) (l : list attachment) (acc : Z) :
  on_label self l acc = acc + 256 * image_count l + audio_from self l 0.
Proof.
  revert acc. induction l as [|[p|p] l IH]; intros acc;
    cbn [label_tokens audio_tokens_from].
  - unfold image_count. cbn. lia.
  - rewrite IH, image_count_cons_image. lia.
  - rewrite image_count_cons_audio, IH, (audio_tokens_from_acc _ _ (0 + _)),
      audio_label_tokens_file. lia.
Qed.

(** X13.  The number of tokens on the attachment label is the sum of the
    two integers that [calculate_total_input_tokens] adds for the queued
    attachments: its [image_tokens] (with 256 tokens per image, as the
    token manager is set up) and its [audio_tokens]. *)
Theorem attachment_label_counts_the_share (self : t) :
  TokenManager.image_tokens (token_manager self) = 256 ->
  on_label self (attachments self) 0
  = TokenManager.count_image_tokens (token_manager self) (image_count (attachments self))
    + audio_from self (attachments self) 0.
Proof.
  intros Himg. rewrite label_tokens_shares.
  unfold TokenManager.count_image_tokens. rewrite Himg. lia.
Qed.

(** X14.  [select_image] appends one image for each selected file; the
    number on the attachment label and the [image_tokens] of
    [calculate_total_input_tokens] both rise by 256 for each file, as
    its message in the chat says, and the [audio_tokens] stay as they
    were. *)
Theorem select_image_adds_256_each (self : t) (file_paths : list string) :
  TokenManager.image_tokens (token_manager self) = 256 ->
  attachments (select_image self file_paths)
  = attachments self ++ map Image file_paths /\
  on_label (select_image self file_paths) (attachments (select_image self file_paths)) 0
  = on_label self (attachments self) 0 + 256 * Z.of_nat (length file_paths) /\
  TokenManager.count_image_tokens (token_manager (select_image self file_paths))
    (image_count (attachments (select_image self file_paths)))
  = TokenManager.count_image_tokens (token_manager self) (image_count (attachments self))
    + 256 * Z.of_nat (length file_paths) /\
  audio_from (select_image self file_paths) (attachments (select_image self file_paths)) 0
  = audio_from self (attachments self) 0.
Proof.
  intros Himg. unfold select_image.
  cbn [attachments set_attachments token_manager].
  split; [reflexivity |].
  rewrite !label_tokens_shares.
  rewrite image_count_app, image_count_images, audio_tokens_from_app,
    audio_tokens_from_images.
  rewrite (audio_tokens_from_manager _ self) by reflexivity.
  unfold TokenManager.count_image_tokens. rewrite Himg.
  repeat split; lia.
Qed.

End AttachmentTokens.

Lemma attachment_label_counts_the_share_witness :
  let self := Samples.app "And 7?" "10"
                [ChatbotApp.Image "/tmp/shot.png"; ChatbotApp.Audio "/tmp/note.wav"] in
  ChatbotApp.label_tokens Samples.ten_seconds self (ChatbotApp.attachments self) 0
  = 256 + 62.
Proof.
  intros self.
  rewrite (attachment_label_counts_the_share Samples.ten_seconds self eq_refl).
  vm_compute. reflexivity.
Defined.

Lemma select_image_adds_256_each_witness :
  let self := Samples.app "And 7?" "10" [ChatbotApp.Audio "/tmp/note.wav"] in
  let paths := ["/tmp/a.png"; "/tmp/b.png"] in
  ChatbotApp.label_tokens Samples.ten_seconds (ChatbotApp.select_image self paths)
    (ChatbotApp.attachments (ChatbotApp.select_image self paths)) 0
  = 62 + 512.
Proof.
  intros self paths.
  destruct (select_image_adds_256_each Samples.ten_seconds self paths eq_refl)
    as (_ & H & _).
  rewrite H. vm_compute. reflexivity.
Defined.

(** ** DocumentViewer: the selection and the extracted text *)

Section ViewerSelection.

Import DocumentViewer.

(** X15.  Toggling the selection of the current page twice gives back
    the viewer as it was. *)
Theorem toggle_twice_restores_selection (self : t) :
  toggle_page_selection (toggle_page_selection self) = self.
Proof.
  destruct self as [pdf n cur sel z from to].
  unfold toggle_page_selection. cbn [is_pdf current_page selected_pages].
  destruct pdf; cbn [negb]; [| reflexivity].
  destruct (decide (cur + 1 ∈ sel)) as [Hin|Hout];
    unfold set_selected_pages; cbn [is_pdf current_page selected_pages negb].
  - destruct (decide (cur + 1 ∈ sel ∖ {[cur + 1]})) as [H|_].
    { apply elem_of_difference in H as [_ H]. destruct H. by apply elem_of_singleton. }
    cbn. f_equal. symmetry. by apply union_difference_singleton_L.
  - destruct (decide (cur + 1 ∈ {[cur + 1]} ∪ sel)) as [_|H].
    2:{ destruct H. by apply elem_of_union_l, elem_of_singleton. }
    cbn. f_equal.
    rewrite difference_union_distr_l_L, difference_diag_L, union_empty_l_L.
    apply difference_disjoint_L. by apply disjoint_singleton_r.
Qed.

(** X16.  [select_range] adds to the selection exactly the pages from
    [start] to [stop], where [start] is the first entry clamped into
    [1 .. total_pages] and [stop] the second entry clamped into
    [start .. total_pages]: the interval lies within the document and is
    never empty, and a reversed range selects the single page [start]. *)
Theorem select_range_adds_clamped_interval (self : t) (a b : Z) :
  is_pdf self = true ->
  1 <= total_pages self ->
  Py.int_of_str (page_from self) = Some a ->
  Py.int_of_str (page_to self) = Some b ->
  let start := Z.max 1 (Z.min a (total_pages self)) in
  let stop := Z.max start (Z.min b (total_pages self)) in
  1 <= start <= stop /\ stop <= total_pages self /\
  (b <= a -> stop = start) /\
  forall p, p ∈ selected_pages (select_range self)
            <-> p ∈ selected_pages self \/ start <= p <= stop.
Proof.
  intros Hpdf Hn Ha Hb start stop.
  split; [lia |]. split; [lia |]. split; [lia |].
  intros p. unfold select_range. rewrite Hpdf, Ha, Hb. cbn [negb].
  cbv zeta. cbn [selected_pages set_selected_pages].
  rewrite elem_of_add_range. fold start. fold stop. split; (intros [H|H]; [by left | right; lia]).
Qed.

End ViewerSelection.

Section ExtractText.

Import Py DocumentViewer.

Lemma Sorted_seqZ (m n : Z) : Sorted Z.le (seqZ m n).
Proof.
  destruct (decide (n <= 0)) as [Hn|Hn]; [rewrite seqZ_nil by done; constructor |].
  rewrite <- (Z2Nat.id n) by lia. generalize (Z.to_nat n). clear n Hn. intros n.
  revert m. induction n as [|n IH]; intros m; [constructor |].
  rewrite seqZ_cons by lia.
  replace (Z.pred (Z.of_nat (S n))) with (Z.of_nat n) by lia.
  constructor; [apply IH |].
  destruct n as [|n]; [constructor |].
  rewrite seqZ_cons by lia. constructor. lia.
Qed.

Lemma sorted_pages_all (n : Z) :
  sorted_pages (list_to_set (seqZ 1 n)) = seqZ 1 n.
Proof.
  unfold sorted_pages. apply (Sorted_unique Z.le).
  - apply (Sorted_merge_sort Z.le).
  - apply Sorted_seqZ.
  - rewrite merge_sort_Permutation. apply elements_list_to_set, NoDup_seqZ.
Qed.

Lemma elem_of_sorted_pages (sel : gset Z) (p : Z) :
  p ∈ sorted_pages sel <-> p ∈ sel.
Proof. unfold sorted_pages. by rewrite merge_sort_Permutation, elem_of_elements. Qed.

Lemma selected_text_shift (doc : document) (indices : list Z) (acc : string) :
  selected_text doc (Z.add 1 <$> indices) acc = all_text doc indices acc.
Proof.
  revert acc. induction indices as [|i l IH]; intros acc; [reflexivity |].
  cbn [fmap list_fmap selected_text all_text].
  replace (1 + i - 1) with i by lia. replace (1 + i) with (i + 1) by lia.
  destruct (get_text doc i); [apply IH | reflexivity].
Qed.

(** X17.  With every page selected [extract_text] gives the same
    result as with no page selected, whether or not the pages can be
    read. *)
Theorem selecting_every_page_equals_selecting_none (doc : document) (self : t) :
  page_count doc = total_pages self ->
  selected_pages self = list_to_set (seqZ 1 (total_pages self)) ->
  extract_text doc self = extract_text doc (clear_selection self).
Proof.
  intros Hn Hsel. unfold extract_text, clear_selection.
  destruct (is_pdf self) eqn:Hpdf; cbn [negb]; [| by rewrite Hpdf].
  cbn [is_pdf selected_pages set_selected_pages]. rewrite Hpdf.
  rewrite (bool_decide_eq_true_2 (∅ = ∅)) by done.
  destruct (bool_decide (selected_pages self = ∅)) eqn:E; [reflexivity |].
  rewrite Hsel, sorted_pages_all, Hn.
  rewrite <- (fmap_add_seqZ 1 0). change (1 + 0) with 1.
  by rewrite selected_text_shift.
Qed.

Lemma selected_text_readable (doc : document) (text : Z -> string)
  (pages : list Z) (acc : string) :
  (forall p, p ∈ pages -> get_text doc (p - 1) = Ok (text (p - 1))) ->
  selected_text doc pages acc
  = Ok (foldl (fun acc p => acc +:+ page_header p +:+ text (p - 1)) acc pages).
Proof.
  revert acc. induction pages as [|p pages IH]; intros acc H; [reflexivity |].
  cbn [selected_text foldl]. rewrite (H p) by left.
  apply IH. intros q Hq. apply H. by right.
Qed.

(** X18.  Whatever the user did in the viewer of a readable PDF,
    [extract_text] returns the texts of the selected pages (of all pages
    when none is selected) in increasing page order, each under its
    header, and never the error text: the page numbers it asks for
    always exist. *)
Theorem readable_pdf_extracts_without_error
  (doc : document) (text : Z -> string) (cs : list command) :
  1 <= page_count doc ->
  (forall i, 0 <= i < page_count doc -> get_text doc i = Ok (text i)) ->
  let self := run cs (open_pdf doc) in
  let pages := if bool_decide (selected_pages self = ∅)
               then seqZ 1 (page_count doc)
               else sorted_pages (selected_pages self) in
  extract_text doc self
  = Ok (foldl (fun acc p => acc +:+ page_header p +:+ text (p - 1)) "" pages).
Proof.
  intros Hn Hread self pages.
  assert (invariant (open_pdf doc)) as Hinit.
  { unfold open_pdf, init. split; cbn; [lia | split; lra | set_solver]. }
  destruct (run_invariant cs (open_pdf doc) Hn Hinit) as [[_ _ Hsel] Htot].
  fold self in Hsel, Htot. change (total_pages (open_pdf doc)) with (page_count doc) in Htot.
  assert (is_pdf self = true) as Hpdf.
  { subst self. clear. generalize (open_pdf doc), (eq_refl : is_pdf (open_pdf doc) = true).
    induction cs as [|c cs IH]; intros s Hs; [exact Hs |].
    cbn [run foldl]. apply IH.
    destruct c; cbn [step];
      unfold prev_page, next_page, zoom_in, zoom_out, toggle_page_selection,
        select_range, clear_selection;
      repeat match goal with
             | |- context [if ?b then _ else _] => destruct b
             | |- context [match ?x with Some _ => _ | None => _ end] => destruct x
             end; cbn; auto. }
  unfold extract_text. rewrite Hpdf. subst pages.
  destruct (bool_decide (selected_pages self = ∅)).
  - rewrite <- (fmap_add_seqZ 1 0). change (1 + 0) with 1.
    rewrite <- selected_text_shift, (selected_text_readable doc text); [reflexivity |].
    intros p Hp. apply Hread. rewrite fmap_add_seqZ in Hp.
    apply elem_of_seqZ in Hp. lia.
  - rewrite (selected_text_readable doc text); [reflexivity |].
    intros p Hp. apply Hread. apply elem_of_sorted_pages, Hsel in Hp. lia.
Qed.

(** X19.  While pages are selected, [use_all_text] hands over the text
    of the selected pages only, the same text as [use_selected],
    together with the numbers of all pages. *)
Theorem use_all_text_keeps_the_selection (doc : document) (self : t) :
  is_pdf self = true ->
  selected_pages self <> ∅ ->
  match use_selected doc self, use_all_text doc self with
  | Ok (Some (selected, pages)), Ok (all, all_pages) =>
      all = selected /\
      pages = sorted_pages (selected_pages self) /\
      all_pages = seqZ 1 (total_pages self)
  | Raise e, Raise e' => e = e'
  | _, _ => False
  end.
Proof.
  intros Hpdf Hsel. unfold use_selected, use_all_text. rewrite Hpdf. cbn [negb orb].
  rewrite bool_decide_eq_false_2 by done.
  destruct (extract_text doc self); auto.
Qed.

Lemma selected_text_fails_at (doc : document) (before after : list Z) (p : Z)
  (e : exn) (acc : string) :
  (forall q, q ∈ before -> exists t, get_text doc (q - 1) = Ok t) ->
  get_text doc (p - 1) = Raise e ->
  selected_text doc (before ++ p :: after) acc = Raise e.
Proof.
  revert acc. induction before as [|q l IH]; intros acc Hok He.
  - cbn [app selected_text]. by rewrite He.
  - cbn [app selected_text]. destruct (Hok q) as [t ->]; [by left |].
    apply IH; [| exact He]. intros q' Hq'. apply Hok. by right.
Qed.

(** X20.  When a selected page cannot be read and the selected pages
    before it can, [extract_text] returns "Error extracting text: ..."
    with the message of that failure; the text of the pages before it
    is dropped. *)
Theorem unreadable_page_replaces_the_text (doc : document) (self : t) (p : Z) (e : exn) :
  is_pdf self = true ->
  p ∈ selected_pages self ->
  get_text doc (p - 1) = Raise e ->
  is_Exception e = true ->
  (forall q, q ∈ selected_pages self -> q < p -> exists t, get_text doc (q - 1) = Ok t) ->
  extract_text doc self = Ok ("Error extracting text: " +:+ exn_str e).
Proof.
  intros Hpdf Hp He Hexn Hbefore. unfold extract_text. rewrite Hpdf.
  rewrite bool_decide_eq_false_2 by set_solver.
  assert (p ∈ sorted_pages (selected_pages self)) as Hin by by apply elem_of_sorted_pages.
  apply list_elem_of_split in Hin as (before & after & Hsplit).
  assert (StronglySorted Z.le (sorted_pages (selected_pages self))) as Hs
    by apply (StronglySorted_merge_sort Z.le).
  assert (NoDup (sorted_pages (selected_pages self))) as Hnd.
  { unfold sorted_pages. rewrite merge_sort_Permutation. apply NoDup_elements. }
  rewrite Hsplit in Hs, Hnd.
  apply StronglySorted_app in Hs as (Hle & _ & _).
  apply NoDup_app in Hnd as (_ & Hne & _).
  rewrite Hsplit, (selected_text_fails_at doc before after p e); [by rewrite Hexn | | exact He].
  intros q Hq. apply Hbefore.
  - apply elem_of_sorted_pages. rewrite Hsplit. apply elem_of_app. by left.
  - assert (q <= p) by (apply Hle; [exact Hq | by left]).
    assert (q <> p) by (intros ->; apply (Hne p Hq); by left). lia.
Qed.

End ExtractText.

Lemma select_range_adds_clamped_interval_witness :
  let self := DocumentViewer.set_entries (DocumentViewer.init (Some 3)) "5" "2" in
  DocumentViewer.selected_pages (DocumentViewer.select_range self) = {[3]}.
Proof.
  intros self.
  destruct (select_range_adds_clamped_interval self 5 2 eq_refl) as (_ & _ & _ & H).
  - cbn. lia.
  - reflexivity.
  - reflexivity.
  - apply set_eq. intros p. rewrite (H p), elem_of_singleton. cbn.
    rewrite elem_of_empty. split; [intros [[]|Hp]; lia | intros ->; right; lia].
Defined.

Lemma selecting_every_page_equals_selecting_none_witness :
  let doc := Samples.pdf None in
  let self := DocumentViewer.set_selected_pages (DocumentViewer.open_pdf doc)
                (list_to_set (seqZ 1 3)) in
  DocumentViewer.extract_text doc self
  = DocumentViewer.extract_text doc (DocumentViewer.clear_selection self).
Proof.
  intros doc self.
  exact (selecting_every_page_equals_selecting_none doc self eq_refl eq_refl).
Defined.

Lemma readable_pdf_extracts_without_error_witness :
  let cs := [DocumentViewer.Toggle_page_selection; DocumentViewer.Next_page;
             DocumentViewer.Next_page; DocumentViewer.Toggle_page_selection] in
  exists text,
    DocumentViewer.extract_text (Samples.pdf None)
      (DocumentViewer.run cs (DocumentViewer.open_pdf (Samples.pdf None)))
    = Py.Ok text.
Proof.
  intros cs. eexists.
  apply (readable_pdf_extracts_without_error (Samples.pdf None) Samples.page_text cs).
  - cbn. lia.
  - intros i Hi. cbn in Hi.
    assert (i = 0 \/ i = 1 \/ i = 2) as [->|[->| ->]] by lia; reflexivity.
Defined.

Lemma use_all_text_keeps_the_selection_witness :
  let doc := Samples.pdf None in
  let self := DocumentViewer.toggle_page_selection (DocumentViewer.open_pdf doc) in
  match DocumentViewer.use_selected doc self, DocumentViewer.use_all_text doc self with
  | Py.Ok (Some (selected, pages)), Py.Ok (all, all_pages) =>
      all = selected /\
      pages = DocumentViewer.sorted_pages (DocumentViewer.selected_pages self) /\
      all_pages = seqZ 1 (DocumentViewer.total_pages self)
  | Py.Raise e, Py.Raise e' => e = e'
  | _, _ => False
  end.
Proof.
  intros doc self.
  apply (use_all_text_keeps_the_selection doc self eq_refl).
  intros H. assert (1 ∈ DocumentViewer.selected_pages self) as Hin by (cbn; set_solver).
  rewrite H in Hin. set_solver.
Defined.

Lemma unreadable_page_replaces_the_text_witness :
  let doc := Samples.pdf (Some 1) in
  let self := DocumentViewer.set_selected_pages (DocumentViewer.open_pdf doc)
                {[1; 2; 3]} in
  DocumentViewer.extract_text doc self
  = Py.Ok "Error extracting text: cannot read the page".
Proof.
  intros doc self.
  apply (unreadable_page_replaces_the_text doc self 2
           (Py.Exn Py.Exception "cannot read the page") eq_refl).
  - cbn. set_solver.
  - reflexivity.
  - reflexivity.
  - intros q Hq Hlt. cbn in Hq.
    rewrite !elem_of_union, !elem_of_singleton in Hq.
    assert (q = 1) as -> by lia.
    eexists. reflexivity.
Defined.

(** ** The response queue as the user interface reads it *)

Section ResponseQueue.

Import Py ChatbotApp.
Import ModelThread (Chunk, Complete, Stopped, Error).

Lemma last_is_assistant_snoc (h : list entry) (e : entry) :
  last_is_assistant (h ++ [e]) = String.eqb (role e) "assistant".
Proof. unfold last_is_assistant. by rewrite last_snoc. Qed.

Lemma map_last_snoc (f : entry -> entry) (h : list entry) (e : entry) :
  map_last f (h ++ [e]) = h ++ [f e].
Proof.
  induction h as [|x h IH]; [reflexivity |].
  cbn [app map_last]. rewrite IH. by destruct h.
Qed.

Lemma removelast_snoc (h : list entry) (e : entry) : removelast (h ++ [e]) = h.
Proof. apply removelast_last. Qed.

Lemma chat_history_generation_over (self : t) :
  chat_history (generation_over self) = chat_history self.
Proof. reflexivity. Qed.

(** X21.  Whatever arrives on the response queue, in any order,
    [check_response_queue] changes nothing of the history before the
    assistant's entry that [send_message] added last: that entry is
    updated or removed, everything before it stays. *)
Theorem response_queue_keeps_earlier_history
  (queue : list ModelThread.response) (self : t) (h : list entry) (e : entry) :
  chat_history self = h ++ [e] ->
  role e = "assistant" ->
  last_is_assistant h = false ->
  chat_history (check_response_queue queue self) = h
  \/ exists e', chat_history (check_response_queue queue self) = h ++ [e']
                /\ role e' = "assistant".
Proof.
  intros Hh He Hlast.
  assert (chat_history self = h
          \/ exists e', chat_history self = h ++ [e'] /\ role e' = "assistant") as Hinv
    by (right; eauto).
  clear Hh He e. unfold check_response_queue.
  revert self Hinv. induction queue as [|r queue IH]; intros self Hinv; [exact Hinv |].
  cbn [foldl]. apply IH. clear IH.
  destruct Hinv as [Hh|(e & Hh & He)].
  - left. destruct r; cbn [process_response]; cbv zeta;
      rewrite ?chat_history_generation_over, Hh, ?Hlast; done.
  - destruct r as [chunk| | |msg]; cbn [process_response]; cbv zeta;
      rewrite ?chat_history_generation_over, ?Hh, ?last_is_assistant_snoc, ?He;
      cbn [String.eqb Ascii.eqb Bool.eqb]; cbv iota.
    + right. exists (add_content chunk e).
      cbn [chat_history set_chat_history]. by rewrite map_last_snoc.
    + right. exists (recount self e).
      cbn [chat_history set_chat_history]. by rewrite map_last_snoc.
    + rewrite ?last_snoc.
      destruct (truthy_str (strip (content e))); cbn [chat_history set_chat_history].
      * right. exists (recount self e). by rewrite map_last_snoc.
      * left. apply removelast_snoc.
    + right. by exists e.
Qed.





End ResponseQueue.

Lemma response_queue_keeps_earlier_history_witness :
  let h := Samples.earlier_exchange
           ++ [{| ChatbotApp.role := "user"; ChatbotApp.content := "And 7?";
                  ChatbotApp.tokens :=
                    TokenManager.count_text_tokens (TokenManager.init None)
                      (Some "And 7?") |}] in
  let final :=
    ChatbotApp.check_response_queue
      [ModelThread.Chunk "Seven "; ModelThread.Stopped; ModelThread.Chunk "is prime."]
      Samples.waiting in
  ChatbotApp.chat_history final = h
  \/ exists e', ChatbotApp.chat_history final = h ++ [e']
                /\ ChatbotApp.role e' = "assistant".
Proof.
  intros h final.
  apply (response_queue_keeps_earlier_history _ Samples.waiting h
           {| ChatbotApp.role := "assistant"; ChatbotApp.content := "";
              ChatbotApp.tokens := 0 |});
    vm_compute; reflexivity.
Defined.


(** ** From the click to the history *)

Section Conversation.

Import Py ChatbotApp.

Variable audio_duration : string -> result float.




Lemma send_message_result (self : t) :
  model_loaded self = true -> is_generating self = false ->
  (calculate_total_input_tokens audio_duration self
   <= inject_Z (TokenManager.max_context_tokens (token_manager self)))%Q ->
  truthy_str (typed_text self)
  || truthy_str (strip (widget_get (context_display self))) = true ->
  let sent := send_message audio_duration self in
  threads_started (fst sent) = [(turn_messages self, max_output_tokens self)] /\
  token_manager (snd sent) = token_manager self /\
  chat_history (snd sent)
  = chat_history self
    ++ [{| role := "user"; content := typed_text self;
           tokens := entry_tokens self (typed_text self)
                       (Some (TokenManager.count_text_tokens (token_manager self)
                                (Some (full_message_of self)))) |};
        {| role := "assistant"; content := "";
           tokens := 0 |}].
Proof.
  intros Hl Hg Hle Hin sent. subst sent. unfold send_message. rewrite Hl, Hg. cbn [negb].
  apply Qle_bool_iff in Hle. rewrite Hle. cbn [negb].
  fold (typed_text self).
  assert (negb (truthy_str (typed_text self))
          && negb (truthy_str (strip (widget_get (context_display self)))) = false)
    as Hin' by (rewrite <- negb_orb, Hin; reflexivity).
  rewrite Hin'.
  unfold add_message. cbv beta iota zeta.
  cbn [fst snd chat_history token_manager set_chat_history].
  unfold threads_started. rewrite !omap_app.
  unfold turn_messages, full_message_of, add_message. cbn [snd].
  fold (typed_text self).
  split; [| split; [reflexivity |]].
  - destruct (truthy_str (strip (widget_get (context_display self))));
      cbn -[build_messages typed_text entry_tokens strip widget_get
            TokenManager.count_text_tokens String.append];
      destruct (attachments self); reflexivity.
  - rewrite <- app_assoc. reflexivity.
Qed.


End Conversation.


Section SentMessagesNonblank.

Import Py ChatbotApp.

Variable audio_duration : string -> result float.

Lemma truthy_rstrip (s : string) : truthy_str (rstrip s) = has_nonspace s.
Proof.
  induction s as [|c r IH]; [reflexivity |].
  cbn [rstrip has_nonspace]. destruct (rstrip r) eqn:E; cbn in IH; rewrite <- IH.
  - destruct (is_space c); reflexivity.
  - by rewrite orb_true_r.
Qed.

Lemma has_nonspace_lstrip (s : string) : has_nonspace (lstrip s) = has_nonspace s.
Proof.
  induction s as [|c r IH]; [reflexivity |].
  cbn [lstrip has_nonspace]. destruct (is_space c) eqn:E; [by rewrite IH |].
  cbn [has_nonspace]. by rewrite E.
Qed.

Lemma has_nonspace_rstrip (s : string) : has_nonspace (rstrip s) = has_nonspace s.
Proof.
  induction s as [|c r IH]; [reflexivity |].
  cbn [rstrip has_nonspace]. rewrite <- IH.
  destruct (rstrip r) eqn:E; [| reflexivity].
  destruct (is_space c) eqn:Ec; cbn [has_nonspace]; by rewrite ?Ec.
Qed.

Lemma truthy_strip (s : string) : truthy_str (strip s) = has_nonspace s.
Proof. unfold strip. by rewrite truthy_rstrip, has_nonspace_lstrip. Qed.

Lemma strip_strip_nonblank (s : string) :
  truthy_str (strip s) = true -> truthy_str (strip (strip s)) = true.
Proof.
  rewrite !truthy_strip. unfold strip.
  by rewrite has_nonspace_rstrip, has_nonspace_lstrip.
Qed.

Lemma nonblank_history_messages (l : list entry) :
  Forall nonblank_message (history_messages l).
Proof.
  induction l as [|e l IH]; [constructor |].
  cbn [history_messages]. destruct (truthy_str (strip (content e))) eqn:E; [| exact IH].
  constructor; [| exact IH]. by exists (role e), (content e).
Qed.

(** X24.  Every message that [send_message] hands to the thread is a
    role/content dictionary with a string content that is not blank, and
    the last one is the new user message: the thread's own filters drop
    none of them. *)
Theorem sent_messages_are_nonblank (self : t) :
  model_loaded self = true -> is_generating self = false ->
  (calculate_total_input_tokens audio_duration self
   <= inject_Z (TokenManager.max_context_tokens (token_manager self)))%Q ->
  truthy_str (typed_text self)
  || truthy_str (strip (widget_get (context_display self))) = true ->
  exists messages,
    threads_started (fst (send_message audio_duration self))
    = [(messages, max_output_tokens self)] /\
    Forall nonblank_message messages /\
    last messages = Some (message "user" (full_message_of self)).
Proof.
  intros Hl Hg Hle Hin.
  destruct (send_message_result audio_duration self Hl Hg Hle Hin) as (Hth & _ & _).
  exists (turn_messages self). split; [exact Hth |].
  assert (truthy_str (strip (full_message_of self)) = true) as Hfull.
  { unfold full_message_of.
    destruct (truthy_str (strip (widget_get (context_display self)))) eqn:Ec.
    - rewrite truthy_strip. reflexivity.
    - cbn [orb] in Hin. rewrite orb_false_r in Hin.
      by apply strip_strip_nonblank. }
  assert (truthy_str (full_message_of self) = true) as Hfm.
  { destruct (full_message_of self); [discriminate Hfull | reflexivity]. }
  unfold turn_messages, build_messages. cbv zeta.
  fold (full_message_of self). rewrite Hfm.
  set (recent := if _ <? _ then _ else _).
  pose proof (nonblank_history_messages recent) as Hh.
  destruct (history_messages recent) as [|m l] eqn:E.
  - split; [| reflexivity]. constructor; [| constructor]. eauto.
    exists "user", (full_message_of self). auto.
  - split.
    + change (m :: l ++ ?x) with ((m :: l) ++ x). apply Forall_app. split; [exact Hh |].
      constructor; [| constructor]. exists "user", (full_message_of self). auto.
    + change (m :: l ++ ?x) with ((m :: l) ++ x). apply last_snoc.
Qed.

End SentMessagesNonblank.

Lemma sent_messages_are_nonblank_witness :
  exists messages,
    ChatbotApp.threads_started
      (fst (ChatbotApp.send_message Samples.ten_seconds (Samples.app "And 7?" "10" [])))
    = [(messages, 512)] /\
    Forall ChatbotApp.nonblank_message messages /\
    last messages = Some (ChatbotApp.message "user" "And 7?").
Proof.
  apply (sent_messages_are_nonblank Samples.ten_seconds (Samples.app "And 7?" "10" []));
    try reflexivity.
  vm_compute. discriminate.
Defined.

(** ** ChatHistoryViewer: the content preview *)

Section HistoryPreview.

Import Py ChatHistoryViewer.

Lemma length_append (a b : string) :
  String.length (a +:+ b) = (String.length a + String.length b)%nat.
Proof.
  induction a as [|c a IH]; [reflexivity |].
  rewrite append_cons. cbn [String.length]. by rewrite IH.
Qed.

Lemma length_replace_char (c d : ascii) (s : string) :
  String.length (replace (String c EmptyString) (String d EmptyString) s)
  = String.length s.
Proof.
  unfold replace. induction s as [|x r IH]; [reflexivity |].
  cbn [replace_from]. rewrite prefix_char.
  destruct (Ascii.eqb x c); rewrite ?append_cons, ?append_empty;
    cbn [String.length Nat.sub]; by rewrite IH.
Qed.

Lemma length_prefix_of_length (n : nat) (s : string) :
  (n <= String.length s)%nat -> String.length (prefix_of_length n s) = n.
Proof.
  unfold prefix_of_length. revert s. induction n as [|n IH]; intros s H.
  - by destruct s.
  - destruct s as [|c s]; cbn in H; [lia |].
    cbn [String.substring String.length]. rewrite IH; [done | lia].
Qed.

(** X25.  The content preview of the history viewer holds no line
    break and at most 63 characters: the content itself up to 60
    characters, and otherwise its first 60 characters and three dots
    (so a content of 61 or 62 characters gets a longer preview). *)
Theorem preview_fits_one_row (content : string) :
  String.length (preview content)
  = (if (60 <? String.length content)%nat then 63%nat else String.length content) /\
  (String.length (preview content) <= 63)%nat /\
  contains_char (ascii_of_nat 10) (preview content) = false.
Proof.
  unfold preview, newline. rewrite length_replace_char.
  assert (String.length
            (if (60 <? String.length content)%nat
             then prefix_of_length 60 content +:+ "..." else content)
          = if (60 <? String.length content)%nat then 63%nat
            else String.length content) as E.
  { destruct (60 <? String.length content)%nat eqn:E; [| reflexivity].
    apply Nat.ltb_lt in E.
    rewrite length_append, length_prefix_of_length by lia. reflexivity. }
  split; [exact E |]. split.
  - rewrite E. destruct (60 <? String.length content)%nat eqn:E'; [lia |].
    apply Nat.ltb_ge in E'. lia.
  - apply replace_char_removes. done.
Qed.

End HistoryPreview.
